(** * Pricing and discount engine of the Kachidham backend

    A shallow embedding of the pricing code of [orderService.js] and
    [discountService.js]: shipping rule, quantity-tier pricing, discount
    resolution, coupon validation, best-discount selection, the cart
    discount calculator, the two total-assembly paths and usage recording.

    Conventions of the embedding.
    - JavaScript numbers that carry money, percentages and caps are
      idealised as exact rationals ([Q]); results are compared with [==].
      Quantities, counters and timestamps are integers ([Z]).
    - [x.toFixed(2)] followed by [parseFloat]/[Number] is [round2].
    - A value that may be [null]/[undefined] is an [option]; the source's
      truthiness tests ([if (x)], [x || y], [x && ...]) are written out
      with [truthyQ], [truthyZ] and [truthyS].
    - The database is a record of tables (lists, in storage order); each
      Prisma query is a function of that record.  Functions that read the
      clock take the instant [now] as an argument.
    - A JavaScript [throw] is the [Err] side of [Result]. *)

From Stdlib Require Import ZArith QArith Qround Qminmax String Ascii List Bool.
From Stdlib Require Import Lia Lqa Permutation Sorted.
Import ListNotations.
Local Open Scope string_scope.
Local Open Scope Z_scope.
Local Open Scope Q_scope.

Set Implicit Arguments.

(* ================================================================== *)
(** ** JavaScript values *)

Definition Id := string.

Definition truthyQ (x : option Q) : bool :=
  match x with
  | Some q => negb (Qeq_bool q 0)
  | None => false
  end.

Definition truthyZ (x : option Z) : bool :=
  match x with
  | Some z => negb (Z.eqb z 0)
  | None => false
  end.

Definition truthyS (x : option string) : bool :=
  match x with
  | Some s => negb (String.eqb s "")
  | None => false
  end.

(** [a || b] on a nullable number and a number. *)
Definition orQ (a : option Q) (b : Q) : Q :=
  match a with
  | Some q => if Qeq_bool q 0 then b else q
  | None => b
  end.

(** [null] and [undefined] compare as 0 under [<], [>=]. *)
Definition numZ (x : option Z) : Z :=
  match x with Some z => z | None => 0%Z end.

Definition numQ (x : option Q) : Q :=
  match x with Some q => q | None => 0 end.

Definition Qltb (a b : Q) : bool := negb (Qle_bool b a).
Definition Qgtb (a b : Q) : bool := Qltb b a.

Definition Qmin2 (a b : Q) : Q := if Qle_bool a b then a else b.
Definition Qmax2 (a b : Q) : Q := if Qle_bool a b then b else a.

(** [Math.max(0, x)]. *)
Definition max0 (x : Q) : Q := Qmax2 0 x.

(** [parseFloat(x.toFixed(2))]: the nearest multiple of 1/100, a tie going
    away from zero. *)
Definition round2 (x : Q) : Q :=
  if Qle_bool 0 x
  then inject_Z (Qfloor (x * 100 + (1 # 2))) / 100
  else - (inject_Z (Qfloor ((- x) * 100 + (1 # 2))) / 100).

Definition eqb_oid (a b : option Id) : bool :=
  match a, b with
  | Some x, Some y => String.eqb x y
  | None, None => true
  | _, _ => false
  end.

(** Strings are sequences of Latin-1 code units. *)
Definition is_white_space (c : ascii) : bool :=
  let n := nat_of_ascii c in
  ((9 <=? n)%nat && (n <=? 13)%nat) || (n =? 32)%nat || (n =? 160)%nat.

Fixpoint trimStart (s : string) : string :=
  match s with
  | EmptyString => EmptyString
  | String c s' => if is_white_space c then trimStart s' else s
  end.

Fixpoint trimEnd (s : string) : string :=
  match s with
  | EmptyString => EmptyString
  | String c s' =>
      match trimEnd s' with
      | EmptyString =>
          if is_white_space c then EmptyString else String c EmptyString
      | t => String c t
      end
  end.

Definition trim (s : string) : string := trimEnd (trimStart s).

Definition lower_char (c : ascii) : ascii :=
  let n := nat_of_ascii c in
  if ((65 <=? n)%nat && (n <=? 90)%nat)
     || ((192 <=? n)%nat && (n <=? 222)%nat && negb (n =? 215)%nat)
  then ascii_of_nat (n + 32)
  else c.

Fixpoint toLowerCase (s : string) : string :=
  match s with
  | EmptyString => EmptyString
  | String c s' => String (lower_char c) (toLowerCase s')
  end.

(** The text of an exception or of a validation message.  Template
    literals that interpolate a number keep the number as data. *)
Inductive Message : Type :=
| Msg (s : string)
| MsgMinimumOrderAmount (minOrderAmount : Q)
    (* `Minimum order amount of Rs.${minOrderAmount} required` *)
| MsgMinimumOrderAmountForDiscount (minOrderAmount : option Q)
    (* `Minimum order amount of Rs.${discount.minOrderAmount} required for this discount` *)
| MsgInsufficientStock (variantId : Id) (available requested : Z).

(** An id interpolated in a template literal. *)
Definition idText (i : option Id) : string :=
  match i with Some s => s | None => "undefined" end.

(** Exceptions. *)
Inductive Result (A : Type) : Type :=
| Ok (a : A)
| Err (msg : Message).
Arguments Ok {A} a.
Arguments Err {A} msg.

Definition bind {A B} (r : Result A) (k : A -> Result B) : Result B :=
  match r with
  | Ok a => k a
  | Err m => Err m
  end.

Notation "x <- r ;; k" := (bind r (fun x => k))
  (at level 61, r at next level, right associativity).


(* ================================================================== *)
(** ** Data model (the Prisma models the pricing code reads and writes) *)

Inductive DiscountType : Type := PERCENTAGE | FIXED_AMOUNT | BUY_X_GET_Y.

Inductive PriceType : Type := PRICE_PERCENTAGE | PRICE_FIXED_AMOUNT.

Module Discount.
Record t : Type := mk {
  id : Id;
  name : string;
  discountType : DiscountType;
  discountValue : Q;
  productId : option Id;
  categoryId : option Id;
  subcategoryId : option Id;
  minQuantity : option Z;
  userType : option string;
  minOrderAmount : option Q;
  maxDiscount : option Q;
  usageLimit : option Z;
  perUserLimit : Z;
  validFrom : Z;
  validUntil : Z;
  isActive : bool;
  usedCount : Z;
  totalDiscounts : Q;
  createdAt : Z
}.
End Discount.

Module DiscountUsage.
Record t : Type := mk {
  discountId : Id;
  userId : option Id;
  orderId : Id;
  discountAmount : Q
}.
End DiscountUsage.

Module Product.
Record t : Type := mk {
  id : Id;
  name : string;
  normalPrice : Q;
  offerPrice : option Q;
  status : string;
  categoryId : option Id;
  subcategoryId : option Id
}.
End Product.

Module ProductVariant.
Record t : Type := mk {
  id : Id;
  stock : Z;
  price : option Q
}.
End ProductVariant.

Module User.
Record t : Type := mk {
  id : Id;
  role : string
}.
End User.

Module SubcategoryQuantityPrice.
Record t : Type := mk {
  subcategoryId : Id;
  quantity : Z;
  priceType : PriceType;
  value : Q;
  isActive : bool
}.
End SubcategoryQuantityPrice.

Module Order.
Record t : Type := mk {
  id : Id;
  userRole : string;
  subtotal : Q;
  discount : Q;
  totalAmount : Q
}.
End Order.

Record DB : Type := mkDB {
  products : list Product.t;
  productVariants : list ProductVariant.t;
  discounts : list Discount.t;
  discountUsages : list DiscountUsage.t;
  users : list User.t;
  subcategoryQuantityPrices : list SubcategoryQuantityPrice.t;
  orders : list Order.t
}.

(** A stable sort: what [orderBy] and [Array.prototype.sort] produce for
    a comparator, [before a b] saying that [a] may stay in front of [b]. *)
Section Sort.
Variable A : Type.
Variable before : A -> A -> bool.

Fixpoint insert (x : A) (l : list A) : list A :=
  match l with
  | [] => [x]
  | y :: l' => if before x y then x :: l else y :: insert x l'
  end.

Definition sort (l : list A) : list A := fold_right insert [] l.
End Sort.

(** [prisma.product.findUnique({ where: { id } })]; an [undefined] id is
    rejected by the client. *)
Definition product_findUnique (db : DB) (productId : option Id)
  : Result (option Product.t) :=
  match productId with
  | None => Err (Msg "Invalid `prisma.product.findUnique()` invocation")
  | Some i => Ok (find (fun p => String.eqb (Product.id p) i) (products db))
  end.

Definition discount_findUnique (db : DB) (i : Id) : option Discount.t :=
  find (fun d => String.eqb (Discount.id d) i) (discounts db).

(** [prisma.discountUsage.count({ where: { discountId, userId } })]. *)
Definition discountUsage_count (db : DB) (discountId : Id) (userId : option Id)
  : Z :=
  Z.of_nat (List.length
    (filter (fun u => String.eqb (DiscountUsage.discountId u) discountId
                      && eqb_oid (DiscountUsage.userId u) userId)
            (discountUsages db))).

Definition user_findUnique (db : DB) (i : Id) : option User.t :=
  find (fun u => String.eqb (User.id u) i) (users db).

Definition productVariant_findUnique (db : DB) (i : Id)
  : option ProductVariant.t :=
  find (fun v => String.eqb (ProductVariant.id v) i) (productVariants db).

Definition order_findUnique (db : DB) (i : Id) : option Order.t :=
  find (fun o => String.eqb (Order.id o) i) (orders db).

(** [prisma.discountUsage.findFirst({ where: { discountId, orderId } })]. *)
Definition discountUsage_findFirst (db : DB) (discountId orderId : Id)
  : option DiscountUsage.t :=
  find (fun u => String.eqb (DiscountUsage.discountId u) discountId
                 && String.eqb (DiscountUsage.orderId u) orderId)
       (discountUsages db).

Definition set_discounts (db : DB) (l : list Discount.t) : DB :=
  mkDB (products db) (productVariants db) l (discountUsages db) (users db)
       (subcategoryQuantityPrices db) (orders db).

Definition set_discountUsages (db : DB) (l : list DiscountUsage.t) : DB :=
  mkDB (products db) (productVariants db) (discounts db) l (users db)
       (subcategoryQuantityPrices db) (orders db).

Definition set_orders (db : DB) (l : list Order.t) : DB :=
  mkDB (products db) (productVariants db) (discounts db) (discountUsages db)
       (users db) (subcategoryQuantityPrices db) l.

(** [prisma.discountUsage.create]: a new row at the end of the table. *)
Definition discountUsage_create (db : DB) (row : DiscountUsage.t) : DB :=
  set_discountUsages db (discountUsages db ++ [row]).

(** [prisma.discount.update] with [usedCount: { increment: 1 }] and
    [totalDiscounts: { increment: amount }]. *)
Definition incrementUsage (amount : Q) (d : Discount.t) : Discount.t :=
  Discount.mk (Discount.id d) (Discount.name d) (Discount.discountType d)
    (Discount.discountValue d) (Discount.productId d) (Discount.categoryId d)
    (Discount.subcategoryId d) (Discount.minQuantity d) (Discount.userType d)
    (Discount.minOrderAmount d) (Discount.maxDiscount d) (Discount.usageLimit d)
    (Discount.perUserLimit d) (Discount.validFrom d) (Discount.validUntil d)
    (Discount.isActive d) (Discount.usedCount d + 1)%Z
    (Discount.totalDiscounts d + amount) (Discount.createdAt d).

Definition discount_incrementUsage (db : DB) (discountId : Id) (amount : Q)
  : DB :=
  set_discounts db
    (map (fun d => if String.eqb (Discount.id d) discountId
                   then incrementUsage amount d else d)
         (discounts db)).

(** [prisma.order.update] with [discount: { increment }] and
    [totalAmount: { decrement }]. *)
Definition order_applyDiscount (db : DB) (orderId : Id) (amount : Q) : DB :=
  set_orders db
    (map (fun o => if String.eqb (Order.id o) orderId
                   then Order.mk (Order.id o) (Order.userRole o)
                          (Order.subtotal o) (Order.discount o + amount)
                          (Order.totalAmount o - amount)
                   else o)
         (orders db)).

(** An order line as the client sends it. *)
Module OrderItem.
Record t : Type := mk {
  productId : option Id;
  quantity : Z;
  productVariantId : option Id
}.
End OrderItem.

(** The descriptor objects pushed on [appliedDiscounts]; a property that
    a path does not set is [None].  [discountId] is [descriptor.discount?.id]. *)
Module AppliedDiscount.
Record t : Type := mk {
  type : string;
  code : option string;
  name : option string;
  productId : option Id;
  discountType : option DiscountType;
  discountValue : option Q;
  amount : Q;
  discountId : option Id;
  description : option string
}.
End AppliedDiscount.

Definition DiscountType_name (t : DiscountType) : string :=
  match t with
  | PERCENTAGE => "PERCENTAGE"
  | FIXED_AMOUNT => "FIXED_AMOUNT"
  | BUY_X_GET_Y => "BUY_X_GET_Y"
  end.

Definition set_productVariants (db : DB) (l : list ProductVariant.t) : DB :=
  mkDB (products db) l (discounts db) (discountUsages db) (users db)
       (subcategoryQuantityPrices db) (orders db).

(** [prisma.productVariant.update] with [stock: { increment: by }]; a
    [decrement] is a negative [by].  The client raises an error when no
    row has the key. *)
Definition productVariant_incrementStock (db : DB) (i : Id) (by_ : Z)
  : Result DB :=
  match productVariant_findUnique db i with
  | None => Err (Msg "Record to update not found")
  | Some _ =>
      Ok (set_productVariants db
            (map (fun v => if String.eqb (ProductVariant.id v) i
                           then ProductVariant.mk (ProductVariant.id v)
                                  (ProductVariant.stock v + by_)
                                  (ProductVariant.price v)
                           else v)
                 (productVariants db)))
  end.

(* ================================================================== *)
(** ** services/discountService.js *)

Module DiscountService.

(** *** getProductDiscounts *)

(** [orderBy: [{ discountValue: 'desc' }, { createdAt: 'desc' }]]. *)
Definition orderBy_value_created (a b : Discount.t) : bool :=
  Qltb (Discount.discountValue b) (Discount.discountValue a)
  || (Qeq_bool (Discount.discountValue a) (Discount.discountValue b)
      && (Discount.createdAt b <=? Discount.createdAt a)%Z).

(** The [OR] of the [where] clause.  An equality filter on a nullable
    column whose argument is [null] selects the rows where the column
    is null, so the comparison is equality of optional ids. *)
Definition where_scope (productId : option Id) (product : Product.t)
    (d : Discount.t) : bool :=
  eqb_oid (Discount.productId d) productId
  || eqb_oid (Discount.categoryId d) (Product.categoryId product)
  || eqb_oid (Discount.subcategoryId d) (Product.subcategoryId product)
  || (eqb_oid (Discount.productId d) None
      && eqb_oid (Discount.categoryId d) None
      && eqb_oid (Discount.subcategoryId d) None).

Definition where_active (now : Z) (d : Discount.t) : bool :=
  Discount.isActive d
  && (Discount.validFrom d <=? now)%Z
  && (now <=? Discount.validUntil d)%Z.

Definition role_of (db : DB) (userId : option Id) : option string :=
  match userId with
  | Some i => option_map User.role (user_findUnique db i)
  | None => None
  end.

Definition eqb_ostr (a b : option string) : bool := eqb_oid a b.

(** The callback of [discounts.map]: the discount, or [null]. *)
Definition eligibleOrNull (db : DB) (userId : option Id) (d : Discount.t)
  : option Discount.t :=
  if truthyS (Discount.userType d)
     && negb (eqb_ostr (Discount.userType d) (Some "ALL"))
     && truthyS userId
     && negb (eqb_ostr (role_of db userId) (Discount.userType d))
  then None
  else if (0 <? Discount.perUserLimit d)%Z
          && truthyS userId
          && (Discount.perUserLimit d
                <=? discountUsage_count db (Discount.id d) userId)%Z
  then None
  else if truthyZ (Discount.usageLimit d)
          && (numZ (Discount.usageLimit d) <=? Discount.usedCount d)%Z
  then None
  else Some d.

Fixpoint removeNull (A : Type) (l : list (option A)) : list A :=
  match l with
  | [] => []
  | Some a :: l' => a :: removeNull l'
  | None :: l' => removeNull l'
  end.

Definition getProductDiscounts (db : DB) (now : Z)
    (productId : option Id) (userId : option Id)
  : Result (list Discount.t) :=
  product <- product_findUnique db productId ;;
  match product with
  | None => Err (Msg "Product not found")
  | Some product =>
      let discounts :=
        sort orderBy_value_created
          (filter (fun d => where_scope productId product d
                            && where_active now d)
                  (discounts db)) in
      Ok (removeNull (map (eligibleOrNull db userId) discounts))
  end.

(** *** validateDiscount *)

Module Validated.
Record t : Type := mk {
  id : Id;
  name : string;
  discountType : DiscountType;
  discountValue : Q;
  maxDiscount : option Q;
  discountAmount : Q;
  maxDiscountReached : bool;
  minOrderAmount : Q
}.
End Validated.

(** [{ isValid: true, discount }] or [{ isValid: false, message }]. *)
Inductive Validation : Type :=
| Valid (discount : Validated.t)
| Invalid (message : Message).

(** The two lookups: by name among the active discounts, then by id. *)
Definition findByCode (db : DB) (code : string) : option Discount.t :=
  match find (fun d => String.eqb (Discount.name d) code
                       && Discount.isActive d) (discounts db) with
  | Some d => Some d
  | None => discount_findUnique db code
  end.

(** The amount and the [maxDiscountReached] flag. *)
Definition discountAmountOf (discount : Discount.t) (orderAmt : Q)
  : Q * bool :=
  match Discount.discountType discount with
  | PERCENTAGE =>
      let discountAmount := (orderAmt * Discount.discountValue discount) / 100 in
      if truthyQ (Discount.maxDiscount discount)
         && Qgtb discountAmount (numQ (Discount.maxDiscount discount))
      then (numQ (Discount.maxDiscount discount), true)
      else (discountAmount, false)
  | _ => (Discount.discountValue discount, false)
  end.

Definition validateDiscount (db : DB) (now : Z) (code : string)
    (userId : option Id) (orderAmount : Q) : Validation :=
  let orderAmt := orderAmount in
  match findByCode db code with
  | None => Invalid (Msg "Invalid discount code")
  | Some discount =>
      if negb (Discount.isActive discount)
      then Invalid (Msg "Discount is not active")
      else if (now <? Discount.validFrom discount)%Z
      then Invalid (Msg "Discount not yet valid")
      else if (Discount.validUntil discount <? now)%Z
      then Invalid (Msg "Discount has expired")
      else if truthyZ (Discount.usageLimit discount)
              && (numZ (Discount.usageLimit discount)
                    <=? Discount.usedCount discount)%Z
      then Invalid (Msg "Discount usage limit reached")
      else if (0 <? Discount.perUserLimit discount)%Z
              && truthyS userId
              && (Discount.perUserLimit discount
                    <=? discountUsage_count db (Discount.id discount) userId)%Z
      then Invalid (Msg "You have reached the usage limit for this discount")
      else
        let minOrderAmount := orQ (Discount.minOrderAmount discount) 0 in
        if Qltb orderAmt minOrderAmount
        then Invalid (MsgMinimumOrderAmount minOrderAmount)
        else
          let '(discountAmount, maxDiscountReached) :=
            discountAmountOf discount orderAmt in
          Valid (Validated.mk (Discount.id discount) (Discount.name discount)
                   (Discount.discountType discount)
                   (Discount.discountValue discount)
                   (Discount.maxDiscount discount)
                   discountAmount maxDiscountReached
                   (orQ (Discount.minOrderAmount discount) 0))
  end.

(** *** getBestProductDiscount *)

Module CartItem.
Record t : Type := mk {
  product : Product.t;
  quantity : Z;
  productId : option Id
}.
End CartItem.

(** [product.offerPrice || product.normalPrice]. *)
Definition priceOf (product : Product.t) : Q :=
  orQ (Product.offerPrice product) (Product.normalPrice product).

(** [{ ...discount, calculatedAmount, finalPrice }]. *)
Module Best.
Record t : Type := mk {
  discount : Discount.t;
  calculatedAmount : Q;
  finalPrice : Q
}.
End Best.

(** The guard that [continue]s the loop. *)
Definition belowMinQuantity (discount : Discount.t) (quantity : Z) : bool :=
  truthyZ (Discount.minQuantity discount)
  && (quantity <? numZ (Discount.minQuantity discount))%Z.

(** The [switch] on [discount.discountType]. *)
Definition lineAmount (discount : Discount.t) (quantity : Z)
    (totalPrice : Q) : Q :=
  match Discount.discountType discount with
  | PERCENTAGE =>
      let discountAmount :=
        (totalPrice * Discount.discountValue discount) / 100 in
      if truthyQ (Discount.maxDiscount discount)
      then Qmin2 discountAmount (numQ (Discount.maxDiscount discount))
      else discountAmount
  | FIXED_AMOUNT => Qmin2 (Discount.discountValue discount) totalPrice
  | BUY_X_GET_Y =>
      if (numZ (Discount.minQuantity discount) <=? quantity)%Z
      then Discount.discountValue discount
      else 0
  end.

Fixpoint bestLoop (discounts : list Discount.t) (quantity : Z)
    (totalPrice : Q) (bestDiscount : option Best.t) (maxDiscountAmount : Q)
  : option Best.t :=
  match discounts with
  | [] => bestDiscount
  | discount :: rest =>
      if belowMinQuantity discount quantity
      then bestLoop rest quantity totalPrice bestDiscount maxDiscountAmount
      else
        let discountAmount := lineAmount discount quantity totalPrice in
        if Qgtb discountAmount maxDiscountAmount
        then bestLoop rest quantity totalPrice
               (Some (Best.mk discount discountAmount
                        (max0 (totalPrice - discountAmount))))
               discountAmount
        else bestLoop rest quantity totalPrice bestDiscount maxDiscountAmount
  end.

Definition getBestProductDiscount (discounts : list Discount.t)
    (cartItem : CartItem.t) : option Best.t :=
  let unitPrice := priceOf (CartItem.product cartItem) in
  let totalPrice := unitPrice * inject_Z (CartItem.quantity cartItem) in
  bestLoop discounts (CartItem.quantity cartItem) totalPrice None 0.

(** *** calculateProductDiscount *)

Module ProductDiscount.
Record t : Type := mk {
  hasDiscount : bool;
  originalPrice : Q;
  finalPrice : Q;
  discountAmount : Q;
  bestDiscount : option Best.t
}.
End ProductDiscount.

(** The per-unit amount computed in [applicableDiscounts.map]. *)
Definition unitAmount (discount : Discount.t) (price : Q) : Q :=
  match Discount.discountType discount with
  | PERCENTAGE =>
      let discountAmount := (price * Discount.discountValue discount) / 100 in
      if truthyQ (Discount.maxDiscount discount)
         && Qgtb discountAmount (numQ (Discount.maxDiscount discount))
      then numQ (Discount.maxDiscount discount)
      else discountAmount
  | FIXED_AMOUNT => Qmin2 (Discount.discountValue discount) price
  | BUY_X_GET_Y => Qmin2 (Discount.discountValue discount) price
  end.

Definition withAmount (price : Q) (discount : Discount.t) : Best.t :=
  let discountAmount := unitAmount discount price in
  Best.mk discount discountAmount (max0 (price - discountAmount)).

(** [(a, b) => b.calculatedAmount - a.calculatedAmount]: [a] stays in
    front of [b] unless [b] has the strictly greater amount. *)
Definition byAmountDesc (a b : Best.t) : bool :=
  Qle_bool (Best.calculatedAmount b) (Best.calculatedAmount a).

Definition calculateProductDiscount (db : DB) (now : Z) (productId : Id)
    (userId : option Id) : Result ProductDiscount.t :=
  product <- product_findUnique db (Some productId) ;;
  match product with
  | None => Err (Msg "Product not found")
  | Some product =>
      applicableDiscounts <-
        getProductDiscounts db now (Some productId) userId ;;
      let price := priceOf product in
      match applicableDiscounts with
      | [] => Ok (ProductDiscount.mk false price price 0 None)
      | _ :: _ =>
          let discountsWithAmount :=
            sort byAmountDesc (map (withAmount price) applicableDiscounts) in
          match discountsWithAmount with
          | bestDiscount :: _ =>
              Ok (ProductDiscount.mk true price
                    (Best.finalPrice bestDiscount)
                    (Best.calculatedAmount bestDiscount)
                    (Some bestDiscount))
          | [] => Err (Msg "Cannot read properties of undefined")
          end
      end
  end.

(** *** calculateCartDiscounts *)

Module CartDiscounts.
Record t : Type := mk {
  subtotal : Q;
  totalDiscount : Q;
  finalTotal : Q;
  appliedDiscounts : list AppliedDiscount.t;
  errors : option (list Message);
  discountCode : option string
}.
End CartDiscounts.

Definition cartSubtotal (cartItems : list CartItem.t) : Q :=
  fold_left
    (fun sum item =>
       let price := priceOf (CartItem.product item) in
       sum + price * inject_Z (CartItem.quantity item))
    cartItems 0.

Definition orderLevelDescriptor (discountCode : string)
    (discount : Validated.t) : AppliedDiscount.t :=
  AppliedDiscount.mk "ORDER_LEVEL" (Some discountCode)
    (Some (Validated.name discount))
    None
    (Some (Validated.discountType discount))
    (Some (Validated.discountValue discount))
    (Validated.discountAmount discount)
    None
    (Some "User applied coupon").

Definition productLevelDescriptor (item : CartItem.t)
    (bestDiscount : Best.t) : AppliedDiscount.t :=
  AppliedDiscount.mk "PRODUCT_LEVEL" None None
    (CartItem.productId item)
    (Some (Discount.discountType (Best.discount bestDiscount)))
    (Some (Discount.discountValue (Best.discount bestDiscount)))
    (Best.calculatedAmount bestDiscount)
    None
    (Some "Automatic best offer applied").

(** The [for] loop of the no-coupon branch, on the running
    [totalDiscount] and [appliedDiscounts]. *)
Fixpoint autoApplyLoop (db : DB) (now : Z) (userId : option Id)
    (cartItems : list CartItem.t)
    (totalDiscount : Q) (appliedDiscounts : list AppliedDiscount.t)
  : Result (Q * list AppliedDiscount.t) :=
  match cartItems with
  | [] => Ok (totalDiscount, appliedDiscounts)
  | item :: rest =>
      productDiscounts <-
        getProductDiscounts db now (CartItem.productId item) userId ;;
      match productDiscounts with
      | [] => autoApplyLoop db now userId rest totalDiscount appliedDiscounts
      | _ :: _ =>
          match getBestProductDiscount productDiscounts item with
          | None =>
              autoApplyLoop db now userId rest totalDiscount appliedDiscounts
          | Some bestDiscount =>
              autoApplyLoop db now userId rest
                (totalDiscount + Best.calculatedAmount bestDiscount)
                (appliedDiscounts ++ [productLevelDescriptor item bestDiscount])
          end
      end
  end.

Definition calculateCartDiscounts (db : DB) (now : Z)
    (cartItems : list CartItem.t) (userId : option Id)
    (discountCode : option string) : Result CartDiscounts.t :=
  let subtotal := cartSubtotal cartItems in
  if truthyS discountCode then
    let code := match discountCode with Some c => c | None => "" end in
    let '(totalDiscount, appliedDiscounts, errors) :=
      match validateDiscount db now code userId subtotal with
      | Invalid message => (0, [], [message])
      | Valid discount =>
          (0 + Validated.discountAmount discount,
           [orderLevelDescriptor code discount], [])
      end in
    let finalTotal := max0 (subtotal - totalDiscount) in
    Ok (CartDiscounts.mk (round2 subtotal) (round2 totalDiscount)
          (round2 finalTotal) appliedDiscounts
          (match errors with [] => None | _ => Some errors end)
          discountCode)
  else
    r <- autoApplyLoop db now userId cartItems 0 [] ;;
    let '(totalDiscount, appliedDiscounts) := r in
    let finalTotal := max0 (subtotal - totalDiscount) in
    Ok (CartDiscounts.mk (round2 subtotal) (round2 totalDiscount)
          (round2 finalTotal) appliedDiscounts None None).

(** *** calculateShippingCost: [shippingRates[state] || shippingRates['Other']].
    The property lookup on the object literal finds its six own keys and,
    for any other key, the members that every object inherits from
    [Object.prototype]: functions and, under [__proto__], the prototype
    object itself.  They are all truthy, so that [||] hands them on. *)
Definition shippingRates : list (string * Q) :=
  [ ("Tamil Nadu", 80); ("Kerala", 100); ("Karnataka", 100);
    ("Andhra Pradesh", 100); ("Telangana", 100); ("Other", 200) ].

Fixpoint lookupRate (table : list (string * Q)) (key : string) : option Q :=
  match table with
  | [] => None
  | (k, v) :: rest => if String.eqb k key then Some v else lookupRate rest key
  end.

(** The property names of [Object.prototype]. *)
Definition objectPrototype : list string :=
  [ "constructor"; "__defineGetter__"; "__defineSetter__"; "hasOwnProperty";
    "__lookupGetter__"; "__lookupSetter__"; "isPrototypeOf";
    "propertyIsEnumerable"; "toString"; "valueOf"; "__proto__";
    "toLocaleString" ].

Definition inherited (key : string) : bool :=
  existsb (String.eqb key) objectPrototype.

(** What the lookup gives: a rate, or the inherited member of that
    name, which is not a number. *)
Inductive Looked : Type :=
| Rate (rate : Q)
| Member (name : string).

Definition calculateShippingCost (state : option string) : Looked :=
  let key := match state with Some s => s | None => "null" end in
  match lookupRate shippingRates key with
  | Some rate =>
      Rate (orQ (Some rate) (numQ (lookupRate shippingRates "Other")))
  | None =>
      if inherited key then Member key
      else Rate (numQ (lookupRate shippingRates "Other"))
  end.

(** *** calculateFinalAmountWithDiscounts (both definitions) *)

Module CartData.
Record t : Type := mk {
  cartItems : list OrderItem.t;
  shippingState : option string
}.
End CartData.

(** The [data] of [{ success: true, data }]. *)
Module FinalAmount.
Record t : Type := mk {
  subtotal : Q;
  totalDiscount : Q;
  shipping : Q;
  finalTotal : Q;
  appliedDiscounts : list AppliedDiscount.t;
  errors : option (list Message);
  discountCode : option string
}.
End FinalAmount.

Module ItemWithDetails.
Record t : Type := mk {
  product : Product.t;
  price : Q;
  quantity : Z;
  itemTotal : Q
}.
End ItemWithDetails.

(** The first [for] loop, shared by both definitions. *)
Fixpoint detailsLoop (db : DB) (cartItems : list OrderItem.t)
    (subtotal : Q) (itemsWithDetails : list ItemWithDetails.t)
  : Result (Q * list ItemWithDetails.t) :=
  match cartItems with
  | [] => Ok (subtotal, itemsWithDetails)
  | item :: rest =>
      product <- product_findUnique db (OrderItem.productId item) ;;
      match product with
      | None =>
          Err (Msg ("Product " ++ idText (OrderItem.productId item)
                    ++ " not found"))
      | Some product =>
          let price := priceOf product in
          let itemTotal := price * inject_Z (OrderItem.quantity item) in
          detailsLoop db rest (subtotal + itemTotal)
            (itemsWithDetails
               ++ [ItemWithDetails.mk product price
                     (OrderItem.quantity item) itemTotal])
      end
  end.

(** Lines 2491-2554: delegates to [calculateCartDiscounts]; the items it
    passes carry no [productId]. *)
Definition calculateFinalAmountWithDiscounts_1 (db : DB) (now : Z)
    (cartData : CartData.t) (userId : option Id)
    (discountCode : option string) : Result FinalAmount.t :=
  r <- detailsLoop db (CartData.cartItems cartData) 0 [] ;;
  let '(subtotal, itemsWithDetails) := r in
  discountResult <-
    calculateCartDiscounts db now
      (map (fun item => CartItem.mk (ItemWithDetails.product item)
                          (ItemWithDetails.quantity item) None)
           itemsWithDetails)
      userId discountCode ;;
  match calculateShippingCost (CartData.shippingState cartData) with
  | Member _ => Err (Msg "shippingCost.toFixed is not a function")
  | Rate shippingCost =>
      let finalTotal :=
        max0 (subtotal - CartDiscounts.totalDiscount discountResult
              + shippingCost) in
      Ok (FinalAmount.mk (round2 subtotal)
            (CartDiscounts.totalDiscount discountResult)
            (round2 shippingCost) (round2 finalTotal)
            (CartDiscounts.appliedDiscounts discountResult)
            (CartDiscounts.errors discountResult)
            discountCode)
  end.

Definition codeDescriptor (discount : Validated.t) (amount : Q)
  : AppliedDiscount.t :=
  AppliedDiscount.mk "CODE" None None None None None amount
    (Some (Validated.id discount)) None.

Definition productDescriptor (product : Product.t) (bestDiscount : Best.t)
    (amount : Q) : AppliedDiscount.t :=
  AppliedDiscount.mk
    (DiscountType_name (Discount.discountType (Best.discount bestDiscount)))
    None None (Some (Product.id product)) None None amount
    (Some (Discount.id (Best.discount bestDiscount))) None.

(** The second [for] loop of lines 2939-2955, on the running
    [productDiscounts] and [appliedDiscounts]. *)
Fixpoint productDiscountsLoop (db : DB) (now : Z) (userId : option Id)
    (itemsWithDetails : list ItemWithDetails.t)
    (productDiscounts : Q) (appliedDiscounts : list AppliedDiscount.t)
  : Result (Q * list AppliedDiscount.t) :=
  match itemsWithDetails with
  | [] => Ok (productDiscounts, appliedDiscounts)
  | item :: rest =>
      productDiscount <-
        calculateProductDiscount db now
          (Product.id (ItemWithDetails.product item)) userId ;;
      match ProductDiscount.hasDiscount productDiscount,
            ProductDiscount.bestDiscount productDiscount with
      | true, Some bestDiscount =>
          let itemDiscount :=
            ProductDiscount.discountAmount productDiscount
            * inject_Z (ItemWithDetails.quantity item) in
          productDiscountsLoop db now userId rest
            (productDiscounts + itemDiscount)
            (appliedDiscounts
               ++ [productDescriptor (ItemWithDetails.product item)
                     bestDiscount itemDiscount])
      | true, None => Err (Msg "Cannot read properties of undefined")
      | false, _ =>
          productDiscountsLoop db now userId rest
            productDiscounts appliedDiscounts
      end
  end.

(** Lines 2880-2977: the coupon and, on top of it, the per-product
    discounts. *)
Definition calculateFinalAmountWithDiscounts_2 (db : DB) (now : Z)
    (cartData : CartData.t) (userId : option Id)
    (discountCode : option string) : Result FinalAmount.t :=
  r <- detailsLoop db (CartData.cartItems cartData) 0 [] ;;
  let '(subtotal, itemsWithDetails) := r in
  let '(discountAmount, appliedDiscounts, errors) :=
    if truthyS discountCode then
      let code := match discountCode with Some c => c | None => "" end in
      match validateDiscount db now code userId subtotal with
      | Valid discount =>
          let discountAmount := Validated.discountAmount discount in
          (discountAmount, [codeDescriptor discount discountAmount], [])
      | Invalid message => (0, [], [message])
      end
    else (0, [], []) in
  p <- productDiscountsLoop db now userId itemsWithDetails 0 appliedDiscounts ;;
  let '(productDiscounts, appliedDiscounts) := p in
  let totalDiscount := discountAmount + productDiscounts in
  match calculateShippingCost (CartData.shippingState cartData) with
  | Member _ => Err (Msg "shippingCost.toFixed is not a function")
  | Rate shippingCost =>
      let finalTotal := max0 (subtotal - totalDiscount + shippingCost) in
      Ok (FinalAmount.mk (round2 subtotal) (round2 totalDiscount)
            (round2 shippingCost) (round2 finalTotal)
            appliedDiscounts
            (match errors with [] => None | _ => Some errors end)
            discountCode)
  end.

(** The class body lists its methods in source order; evaluating the
    class defines each on the prototype in turn, a later definition
    replacing an earlier one of the same name. *)
Definition Method : Type :=
  DB -> Z -> CartData.t -> option Id -> option string -> Result FinalAmount.t.

Definition classBody : list (string * Method) :=
  [ ("calculateFinalAmountWithDiscounts", calculateFinalAmountWithDiscounts_1);
    ("calculateFinalAmountWithDiscounts", calculateFinalAmountWithDiscounts_2) ].

Fixpoint defineMethods (body : list (string * Method)) (name : string)
    (current : option Method) : option Method :=
  match body with
  | [] => current
  | (k, m) :: rest =>
      defineMethods rest name (if String.eqb k name then Some m else current)
  end.

Definition calculateFinalAmountWithDiscounts : Method :=
  match defineMethods classBody "calculateFinalAmountWithDiscounts" None with
  | Some m => m
  | None => fun _ _ _ _ _ =>
      Err (Msg "calculateFinalAmountWithDiscounts is not a function")
  end.

(** *** applyDiscount *)

Definition applyDiscount (db : DB) (now : Z)
    (orderId discountId userId : Id) : Result (DB * DiscountUsage.t) :=
  match discount_findUnique db discountId with
  | None => Err (Msg "Discount not found")
  | Some discount =>
      if negb (Discount.isActive discount)
      then Err (Msg "Discount is not active")
      else if (now <? Discount.validFrom discount)%Z
              || (Discount.validUntil discount <? now)%Z
      then Err (Msg "Discount is not valid at this time")
      else if truthyZ (Discount.usageLimit discount)
              && (numZ (Discount.usageLimit discount)
                    <=? Discount.usedCount discount)%Z
      then Err (Msg "Discount usage limit reached")
      else if (0 <? Discount.perUserLimit discount)%Z
              && (Discount.perUserLimit discount
                    <=? discountUsage_count db discountId (Some userId))%Z
      then Err (Msg "You have reached the usage limit for this discount")
      else
        match discountUsage_findFirst db discountId orderId with
        | Some _ => Err (Msg "Discount has already been applied to this order")
        | None =>
            match order_findUnique db orderId with
            | None => Err (Msg "Order not found")
            | Some order =>
                if truthyS (Discount.userType discount)
                   && negb (eqb_ostr (Some (Order.userRole order))
                              (Discount.userType discount))
                then Err (Msg "You are not eligible for this discount")
                else if Qltb (Order.subtotal order)
                          (numQ (Discount.minOrderAmount discount))
                then Err (MsgMinimumOrderAmountForDiscount
                            (Discount.minOrderAmount discount))
                else
                  let discountAmount :=
                    fst (discountAmountOf discount (Order.subtotal order)) in
                  let db1 := order_applyDiscount db orderId discountAmount in
                  let discountUsage :=
                    DiscountUsage.mk discountId (Some userId) orderId
                      discountAmount in
                  let db2 := discountUsage_create db1 discountUsage in
                  let db3 :=
                    discount_incrementUsage db2 discountId discountAmount in
                  Ok (db3, discountUsage)
            end
        end
  end.

(** *** getActiveDiscounts *)

Module ActiveFilters.
Record t : Type := mk {
  userId : option Id;
  productId : option Id;
  categoryId : option Id;
  subcategoryId : option Id
}.
End ActiveFilters.

(** [{ AND: [{ productId: null }, { categoryId: null },
    { subcategoryId: null }] }]. *)
Definition where_sitewide (d : Discount.t) : bool :=
  eqb_oid (Discount.productId d) None
  && eqb_oid (Discount.categoryId d) None
  && eqb_oid (Discount.subcategoryId d) None.

(** The scope part of [where], as the four branches build it; the
    product's category and subcategory are pushed when the product is
    found. *)
Definition where_filters (filters : ActiveFilters.t)
    (product : option Product.t) (d : Discount.t) : bool :=
  if truthyS (ActiveFilters.productId filters) then
    let OR :=
      eqb_oid (Discount.productId d) (ActiveFilters.productId filters)
      || where_sitewide d in
    match product with
    | Some product =>
        OR
        || eqb_oid (Discount.categoryId d) (Product.categoryId product)
        || eqb_oid (Discount.subcategoryId d) (Product.subcategoryId product)
    | None => OR
    end
  else if truthyS (ActiveFilters.categoryId filters) then
    eqb_oid (Discount.categoryId d) (ActiveFilters.categoryId filters)
    || where_sitewide d
  else if truthyS (ActiveFilters.subcategoryId filters) then
    eqb_oid (Discount.subcategoryId d) (ActiveFilters.subcategoryId filters)
    || where_sitewide d
  else where_sitewide d.

Definition getActiveDiscounts (db : DB) (now : Z) (filters : ActiveFilters.t)
  : Result (list Discount.t) :=
  product <-
    (if truthyS (ActiveFilters.productId filters)
     then product_findUnique db (ActiveFilters.productId filters)
     else Ok None) ;;
  let discounts :=
    sort orderBy_value_created
      (filter (fun d => where_active now d && where_filters filters product d)
              (discounts db)) in
  Ok (removeNull
        (map (eligibleOrNull db (ActiveFilters.userId filters)) discounts)).

(** *** createDiscount *)

(** The request body, with a number for [discountValue] and two dates;
    an absent field is [None]. *)
Module DiscountData.
Record t : Type := mk {
  name : string;
  discountType : DiscountType;
  discountValue : Q;
  productId : option Id;
  categoryId : option Id;
  subcategoryId : option Id;
  minQuantity : option Z;
  userType : option string;
  minOrderAmount : option Q;
  maxDiscount : option Q;
  usageLimit : option Z;
  perUserLimit : option Z;
  validFrom : Z;
  validUntil : Z;
  isActive : option bool
}.
End DiscountData.

(** The category and subcategory tables, by their keys. *)
Module Taxonomy.
Record t : Type := mk {
  categories : list Id;
  subcategories : list Id
}.
End Taxonomy.

Definition mem_id (i : Id) (l : list Id) : bool := existsb (String.eqb i) l.

(** [prisma.discount.create]: the row gets the key [id] that the store
    generates and the creation time [now], and goes to the end of the
    table. *)
Definition createDiscount (db : DB) (taxonomy : Taxonomy.t) (now : Z)
    (id : Id) (discountData : DiscountData.t) : Result (DB * Discount.t) :=
  if Qle_bool (DiscountData.discountValue discountData) 0
  then Err (Msg "Discount value must be greater than 0")
  else if match DiscountData.discountType discountData with
          | PERCENTAGE => Qgtb (DiscountData.discountValue discountData) 100
          | _ => false
          end
  then Err (Msg "Percentage discount cannot exceed 100%")
  else if (DiscountData.validUntil discountData
             <=? DiscountData.validFrom discountData)%Z
  then Err (Msg "Valid from date must be before valid until date")
  else
    _ <- (if truthyS (DiscountData.productId discountData) then
            product <- product_findUnique db
                         (DiscountData.productId discountData) ;;
            match product with
            | None => Err (Msg "Product not found")
            | Some _ => Ok tt
            end
          else Ok tt) ;;
    if truthyS (DiscountData.categoryId discountData)
       && negb (mem_id (idText (DiscountData.categoryId discountData))
                  (Taxonomy.categories taxonomy))
    then Err (Msg "Category not found")
    else if truthyS (DiscountData.subcategoryId discountData)
            && negb (mem_id (idText (DiscountData.subcategoryId discountData))
                       (Taxonomy.subcategories taxonomy))
    then Err (Msg "Subcategory not found")
    else
      let discount :=
        Discount.mk id (DiscountData.name discountData)
          (DiscountData.discountType discountData)
          (DiscountData.discountValue discountData)
          (DiscountData.productId discountData)
          (DiscountData.categoryId discountData)
          (DiscountData.subcategoryId discountData)
          (DiscountData.minQuantity discountData)
          (DiscountData.userType discountData)
          (Some (orQ (DiscountData.minOrderAmount discountData) 0))
          (DiscountData.maxDiscount discountData)
          (DiscountData.usageLimit discountData)
          (if truthyZ (DiscountData.perUserLimit discountData)
           then numZ (DiscountData.perUserLimit discountData) else 1%Z)
          (DiscountData.validFrom discountData)
          (DiscountData.validUntil discountData)
          (match DiscountData.isActive discountData with
           | Some b => b
           | None => true
           end)
          0%Z 0 now in
      Ok (set_discounts db (discounts db ++ [discount]), discount).

(** *** updateDiscount *)

(** The request body: for each column of the model other than the key,
    the counters and the creation time, [None] when the field is absent;
    on a nullable column a present field is a value or [null]. *)
Module UpdateData.
Record t : Type := mk {
  name : option string;
  discountType : option DiscountType;
  discountValue : option Q;
  productId : option (option Id);
  categoryId : option (option Id);
  subcategoryId : option (option Id);
  minQuantity : option (option Z);
  userType : option (option string);
  minOrderAmount : option (option Q);
  maxDiscount : option (option Q);
  usageLimit : option (option Z);
  perUserLimit : option Z;
  validFrom : option Z;
  validUntil : option Z;
  isActive : option bool
}.
End UpdateData.

Definition or_else (A : Type) (x : option A) (y : A) : A :=
  match x with Some a => a | None => y end.

(** The row after [prisma.discount.update] with
    [{ ...updateData, validFrom, validUntil }]. *)
Definition updated (updateData : UpdateData.t) (d : Discount.t) : Discount.t :=
  Discount.mk (Discount.id d)
    (or_else (UpdateData.name updateData) (Discount.name d))
    (or_else (UpdateData.discountType updateData) (Discount.discountType d))
    (or_else (UpdateData.discountValue updateData) (Discount.discountValue d))
    (or_else (UpdateData.productId updateData) (Discount.productId d))
    (or_else (UpdateData.categoryId updateData) (Discount.categoryId d))
    (or_else (UpdateData.subcategoryId updateData) (Discount.subcategoryId d))
    (or_else (UpdateData.minQuantity updateData) (Discount.minQuantity d))
    (or_else (UpdateData.userType updateData) (Discount.userType d))
    (or_else (UpdateData.minOrderAmount updateData) (Discount.minOrderAmount d))
    (or_else (UpdateData.maxDiscount updateData) (Discount.maxDiscount d))
    (or_else (UpdateData.usageLimit updateData) (Discount.usageLimit d))
    (or_else (UpdateData.perUserLimit updateData) (Discount.perUserLimit d))
    (or_else (UpdateData.validFrom updateData) (Discount.validFrom d))
    (or_else (UpdateData.validUntil updateData) (Discount.validUntil d))
    (or_else (UpdateData.isActive updateData) (Discount.isActive d))
    (Discount.usedCount d) (Discount.totalDiscounts d) (Discount.createdAt d).

Definition discount_update (db : DB) (discountId : Id)
    (f : Discount.t -> Discount.t) : DB :=
  set_discounts db
    (map (fun d => if String.eqb (Discount.id d) discountId then f d else d)
         (discounts db)).

Definition updateDiscount (db : DB) (discountId : Id)
    (updateData : UpdateData.t) : Result (DB * Discount.t) :=
  match discount_findUnique db discountId with
  | None => Err (Msg "Discount not found")
  | Some discount =>
      if match UpdateData.discountValue updateData with
         | Some discountValue => Qle_bool discountValue 0
         | None => false
         end
      then Err (Msg "Discount value must be greater than 0")
      else if match UpdateData.discountValue updateData,
                     UpdateData.discountType updateData with
              | Some discountValue, Some PERCENTAGE => Qgtb discountValue 100
              | _, _ => false
              end
      then Err (Msg "Percentage discount cannot exceed 100%")
      else
        let validFrom :=
          or_else (UpdateData.validFrom updateData)
            (Discount.validFrom discount) in
        let validUntil :=
          or_else (UpdateData.validUntil updateData)
            (Discount.validUntil discount) in
        if match UpdateData.validFrom updateData,
                 UpdateData.validUntil updateData with
           | None, None => false
           | _, _ => (validUntil <=? validFrom)%Z
           end
        then Err (Msg "Valid from date must be before valid until date")
        else Ok (discount_update db discountId (updated updateData),
                 updated updateData discount)
  end.

(** *** deleteDiscount *)

Definition deleteDiscount (db : DB) (discountId : Id) : Result DB :=
  match discount_findUnique db discountId with
  | None => Err (Msg "Discount not found")
  | Some discount =>
      if (0 <? Discount.usedCount discount)%Z
      then Err (Msg "Cannot delete discount that has been used")
      else Ok (set_discounts db
                 (filter (fun d => negb (String.eqb (Discount.id d) discountId))
                         (discounts db)))
  end.

(** *** toggleDiscountActivation *)

(** The argument [isActive] as the route hands it over: a boolean, a
    string, or anything else of the request body. *)
Inductive Flag : Type :=
| FlagBool (b : bool)
| FlagString (s : string)
| FlagOther.

Definition setActive (activationStatus : bool) (d : Discount.t) : Discount.t :=
  Discount.mk (Discount.id d) (Discount.name d) (Discount.discountType d)
    (Discount.discountValue d) (Discount.productId d) (Discount.categoryId d)
    (Discount.subcategoryId d) (Discount.minQuantity d) (Discount.userType d)
    (Discount.minOrderAmount d) (Discount.maxDiscount d) (Discount.usageLimit d)
    (Discount.perUserLimit d) (Discount.validFrom d) (Discount.validUntil d)
    activationStatus (Discount.usedCount d) (Discount.totalDiscounts d)
    (Discount.createdAt d).

Definition toggleDiscountActivation (db : DB) (discountId : Id)
    (isActive : Flag) : Result (DB * Discount.t) :=
  match discount_findUnique db discountId with
  | None => Err (Msg "Discount not found")
  | Some discount =>
      let activationStatus :=
        match isActive with
        | FlagBool b => b
        | FlagString s => String.eqb s "true"
        | FlagOther => false
        end in
      Ok (discount_update db discountId (setActive activationStatus),
          setActive activationStatus discount)
  end.

End DiscountService.

(** A number is a value of the lookup. *)
Coercion DiscountService.Rate : Q >-> DiscountService.Looked.

(* ================================================================== *)
(** ** services/orderService.js *)

Module OrderService.

(** *** calculateShippingCost *)
Definition calculateShippingCost (state : option string) : Q :=
  if negb (truthyS state) then 200
  else
    let normalizedState :=
      toLowerCase (trim (match state with Some s => s | None => "" end)) in
    if String.eqb normalizedState "tamil nadu" then 80
    else if String.eqb normalizedState "kerala"
            || String.eqb normalizedState "karnataka"
            || String.eqb normalizedState "andhra pradesh"
            || String.eqb normalizedState "telangana"
    then 100
    else 200.

(** *** calculateItemQuantityPrice *)

Module QuantityPricing.
Record t : Type := mk {
  originalPrice : Q;
  finalPrice : Q;
  totalSavings : Q;
  pricePerItem : Q;
  hasDiscount : bool;
  appliedDiscount : option SubcategoryQuantityPrice.t
}.
End QuantityPricing.

Definition byQuantityDesc (a b : SubcategoryQuantityPrice.t) : bool :=
  (SubcategoryQuantityPrice.quantity b <=? SubcategoryQuantityPrice.quantity a)%Z.

(** [prisma.subcategoryQuantityPrice.findMany] with its [where] and
    [orderBy]. *)
Definition quantityPrices_findMany (db : DB) (subcategoryId : Id)
    (quantity : Z) : list SubcategoryQuantityPrice.t :=
  sort byQuantityDesc
    (filter (fun r =>
               String.eqb (SubcategoryQuantityPrice.subcategoryId r) subcategoryId
               && SubcategoryQuantityPrice.isActive r
               && (SubcategoryQuantityPrice.quantity r <=? quantity)%Z)
            (subcategoryQuantityPrices db)).

Definition finalPriceForRule (priceRule : SubcategoryQuantityPrice.t)
    (basePrice : Q) (quantity : Z) : Q :=
  match SubcategoryQuantityPrice.priceType priceRule with
  | PRICE_PERCENTAGE =>
      (basePrice * inject_Z quantity)
      * (1 - SubcategoryQuantityPrice.value priceRule / 100)
  | PRICE_FIXED_AMOUNT => SubcategoryQuantityPrice.value priceRule
  end.

Fixpoint bestTotalLoop (quantityPrices : list SubcategoryQuantityPrice.t)
    (basePrice : Q) (quantity : Z)
    (bestTotal : Q) (appliedDiscount : option SubcategoryQuantityPrice.t)
  : Q * option SubcategoryQuantityPrice.t :=
  match quantityPrices with
  | [] => (bestTotal, appliedDiscount)
  | priceRule :: rest =>
      if (SubcategoryQuantityPrice.quantity priceRule <=? quantity)%Z then
        let finalPriceForRule := finalPriceForRule priceRule basePrice quantity in
        if Qltb finalPriceForRule bestTotal
        then bestTotalLoop rest basePrice quantity finalPriceForRule
               (Some priceRule)
        else bestTotalLoop rest basePrice quantity bestTotal appliedDiscount
      else bestTotalLoop rest basePrice quantity bestTotal appliedDiscount
  end.

(** [pricePerItem] divides by [quantity], which the caller has checked
    to be positive. *)
Definition calculateItemQuantityPrice (db : DB) (productId : Id)
    (subcategoryId : option Id) (basePrice : Q) (quantity : Z)
  : QuantityPricing.t :=
  if negb (truthyS subcategoryId) then
    QuantityPricing.mk (basePrice * inject_Z quantity)
      (basePrice * inject_Z quantity) 0 basePrice false None
  else
    let sub := match subcategoryId with Some i => i | None => "" end in
    let quantityPrices := quantityPrices_findMany db sub quantity in
    let '(bestTotal, appliedDiscount) :=
      bestTotalLoop quantityPrices basePrice quantity
        (basePrice * inject_Z quantity) None in
    let totalSavings := (basePrice * inject_Z quantity) - bestTotal in
    QuantityPricing.mk (basePrice * inject_Z quantity) bestTotal
      totalSavings (bestTotal / inject_Z quantity)
      (match appliedDiscount with Some _ => true | None => false end)
      appliedDiscount.

(** *** calculateOrderTotals *)

Module ItemWithPricing.
Record t : Type := mk {
  item : OrderItem.t;
  product : Product.t;
  variant : option Id;
  basePrice : Q;
  quantityPricing : QuantityPricing.t;
  itemTotal : Q;
  itemSavings : Q
}.
End ItemWithPricing.

Module OrderTotals.
Record t : Type := mk {
  subtotal : Q;
  quantitySavings : Q;
  discountAmount : Q;
  appliedDiscounts : list AppliedDiscount.t;
  shippingCost : Q;
  shippingState : option string;
  totalAmount : Q;
  items : list ItemWithPricing.t;
  hasQuantityDiscounts : bool;
  discountError : option (list Message)
}.
End OrderTotals.

(** The variant lookup and stock check; the variant's own price. *)
Definition variantPriceOf (db : DB) (item : OrderItem.t)
  : Result (option Q) :=
  if truthyS (OrderItem.productVariantId item) then
    let vid := idText (OrderItem.productVariantId item) in
    match productVariant_findUnique db vid with
    | None => Err (Msg ("Product variant not found: " ++ vid))
    | Some variant =>
        if (ProductVariant.stock variant <? OrderItem.quantity item)%Z
        then Err (MsgInsufficientStock vid (ProductVariant.stock variant)
                    (OrderItem.quantity item))
        else Ok (ProductVariant.price variant)
    end
  else Ok None.

(** The [product] object copied into [itemsWithPricing]. *)
Definition pricedProduct (product : Product.t) : Product.t :=
  Product.mk (Product.id product) (Product.name product)
    (Product.normalPrice product)
    (if truthyQ (Product.offerPrice product)
     then Product.offerPrice product else None)
    (Product.status product) (Product.categoryId product)
    (Product.subcategoryId product).

Fixpoint pricingLoop (db : DB) (orderItems : list OrderItem.t)
    (subtotal quantitySavings : Q) (itemsWithPricing : list ItemWithPricing.t)
  : Result (Q * Q * list ItemWithPricing.t) :=
  match orderItems with
  | [] => Ok (subtotal, quantitySavings, itemsWithPricing)
  | item :: rest =>
      if negb (truthyS (OrderItem.productId item))
         || (OrderItem.quantity item =? 0)%Z
         || (OrderItem.quantity item <=? 0)%Z
      then Err (Msg "Invalid order item: productId and quantity are required")
      else
        product <- product_findUnique db (OrderItem.productId item) ;;
        match product with
        | None =>
            Err (Msg ("Product not found: "
                      ++ idText (OrderItem.productId item)))
        | Some product =>
            if negb (String.eqb (Product.status product) "ACTIVE")
            then Err (Msg ("Product " ++ Product.id product
                           ++ " is not available for purchase"))
            else
              variantPrice <- variantPriceOf db item ;;
              let basePrice :=
                match variantPrice with
                | Some v => v
                | None => DiscountService.priceOf product
                end in
              let quantityPriceCalculation :=
                calculateItemQuantityPrice db (Product.id product)
                  (Product.subcategoryId product) basePrice
                  (OrderItem.quantity item) in
              let itemTotal :=
                QuantityPricing.finalPrice quantityPriceCalculation in
              let itemSavings :=
                QuantityPricing.totalSavings quantityPriceCalculation in
              pricingLoop db rest (subtotal + itemTotal)
                (quantitySavings + itemSavings)
                (itemsWithPricing
                   ++ [ItemWithPricing.mk item (pricedProduct product)
                         (if truthyS (OrderItem.productVariantId item)
                          then OrderItem.productVariantId item else None)
                         basePrice quantityPriceCalculation
                         itemTotal itemSavings])
        end
  end.

Definition toCartItem (item : ItemWithPricing.t) : DiscountService.CartItem.t :=
  DiscountService.CartItem.mk (ItemWithPricing.product item)
    (OrderItem.quantity (ItemWithPricing.item item))
    (OrderItem.productId (ItemWithPricing.item item)).

Definition calculateOrderTotals (db : DB) (now : Z)
    (orderItems : list OrderItem.t) (discountCode : option string)
    (shippingState : option string) (userId : option Id)
  : Result OrderTotals.t :=
  match orderItems with
  | [] => Err (Msg "Order items are required and must be a non-empty array")
  | _ :: _ =>
      r <- pricingLoop db orderItems 0 0 [] ;;
      let '(subtotal, quantitySavings, itemsWithPricing) := r in
      let '(discountAmount, appliedDiscounts, discountError) :=
        if truthyS discountCode then
          match DiscountService.calculateCartDiscounts db now
                  (map toCartItem itemsWithPricing) userId discountCode with
          | Ok discountResult =>
              (DiscountService.CartDiscounts.totalDiscount discountResult,
               DiscountService.CartDiscounts.appliedDiscounts discountResult,
               DiscountService.CartDiscounts.errors discountResult)
          | Err message => (0, [], Some [message])
          end
        else (0, [], None) in
      let shippingCost := calculateShippingCost shippingState in
      let totalAmount := subtotal - discountAmount + shippingCost in
      Ok (OrderTotals.mk (round2 subtotal) (round2 quantitySavings)
            (round2 discountAmount) appliedDiscounts
            (round2 shippingCost)
            (if truthyS shippingState then shippingState else None)
            (round2 totalAmount) itemsWithPricing
            (Qgtb quantitySavings 0) discountError)
  end.

(** *** verifyAndCreateOrder: the totals and the usage recording *)

Module OrderData.
Record t : Type := mk {
  userId : option Id;
  orderItems : list OrderItem.t;
  discountCode : option string;
  state : option string;
  subtotal : option Q;
  discountAmount : option Q;
  shipping : option Q;
  totalAmount : option Q;
  appliedDiscounts : option (list AppliedDiscount.t)
}.
End OrderData.

(** Lines 382-389: the [cartData] built from the order. *)
Definition cartDataOf (orderData : OrderData.t) : DiscountService.CartData.t :=
  DiscountService.CartData.mk
    (map (fun item => OrderItem.mk (OrderItem.productId item)
                        (OrderItem.quantity item) None)
         (OrderData.orderItems orderData))
    (OrderData.state orderData).

(** Lines 392-418: [discountResult.data]. *)
Definition verifyAndCreateOrder_totals (db : DB) (now : Z)
    (orderData : OrderData.t) : DiscountService.FinalAmount.t :=
  let cartData := cartDataOf orderData in
  match DiscountService.calculateFinalAmountWithDiscounts db now cartData
          (OrderData.userId orderData) (OrderData.discountCode orderData) with
  | Ok data => data
  | Err _ =>
      DiscountService.FinalAmount.mk
        (orQ (OrderData.subtotal orderData) 0)
        (orQ (OrderData.discountAmount orderData) 0)
        (orQ (OrderData.shipping orderData) 0)
        (orQ (OrderData.totalAmount orderData) 0)
        (match OrderData.appliedDiscounts orderData with
         | Some l => l
         | None => []
         end)
        None None
  end.

(** Lines 560-582: the body of the recording loop for one descriptor.
    An insert that names no stored discount is refused by the store; the
    [catch] logs it and the loop goes on. *)
Definition recordDiscountUsage (userId : option Id) (orderId : Id)
    (db : DB) (discount : AppliedDiscount.t) : DB :=
  if truthyS (AppliedDiscount.discountId discount) then
    let discountId := idText (AppliedDiscount.discountId discount) in
    match discount_findUnique db discountId with
    | None => db
    | Some _ =>
        let db1 :=
          discountUsage_create db
            (DiscountUsage.mk discountId userId orderId
               (AppliedDiscount.amount discount)) in
        discount_incrementUsage db1 discountId (AppliedDiscount.amount discount)
    end
  else db.

(** Lines 557-584. *)
Definition verifyAndCreateOrder_recordUsage (db : DB) (userId : option Id)
    (orderId : Id) (appliedDiscounts : list AppliedDiscount.t) : DB :=
  fold_left (recordDiscountUsage userId orderId) appliedDiscounts db.

(** Lines 540-555: the stock update of the confirmation path, each
    update inside its own [try]. *)
Definition verifyAndCreateOrder_updateStock (db : DB)
    (orderItems : list OrderItem.t) : DB :=
  fold_left
    (fun db item =>
       if truthyS (OrderItem.productVariantId item) then
         match productVariant_incrementStock db
                 (idText (OrderItem.productVariantId item))
                 (- OrderItem.quantity item) with
         | Ok db' => db'
         | Err _ => db
         end
       else db)
    orderItems db.

(** *** The order tables *)

(** The columns of an order that the functions below read or write. *)
Module OrderRow.
Record t : Type := mk {
  id : Id;
  orderNumber : string;
  userId : Id;
  status : string;
  paymentStatus : string;
  paymentMethod : string;
  totalAmount : Q;
  subtotal : Q;
  discount : option Q;
  shippingCost : Q;
  createdAt : Z
}.
End OrderRow.

Module OrderItemRow.
Record t : Type := mk {
  orderId : Id;
  productId : option Id;
  productVariantId : option Id;
  quantity : Z;
  price : Q
}.
End OrderItemRow.

(** The store with the order and order item tables. *)
Module Store.
Record t : Type := mk {
  db : DB;
  order : list OrderRow.t;
  orderItem : list OrderItemRow.t
}.
End Store.

Definition orderRow_findUnique (st : Store.t) (i : Id) : option OrderRow.t :=
  find (fun o => String.eqb (OrderRow.id o) i) (Store.order st).

(** *** createCODOrder *)

Module CODOrderData.
Record t : Type := mk {
  userId : option Id;
  name : option string;
  email : option string;
  phone : option string;
  address : option string;
  city : option string;
  state : option string;
  pincode : option string;
  orderItems : list OrderItem.t;
  couponCode : option string
}.
End CODOrderData.

(** The rows of [orderItems: { create: ... }]. *)
Definition orderItemRowOf (orderId : Id) (item : ItemWithPricing.t)
  : OrderItemRow.t :=
  OrderItemRow.mk orderId
    (OrderItem.productId (ItemWithPricing.item item))
    (if truthyS (OrderItem.productVariantId (ItemWithPricing.item item))
     then OrderItem.productVariantId (ItemWithPricing.item item)
     else None)
    (OrderItem.quantity (ItemWithPricing.item item))
    (ItemWithPricing.basePrice item).

(** Lines 753-763: the stock update, outside any [try]. *)
Fixpoint updateStockLoop (db : DB) (orderItems : list OrderItem.t)
  : Result DB :=
  match orderItems with
  | [] => Ok db
  | item :: rest =>
      if truthyS (OrderItem.productVariantId item) then
        db' <- productVariant_incrementStock db
                 (idText (OrderItem.productVariantId item))
                 (- OrderItem.quantity item) ;;
        updateStockLoop db' rest
      else updateStockLoop db rest
  end.

(** [createCODOrder], with the key [id] and the [orderNumber] that the
    store and [generateOrderNumber] produce; [totals] has neither a
    [couponDiscount] nor a [coupon] property, so that the [discount]
    column is not supplied and no coupon is connected or counted.  The
    image, tracking and mail side of the function is outside the
    store. *)
Definition createCODOrder (st : Store.t) (now : Z) (id : Id)
    (orderNumber : string) (orderData : CODOrderData.t)
  : Result (Store.t * OrderRow.t * OrderTotals.t) :=
  if negb (truthyS (CODOrderData.name orderData))
     || negb (truthyS (CODOrderData.email orderData))
     || negb (truthyS (CODOrderData.phone orderData))
     || negb (truthyS (CODOrderData.address orderData))
     || negb (truthyS (CODOrderData.city orderData))
     || negb (truthyS (CODOrderData.state orderData))
     || negb (truthyS (CODOrderData.pincode orderData))
  then Err (Msg "All shipping information fields are required")
  else
    totals <- calculateOrderTotals (Store.db st) now
                (CODOrderData.orderItems orderData)
                (CODOrderData.couponCode orderData) None None ;;
    match CODOrderData.userId orderData with
    | None => Err (Msg "Invalid `prisma.order.create()` invocation")
    | Some userId =>
        match user_findUnique (Store.db st) userId with
        | None => Err (Msg "No 'User' record was found for a nested connect")
        | Some _ =>
            let order :=
              OrderRow.mk id orderNumber userId "CONFIRMED" "PENDING" "COD"
                (OrderTotals.totalAmount totals) (OrderTotals.subtotal totals)
                None (OrderTotals.shippingCost totals) now in
            db' <- updateStockLoop (Store.db st)
                     (CODOrderData.orderItems orderData) ;;
            Ok (Store.mk db' (Store.order st ++ [order])
                  (Store.orderItem st
                   ++ map (orderItemRowOf id) (OrderTotals.items totals)),
                order, totals)
        end
    end.

(** *** cancelExpiredPendingOrders *)

Definition isExpiredPending (now : Z) (o : OrderRow.t) : bool :=
  String.eqb (OrderRow.status o) "PENDING"
  && String.eqb (OrderRow.paymentStatus o) "PENDING"
  && (OrderRow.createdAt o <? now - 24 * 60 * 60 * 1000)%Z.

Definition cancelled (o : OrderRow.t) : OrderRow.t :=
  OrderRow.mk (OrderRow.id o) (OrderRow.orderNumber o) (OrderRow.userId o)
    "CANCELLED" "FAILED" (OrderRow.paymentMethod o) (OrderRow.totalAmount o)
    (OrderRow.subtotal o) (OrderRow.discount o) (OrderRow.shippingCost o)
    (OrderRow.createdAt o).

(** The body of the [for] loop: [prisma.order.update] by key. *)
Definition cancelOrder (st : Store.t) (order : OrderRow.t) : Store.t :=
  Store.mk (Store.db st)
    (map (fun o => if String.eqb (OrderRow.id o) (OrderRow.id order)
                   then cancelled o else o)
         (Store.order st))
    (Store.orderItem st).

Module Cancellation.
Record t : Type := mk {
  cancelledCount : Z;
  cancelledOrders : list string
}.
End Cancellation.

Definition cancelExpiredPendingOrders (st : Store.t) (now : Z)
  : Store.t * Cancellation.t :=
  let expiredOrders := filter (isExpiredPending now) (Store.order st) in
  (fold_left cancelOrder expiredOrders st,
   Cancellation.mk (Z.of_nat (List.length expiredOrders))
     (map OrderRow.orderNumber expiredOrders)).

(** *** deleteOrder *)

(** Lines 1605-1614: the stock of the order's lines goes back. *)
Fixpoint restoreStockLoop (db : DB) (orderItems : list OrderItemRow.t)
  : Result DB :=
  match orderItems with
  | [] => Ok db
  | item :: rest =>
      if truthyS (OrderItemRow.productVariantId item) then
        db' <- productVariant_incrementStock db
                 (idText (OrderItemRow.productVariantId item))
                 (OrderItemRow.quantity item) ;;
        restoreStockLoop db' rest
      else restoreStockLoop db rest
  end.

Definition deleteOrder (st : Store.t) (orderId : Id) : Result Store.t :=
  match orderRow_findUnique st orderId with
  | None => Err (Msg "Order not found")
  | Some order =>
      if String.eqb (OrderRow.status order) "SHIPPED"
         || String.eqb (OrderRow.status order) "DELIVERED"
      then Err (Msg ("Cannot delete order with status: "
                     ++ OrderRow.status order))
      else
        let orderItems :=
          filter (fun item => String.eqb (OrderItemRow.orderId item) orderId)
                 (Store.orderItem st) in
        db' <- restoreStockLoop (Store.db st) orderItems ;;
        Ok (Store.mk db'
              (filter (fun o => negb (String.eqb (OrderRow.id o) orderId))
                      (Store.order st))
              (filter (fun item =>
                         negb (String.eqb (OrderItemRow.orderId item) orderId))
                      (Store.orderItem st)))
  end.

End OrderService.

(* ================================================================== *)
(** ** controllers/discountController.js *)

Module DiscountController.

(** [self.findIndex(callback)], with [None] for -1. *)
Fixpoint findIndex (A : Type) (callback : A -> bool) (self : list A)
  : option nat :=
  match self with
  | [] => None
  | d :: rest =>
      if callback d then Some 0%nat
      else option_map S (findIndex callback rest)
  end.

(** [self.filter((element, index, self) => callback)], from [index] on. *)
Fixpoint filterFrom (A : Type) (callback : A -> nat -> bool) (l : list A)
    (index : nat) : list A :=
  match l with
  | [] => []
  | x :: rest =>
      if callback x index then x :: filterFrom callback rest (S index)
      else filterFrom callback rest (S index)
  end.

Definition eqb_index (index : nat) (found : option nat) : bool :=
  match found with
  | Some i => Nat.eqb index i
  | None => false
  end.

(** The removal of duplicates. *)
Definition uniqueDiscounts (discounts : list Discount.t) : list Discount.t :=
  filterFrom
    (fun discount index =>
       eqb_index index
         (findIndex (fun d => String.eqb (Discount.id d) (Discount.id discount))
            discounts))
    discounts 0.

(** The [for] loop over [productIds]. *)
Fixpoint collectLoop (db : DB) (now : Z) (userId : option Id)
    (productIds : list (option Id)) (discounts : list Discount.t)
  : Result (list Discount.t) :=
  match productIds with
  | [] => Ok discounts
  | productId :: rest =>
      productDiscounts <-
        DiscountService.getProductDiscounts db now productId userId ;;
      collectLoop db now userId rest (discounts ++ productDiscounts)
  end.

(** [getAvailableDiscounts] on a body whose [cartItems] is an array: the
    [data] of the answer, or the error handed to [asyncHandler]. *)
Definition getAvailableDiscounts (db : DB) (now : Z)
    (cartItems : list OrderItem.t) (userId : option Id)
  : Result (list Discount.t) :=
  let productIds := map OrderItem.productId cartItems in
  discounts <- collectLoop db now userId productIds [] ;;
  sitewideDiscounts <-
    DiscountService.getActiveDiscounts db now
      (DiscountService.ActiveFilters.mk userId None None None) ;;
  Ok (uniqueDiscounts (discounts ++ sitewideDiscounts)).

End DiscountController.

(* ================================================================== *)
(** ** services/razorpayService.js *)

Module RazorpayService.

(** [Math.round]: the nearest integer, a half going up. *)
Definition Math_round (x : Q) : Z := Qfloor (x + (1 # 2)).

(** The amount that [createOrder] and [refundPayment] hand to the
    gateway for a numeric [amount]. *)
Definition amountInPaise (amount : Q) : Z :=
  if Qltb amount 1000 then Math_round (amount * 100)
  else Math_round amount.

End RazorpayService.

Unset Implicit Arguments.

(* ================================================================== *)
(** ** Specification-side definitions *)

(** A string that does not begin with white space. *)
Definition startsClean (s : string) : Prop :=
  match s with
  | EmptyString => True
  | String c _ => is_white_space c = false
  end.

(** A rule qualifies for a line: active, of the line's subcategory, with a
    threshold that the quantity reaches. *)
Definition qualifies (db : DB) (sub : Id) (quantity : Z)
    (r : SubcategoryQuantityPrice.t) : Prop :=
  In r (subcategoryQuantityPrices db)
  /\ SubcategoryQuantityPrice.subcategoryId r = sub
  /\ SubcategoryQuantityPrice.isActive r = true
  /\ (SubcategoryQuantityPrice.quantity r <= quantity)%Z.

(** The total a rule gives, in the words of the specification. *)
Definition ruleTotalSpec (r : SubcategoryQuantityPrice.t) (unitPrice : Q)
    (quantity : Z) : Q :=
  match SubcategoryQuantityPrice.priceType r with
  | PRICE_PERCENTAGE =>
      unitPrice * inject_Z quantity
      * (1 - SubcategoryQuantityPrice.value r / 100)
  | PRICE_FIXED_AMOUNT => SubcategoryQuantityPrice.value r
  end.

(** What the loop of [getBestProductDiscount] knows after the discounts
    [seen]: nothing kept had a positive amount, or [best] is the first of
    the kept discounts with the greatest amount, which is positive. *)
Definition BestOf (quantity : Z) (totalPrice : Q) (seen : list Discount.t)
    (best : option DiscountService.Best.t) (maxDiscountAmount : Q) : Prop :=
  let amt d := DiscountService.lineAmount d quantity totalPrice in
  let kept d := DiscountService.belowMinQuantity d quantity = false in
  match best with
  | None =>
      maxDiscountAmount = 0
      /\ forall d, In d seen -> kept d -> amt d <= 0
  | Some b =>
      maxDiscountAmount = DiscountService.Best.calculatedAmount b
      /\ 0 < maxDiscountAmount
      /\ DiscountService.Best.calculatedAmount b
         = amt (DiscountService.Best.discount b)
      /\ DiscountService.Best.finalPrice b
         = max0 (totalPrice - amt (DiscountService.Best.discount b))
      /\ kept (DiscountService.Best.discount b)
      /\ exists l1 l2,
           seen = (l1 ++ DiscountService.Best.discount b :: l2)%list
           /\ (forall d, In d l1 -> kept d -> amt d < maxDiscountAmount)
           /\ (forall d, In d l2 -> kept d -> amt d <= maxDiscountAmount)
  end.

(** The usage-limit and per-user-limit tests of [validateDiscount]. *)
Definition usageLimitReached (d : Discount.t) : bool :=
  truthyZ (Discount.usageLimit d)
  && (numZ (Discount.usageLimit d) <=? Discount.usedCount d)%Z.

Definition perUserLimitReached (db : DB) (userId : option Id)
    (d : Discount.t) : bool :=
  (0 <? Discount.perUserLimit d)%Z
  && truthyS userId
  && (Discount.perUserLimit d
        <=? discountUsage_count db (Discount.id d) userId)%Z.



Fixpoint sumQ (l : list Q) : Q :=
  match l with
  | [] => 0
  | x :: l' => x + sumQ l'
  end.

(** The greatest of a list of amounts (0 for the empty list). *)
Definition greatest (amounts : list Q) : Q :=
  match amounts with
  | [] => 0
  | a :: rest => fold_left Qmax2 rest a
  end.

(** The product-level discounts a product is eligible for. *)
Definition eligibleDiscounts (db : DB) (now : Z) (userId : option Id)
    (product : Product.t) : list Discount.t :=
  match DiscountService.getProductDiscounts db now
          (Some (Product.id product)) userId with
  | Ok l => l
  | Err _ => []
  end.

(** A product's best product-discount amount: the greatest per-unit
    amount among its eligible discounts. *)
Definition bestProductDiscountAmount (db : DB) (now : Z) (userId : option Id)
    (product : Product.t) : Q :=
  greatest (map (fun d => DiscountService.unitAmount d
                            (DiscountService.priceOf product))
                (eligibleDiscounts db now userId product)).

(** An order line's share: best amount of its product times quantity. *)
Definition lineProductDiscount (db : DB) (now : Z) (userId : option Id)
    (item : OrderItem.t) : Q :=
  match product_findUnique db (OrderItem.productId item) with
  | Ok (Some product) =>
      bestProductDiscountAmount db now userId product
      * inject_Z (OrderItem.quantity item)
  | _ => 0
  end.

Definition productFound (db : DB) (item : OrderItem.t) : Prop :=
  exists product,
    product_findUnique db (OrderItem.productId item) = Ok (Some product).

(** The subtotal the confirmation path validates the coupon against. *)
Definition confirmationSubtotal (db : DB) (items : list OrderItem.t) : Q :=
  match DiscountService.detailsLoop db items 0 [] with
  | Ok (subtotal, _) => subtotal
  | Err _ => 0
  end.

(** Scope matching in the words of the specification: the discount names
    this product, or the category the product has, or the subcategory the
    product has, or it names nothing (sitewide). *)
Definition scopeMatchesSpec (productId : Id) (product : Product.t)
    (d : Discount.t) : Prop :=
  Discount.productId d = Some productId
  \/ (exists c, Discount.categoryId d = Some c
                /\ Product.categoryId product = Some c)
  \/ (exists s, Discount.subcategoryId d = Some s
                /\ Product.subcategoryId product = Some s)
  \/ (Discount.productId d = None /\ Discount.categoryId d = None
      /\ Discount.subcategoryId d = None).

(** The rows of the usage ledger for a (discount, order) pair. *)
Definition usagesOf (db : DB) (discountId orderId : Id)
  : list DiscountUsage.t :=
  filter (fun u => String.eqb (DiscountUsage.discountId u) discountId
                   && String.eqb (DiscountUsage.orderId u) orderId)
         (discountUsages db).

(** A line that [calculateOrderTotals] accepts: a product id and a
    positive quantity, an ACTIVE product in the catalog and, when a variant
    is named, a stored variant with enough stock. *)
Definition lineValid (db : DB) (item : OrderItem.t) : Prop :=
  truthyS (OrderItem.productId item) = true
  /\ (0 < OrderItem.quantity item)%Z
  /\ (exists product,
        product_findUnique db (OrderItem.productId item) = Ok (Some product)
        /\ Product.status product = "ACTIVE")
  /\ (truthyS (OrderItem.productVariantId item) = true ->
      exists variant,
        productVariant_findUnique db (idText (OrderItem.productVariantId item))
        = Some variant
        /\ (OrderItem.quantity item <= ProductVariant.stock variant)%Z).

(** The part of the confirmation discount that comes from the code: the
    validated amount, or nothing without a code or on a refused code. *)
Definition couponPart (db : DB) (now : Z) (userId : option Id)
    (discountCode : option string) (subtotal : Q) : Q :=
  if truthyS discountCode then
    match DiscountService.validateDiscount db now
            (match discountCode with Some c => c | None => "" end)
            userId subtotal with
    | DiscountService.Valid v => DiscountService.Validated.discountAmount v
    | DiscountService.Invalid _ => 0
    end
  else 0.

(** The two properties of a stored discount that [createDiscount] and
    [updateDiscount] check on every path. *)
Definition positiveAndOrdered (d : Discount.t) : Prop :=
  0 < Discount.discountValue d
  /\ (Discount.validFrom d < Discount.validUntil d)%Z.

(** The quantity that the lines of an order take from the variant
    [variantId]. *)
Definition orderedQuantity (variantId : Id) (orderItems : list OrderItem.t)
  : Z :=
  fold_right
    (fun item sum =>
       if truthyS (OrderItem.productVariantId item)
          && String.eqb (idText (OrderItem.productVariantId item)) variantId
       then (OrderItem.quantity item + sum)%Z
       else sum)
    0%Z orderItems.

(** The variants that the lines of an order name, line by line. *)
Definition namedVariants (orderItems : list OrderItem.t) : list Id :=
  map (fun item => idText (OrderItem.productVariantId item))
      (filter (fun item => truthyS (OrderItem.productVariantId item))
              orderItems).

(** A variant whose stock has moved by [f] of its key. *)
Definition withStock (f : Id -> Z) (v : ProductVariant.t) : ProductVariant.t :=
  ProductVariant.mk (ProductVariant.id v)
    (ProductVariant.stock v + f (ProductVariant.id v))
    (ProductVariant.price v).

(** A candidate whose minimum quantity exceeds the quantity of the line. *)
Definition minQuantityExceeds (d : Discount.t) (quantity : Z) : Prop :=
  exists m, Discount.minQuantity d = Some m /\ (quantity < m)%Z.

(** An active discount that bears the name [code]. *)
Definition activeNamed (code : string) (d : Discount.t) : Prop :=
  Discount.name d = code /\ Discount.isActive d = true.

(** The lookup as a relation on the table: [d] is the first active
    discount named [code] or, when no active discount bears the name, the
    first discount whose identifier is [code]. *)
Definition lookedUp (db : DB) (code : string) (d : Discount.t) : Prop :=
  exists earlier later,
    discounts db = (earlier ++ d :: later)%list
    /\ ((activeNamed code d
         /\ forall e, In e earlier -> ~ activeNamed code e)
        \/ ((forall e, In e (discounts db) -> ~ activeNamed code e)
            /\ Discount.id d = code
            /\ forall e, In e earlier -> Discount.id e <> code)).


(** The discount passes every check of the validation: it is active,
    inside its validity window, below its usage limit and the caller's
    per-user limit, and the order reaches its minimum amount. *)
Definition passesChecks (db : DB) (now : Z) (userId : option Id)
    (orderAmount : Q) (d : Discount.t) : Prop :=
  Discount.isActive d = true
  /\ (Discount.validFrom d <= now <= Discount.validUntil d)%Z
  /\ usageLimitReached d = false
  /\ perUserLimitReached db userId d = false
  /\ orQ (Discount.minOrderAmount d) 0 <= orderAmount.

(* ================================================================== *)
(** ** Stores of the scenarios

    Every discount below is active from instant 0 to instant 100, and the
    scenarios are evaluated at instant 50. *)

(** A saree at 500 in subcategory s1, with the tier (5, PERCENTAGE, 20). *)
Definition saree : Product.t :=
  Product.mk "p1" "Saree" 500 None "ACTIVE" (Some "c1") (Some "s1").

Definition rule5 : SubcategoryQuantityPrice.t :=
  SubcategoryQuantityPrice.mk "s1" 5 PRICE_PERCENTAGE 20 true.

Definition dbB : DB := mkDB [saree] [] [] [] [] [rule5] [].

(** A sitewide 10% discount without cap, one use per user. *)
Definition sitewide10 : Discount.t :=
  Discount.mk "d1" "TEN" PERCENTAGE 10 None None None None None None None None
    1 0 100 true 0 0 1.

Definition dbA : DB := mkDB [saree] [] [sitewide10] [] [] [] [].

Definition sareeLine : DiscountService.CartItem.t :=
  DiscountService.CartItem.mk saree 2 (Some "p1").

(** Two sarees ordered with the code TEN. *)
Definition sareeOrder : OrderService.OrderData.t :=
  OrderService.OrderData.mk None [OrderItem.mk (Some "p1") 2 None]
    (Some "TEN") (Some "Tamil Nadu") None None None None None.

Definition tenOnSarees : DiscountService.Validated.t :=
  Eval vm_compute in
    match DiscountService.validateDiscount dbA 50 "TEN" None
            (confirmationSubtotal dbA [OrderItem.mk (Some "p1") 2 None]) with
    | DiscountService.Valid v => v
    | DiscountService.Invalid _ =>
        DiscountService.Validated.mk "" "" PERCENTAGE 0 None 0 false 0
    end.

(** A shawl at 100 without subcategory and a fixed-amount coupon of 500. *)
Definition shawl : Product.t :=
  Product.mk "p1" "Shawl" 100 None "ACTIVE" (Some "c1") None.

Definition flat500 : Discount.t :=
  Discount.mk "d2" "FLAT500" FIXED_AMOUNT 500 None None None None None None
    None None 1 0 100 true 0 0 1.

Definition dbFlat : DB := mkDB [shawl] [] [flat500] [] [] [] [].





(** A 20% coupon capped at 150, validated on an order of 1000. *)
Definition capped20 : Discount.t :=
  Discount.mk "d3" "TWENTY" PERCENTAGE 20 None None None None None None
    (Some 150) None 1 0 100 true 0 0 1.

Definition dbCapped : DB := mkDB [] [] [capped20] [] [] [] [].


(** A kurta without subcategory, a dupatta, and a discount scoped to the
    dupatta alone. *)
Definition kurta : Product.t :=
  Product.mk "p1" "Kurta" 500 None "ACTIVE" (Some "c1") None.

Definition dupatta : Product.t :=
  Product.mk "p2" "Dupatta" 300 None "ACTIVE" (Some "c2") (Some "s2").

Definition halfOffDupatta : Discount.t :=
  Discount.mk "d9" "DUPATTA50" PERCENTAGE 50 (Some "p2") None None None None
    None None None 1 0 100 true 0 0 1.

Definition dbScope : DB :=
  mkDB [kurta; dupatta] [] [halfOffDupatta] [] [] [] [].

(** The saree and the dupatta, the sitewide discount, and the order of one
    unit of each by the user u1, without coupon. *)
Definition dbTwo : DB :=
  mkDB [saree; dupatta] [] [sitewide10] [] [User.mk "u1" "CUSTOMER"] [] [].

Definition twoLineOrder : OrderService.OrderData.t :=
  OrderService.OrderData.mk (Some "u1")
    [OrderItem.mk (Some "p1") 1 None; OrderItem.mk (Some "p2") 1 None]
    None (Some "Kerala") None None None None None.

(** An order of 1000 placed by a customer, before any discount. *)
Definition placedOrder : Order.t := Order.mk "o1" "CUSTOMER" 1000 0 1000.

Definition dbOrder : DB :=
  mkDB [] [] [sitewide10] [] [User.mk "u1" "CUSTOMER"] [] [placedOrder].

(** The request that creates the code FESTIVE, 15 % on orders from 500,
    valid from 10 to 90, and an empty taxonomy. *)
Definition festive : DiscountService.DiscountData.t :=
  DiscountService.DiscountData.mk "FESTIVE" PERCENTAGE 15 None None None None
    None (Some 500) None (Some 100%Z) None 10 90 None.

Definition noTaxonomy : DiscountService.Taxonomy.t :=
  DiscountService.Taxonomy.mk [] [].

(** An update that carries [discountValue] and nothing else. *)
Definition onlyDiscountValue (v : Q) : DiscountService.UpdateData.t :=
  DiscountService.UpdateData.mk None None (Some v) None None None None None
    None None None None None None None.

(** A saree with a variant of which five are in stock, the customer u1,
    and an empty order book. *)
Definition dbCOD : DB :=
  mkDB [saree] [ProductVariant.mk "v1" 5 None] [sitewide10] []
    [User.mk "u1" "CUSTOMER"] [] [].

Definition storeCOD : OrderService.Store.t := OrderService.Store.mk dbCOD [] [].

(** Two sarees of the variant v1, to Tamil Nadu, cash on delivery, with
    the code TEN. *)
Definition codOrder : OrderService.CODOrderData.t :=
  OrderService.CODOrderData.mk (Some "u1") (Some "Asha")
    (Some "asha@example.org") (Some "9000000000") (Some "1 Main Road")
    (Some "Chennai") (Some "Tamil Nadu") (Some "600001")
    [OrderItem.mk (Some "p1") 2 (Some "v1")] (Some "TEN").

(** An order book with a pending order placed at time 0 and a pending
    order placed at time 90000000, in milliseconds. *)
Definition storeBook : OrderService.Store.t :=
  OrderService.Store.mk dbCOD
    [OrderService.OrderRow.mk "o1" "ORD-1" "u1" "PENDING" "PENDING" "ONLINE"
       700 500 None 200 0;
     OrderService.OrderRow.mk "o2" "ORD-2" "u1" "PENDING" "PENDING" "ONLINE"
       700 500 None 200 90000000]
    [].

(** A 10% coupon whose cap is stored as 0. *)
Definition zeroCap : Discount.t :=
  Discount.mk "d4" "TENZERO" PERCENTAGE 10 None None None None None None
    (Some 0) None 1 0 100 true 0 0 1.

Definition dbZeroCap : DB := mkDB [] [] [zeroCap] [] [] [] [].

(** Half price from five units on. *)
Definition bulk50 : Discount.t :=
  Discount.mk "d8" "BULK" PERCENTAGE 50 None None None (Some 5%Z) None None
    None None 1 0 100 true 0 0 1.

(* ================================================================== *)
(** ** Facts on the number and list helpers *)

Lemma Qltb_true (a b : Q) : Qltb a b = true <-> a < b.
Proof.
  unfold Qltb. rewrite negb_true_iff. split; intro H.
  - apply Qnot_le_lt. intro L. apply Qle_bool_iff in L. congruence.
  - destruct (Qle_bool b a) eqn:E; [|reflexivity].
    apply Qle_bool_iff in E. exfalso. exact (Qlt_not_le _ _ H E).
Qed.

Lemma Qltb_false (a b : Q) : Qltb a b = false <-> b <= a.
Proof.
  unfold Qltb. rewrite negb_false_iff. apply Qle_bool_iff.
Qed.

Lemma Qle_bool_false (a b : Q) : Qle_bool a b = false <-> b < a.
Proof.
  rewrite <- Qltb_true. unfold Qltb. now rewrite negb_true_iff.
Qed.

Lemma Qmin2_le_l (a b : Q) : Qmin2 a b <= a.
Proof.
  unfold Qmin2. destruct (Qle_bool a b) eqn:E.
  - apply Qle_refl.
  - apply Qle_bool_false in E. now apply Qlt_le_weak.
Qed.

Lemma Qmin2_le_r (a b : Q) : Qmin2 a b <= b.
Proof.
  unfold Qmin2. destruct (Qle_bool a b) eqn:E.
  - now apply Qle_bool_iff.
  - apply Qle_refl.
Qed.

Lemma max0_nonneg (x : Q) : 0 <= max0 x.
Proof.
  unfold max0, Qmax2. destruct (Qle_bool 0 x) eqn:E.
  - now apply Qle_bool_iff.
  - apply Qle_refl.
Qed.

Section SortFacts.
Variable A : Type.
Variable before : A -> A -> bool.

Lemma insert_perm (x : A) (l : list A) :
  Permutation (insert before x l) (x :: l).
Proof.
  induction l as [|y l IH]; simpl.
  - apply Permutation_refl.
  - destruct (before x y).
    + apply Permutation_refl.
    + eapply Permutation_trans; [apply perm_skip, IH | apply perm_swap].
Qed.

Lemma sort_perm (l : list A) : Permutation (sort before l) l.
Proof.
  induction l as [|x l IH]; simpl.
  - apply perm_nil.
  - eapply Permutation_trans; [apply insert_perm | now apply perm_skip].
Qed.

Lemma sort_In (x : A) (l : list A) : In x (sort before l) <-> In x l.
Proof.
  split; apply Permutation_in;
    [apply sort_perm | apply Permutation_sym, sort_perm].
Qed.

Hypothesis before_total :
  forall a b, before a b = true \/ before b a = true.
Hypothesis before_trans :
  forall a b c, before a b = true -> before b c = true -> before a c = true.

Let R (a b : A) : Prop := before a b = true.

Lemma insert_sorted (x : A) (l : list A) :
  StronglySorted R l -> StronglySorted R (insert before x l).
Proof.
  induction 1 as [|y l Hs IH Hy]; simpl.
  - constructor; constructor.
  - destruct (before x y) eqn:E.
    + constructor.
      * now constructor.
      * constructor; [exact E|].
        eapply Forall_impl; [|exact Hy].
        intros z Hz. exact (before_trans _ _ _ E Hz).
    + constructor; [exact IH|].
      assert (Hyx : R y x).
      { destruct (before_total x y) as [C|C]; [congruence | exact C]. }
      rewrite Forall_forall. intros z Hz.
      apply (Permutation_in _ (insert_perm x l)) in Hz.
      destruct Hz as [<-|Hz]; [exact Hyx|].
      rewrite Forall_forall in Hy. now apply Hy.
Qed.

Lemma sort_sorted (l : list A) : StronglySorted R (sort before l).
Proof.
  induction l as [|x l IH]; simpl.
  - constructor.
  - now apply insert_sorted.
Qed.
End SortFacts.

(* ================================================================== *)
(** ** Shipping cost rule *)

(** The rule of [orderService.js] on the four scenario inputs. *)
Lemma OrderService_shipping_scenarios :
  OrderService.calculateShippingCost (Some "Tamil Nadu") = 80
  /\ OrderService.calculateShippingCost (Some "Kerala") = 100
  /\ OrderService.calculateShippingCost (Some "") = 200
  /\ OrderService.calculateShippingCost None = 200
  /\ OrderService.calculateShippingCost (Some "Goa") = 200.
Proof. repeat split; reflexivity. Qed.

(** The rule of [orderService.js] always answers with one of the three
    tiers. *)
Lemma OrderService_shipping_total (state : option string) :
  OrderService.calculateShippingCost state = 80
  \/ OrderService.calculateShippingCost state = 100
  \/ OrderService.calculateShippingCost state = 200.
Proof.
  unfold OrderService.calculateShippingCost.
  destruct (negb (truthyS state)); [now right; right|].
  destruct (String.eqb _ "tamil nadu"); [now left|].
  destruct (_ || _); [now right; left | now right; right].
Qed.

Lemma is_white_space_lower (c : ascii) :
  is_white_space (lower_char c) = is_white_space c.
Proof. destruct c as [[] [] [] [] [] [] [] []]; reflexivity. Qed.

Lemma lower_char_idem (c : ascii) : lower_char (lower_char c) = lower_char c.
Proof. destruct c as [[] [] [] [] [] [] [] []]; reflexivity. Qed.

Lemma toLowerCase_idem (s : string) :
  toLowerCase (toLowerCase s) = toLowerCase s.
Proof.
  induction s as [|c s IH]; simpl; [reflexivity|].
  now rewrite lower_char_idem, IH.
Qed.

Lemma trimStart_lower (s : string) :
  trimStart (toLowerCase s) = toLowerCase (trimStart s).
Proof.
  induction s as [|c s IH]; simpl; [reflexivity|].
  rewrite is_white_space_lower. destruct (is_white_space c); [exact IH|].
  reflexivity.
Qed.

Lemma trimEnd_lower (s : string) :
  trimEnd (toLowerCase s) = toLowerCase (trimEnd s).
Proof.
  induction s as [|c s IH]; simpl; [reflexivity|].
  rewrite IH, is_white_space_lower.
  destruct (trimEnd s); simpl; [|reflexivity].
  destruct (is_white_space c); reflexivity.
Qed.

Lemma trim_lower (s : string) : trim (toLowerCase s) = toLowerCase (trim s).
Proof. unfold trim. now rewrite trimStart_lower, trimEnd_lower. Qed.

Lemma trimEnd_idem (s : string) : trimEnd (trimEnd s) = trimEnd s.
Proof.
  induction s as [|c s IH]; simpl; [reflexivity|].
  destruct (trimEnd s) as [|d t] eqn:E.
  - destruct (is_white_space c) eqn:W; simpl; [reflexivity|].
    now rewrite W.
  - simpl in *. now rewrite IH.
Qed.

Lemma trimStart_startsClean (s : string) : startsClean (trimStart s).
Proof.
  induction s as [|c s IH]; simpl; [exact I|].
  destruct (is_white_space c) eqn:W; [exact IH | exact W].
Qed.

Lemma trimEnd_startsClean (s : string) :
  startsClean s -> startsClean (trimEnd s).
Proof.
  destruct s as [|c s]; simpl; [trivial|]. intro W.
  destruct (trimEnd s); [now rewrite W | exact W].
Qed.

Lemma trimStart_of_startsClean (s : string) :
  startsClean s -> trimStart s = s.
Proof. destruct s as [|c s]; simpl; [trivial|]. now intros ->. Qed.

Lemma trim_idem (s : string) : trim (trim s) = trim s.
Proof.
  unfold trim.
  rewrite (trimStart_of_startsClean (trimEnd (trimStart s))).
  - apply trimEnd_idem.
  - apply trimEnd_startsClean, trimStart_startsClean.
Qed.

(** The rule of [orderService.js] does not see the case of the letters
    nor the white space around the name. *)
Lemma OrderService_shipping_case_insensitive (s : string) :
  OrderService.calculateShippingCost (Some (toLowerCase s))
  = OrderService.calculateShippingCost (Some s).
Proof.
  unfold OrderService.calculateShippingCost.
  destruct s as [|c s]; [reflexivity|].
  cbn [truthyS toLowerCase String.eqb negb].
  change (String (lower_char c) (toLowerCase s)) with (toLowerCase (String c s)).
  now rewrite trim_lower, toLowerCase_idem.
Qed.

Lemma OrderService_shipping_trims (s : string) :
  OrderService.calculateShippingCost (Some (trim s))
  = OrderService.calculateShippingCost (Some s).
Proof.
  unfold OrderService.calculateShippingCost.
  destruct s as [|c s]; [reflexivity|].
  pose proof (trim_idem (String c s)) as T.
  destruct (trim (String c s)) as [|d t] eqn:E.
  - reflexivity.
  - cbn [truthyS String.eqb negb]. rewrite T. reflexivity.
Qed.

(** C10 (evaluation at the failing input).  The state "tamil nadu", and
    " KERALA " with surrounding blanks, are normalised by the rule of
    [orderService.js] (80 and 100) but looked up verbatim by the rule of
    [discountService.js], which answers the default 200. *)
Theorem shipping_rule_of_discountService_not_normalized :
  OrderService.calculateShippingCost (Some "tamil nadu") = 80
  /\ DiscountService.calculateShippingCost (Some "tamil nadu") = 200
  /\ OrderService.calculateShippingCost (Some " KERALA ") = 100
  /\ DiscountService.calculateShippingCost (Some " KERALA ") = 200
  /\ DiscountService.calculateShippingCost (Some "Tamil Nadu") = 80.
Proof. repeat split; reflexivity. Qed.

(* ================================================================== *)
(** ** Order total assembly *)

Lemma round2_nonneg (x : Q) : 0 <= x -> 0 <= round2 x.
Proof.
  intro H. unfold round2.
  apply Qle_bool_iff in H. rewrite H. apply Qle_bool_iff in H.
  apply Qle_shift_div_l; [reflexivity|].
  rewrite Qmult_0_l.
  assert (F : (Qfloor (inject_Z 0) <= Qfloor (x * 100 + (1 # 2)))%Z).
  { apply Qfloor_resp_le. change (inject_Z 0) with 0. lra. }
  rewrite Qfloor_Z in F. rewrite Zle_Qle in F. exact F.
Qed.

(** The confirmation path floors its total: [finalTotal] of the
    effective [calculateFinalAmountWithDiscounts] is never negative. *)
Lemma calculateFinalAmountWithDiscounts_floor
    (db : DB) (now : Z) (cartData : DiscountService.CartData.t)
    (userId : option Id) (discountCode : option string)
    (data : DiscountService.FinalAmount.t) :
  DiscountService.calculateFinalAmountWithDiscounts db now cartData userId
    discountCode = Ok data ->
  0 <= DiscountService.FinalAmount.finalTotal data.
Proof.
  change DiscountService.calculateFinalAmountWithDiscounts
    with DiscountService.calculateFinalAmountWithDiscounts_2.
  unfold DiscountService.calculateFinalAmountWithDiscounts_2.
  destruct (DiscountService.detailsLoop db _ 0 []) as [[subtotal items]|]; simpl;
    [|discriminate].
  destruct (if truthyS discountCode then _ else _) as [[amount applied] errors].
  destruct (DiscountService.productDiscountsLoop _ _ _ _ _ _) as [[pd ap]|];
    simpl; [|discriminate].
  destruct (DiscountService.calculateShippingCost _) as [rate|name];
    [|discriminate].
  intro H. injection H as <-. simpl.
  apply round2_nonneg, max0_nonneg.
Qed.

(** C1 (evaluation at the failing input).  One unit of a product at 100,
    the fixed-amount coupon FLAT500 and the state "Tamil Nadu":
    [calculateOrderTotals] returns subtotal 100, discount 500, shipping 80
    and the total -320, which is negative and is not
    [max(0, subtotal - discountAmount + shippingCost)]. *)
Theorem calculateOrderTotals_total_not_floored :
  exists totals,
    OrderService.calculateOrderTotals dbFlat 50
      [OrderItem.mk (Some "p1") 1 None] (Some "FLAT500") (Some "Tamil Nadu")
      None = Ok totals
    /\ OrderService.OrderTotals.subtotal totals == 100
    /\ OrderService.OrderTotals.discountAmount totals == 500
    /\ OrderService.OrderTotals.shippingCost totals == 80
    /\ OrderService.OrderTotals.totalAmount totals == -320
    /\ OrderService.OrderTotals.totalAmount totals < 0
    /\ ~ OrderService.OrderTotals.totalAmount totals
         == max0 (OrderService.OrderTotals.subtotal totals
                  - OrderService.OrderTotals.discountAmount totals
                  + OrderService.OrderTotals.shippingCost totals).
Proof.
  eexists. split; [vm_compute; reflexivity|].
  repeat split; try reflexivity.
  intro H. vm_compute in H. discriminate.
Qed.

(** On the same input the confirmation path answers 0. *)
Lemma calculateFinalAmountWithDiscounts_same_input_floored :
  exists data,
    DiscountService.calculateFinalAmountWithDiscounts dbFlat 50%Z
      (DiscountService.CartData.mk [OrderItem.mk (Some "p1") 1 None]
         (Some "Tamil Nadu"))
      None (Some "FLAT500") = Ok data
    /\ DiscountService.FinalAmount.finalTotal data == 0.
Proof. eexists. split; [vm_compute; reflexivity | reflexivity]. Qed.

(* ================================================================== *)
(** ** Quantity-tier pricing *)

Section QuantityTier.
Variable basePrice : Q.
Variable quantity : Z.

Let ruleTotal (r : SubcategoryQuantityPrice.t) : Q :=
  OrderService.finalPriceForRule r basePrice quantity.

(** The scan keeps a total that is below the running best, below every
    qualifying rule's total, and is one of them. *)
Lemma bestTotalLoop_minimum (rules : list SubcategoryQuantityPrice.t) :
  forall bestTotal applied,
    let out := OrderService.bestTotalLoop rules basePrice quantity
                 bestTotal applied in
    fst out <= bestTotal
    /\ (forall r, In r rules ->
          (SubcategoryQuantityPrice.quantity r <= quantity)%Z ->
          fst out <= ruleTotal r)
    /\ (fst out = bestTotal
        \/ exists r, In r rules
             /\ (SubcategoryQuantityPrice.quantity r <= quantity)%Z
             /\ fst out = ruleTotal r).
Proof.
  induction rules as [|r rules IH]; intros bestTotal applied; simpl.
  - split; [apply Qle_refl|]. split; [intros r []|now left].
  - destruct (SubcategoryQuantityPrice.quantity r <=? quantity)%Z eqn:Eq.
    + apply Z.leb_le in Eq.
      destruct (Qltb (OrderService.finalPriceForRule r basePrice quantity)
                  bestTotal) eqn:El.
      * apply Qltb_true in El.
        destruct (IH (OrderService.finalPriceForRule r basePrice quantity)
                    (Some r)) as (H1 & H2 & H3).
        split; [eapply Qle_trans; [exact H1|now apply Qlt_le_weak]|].
        split.
        -- intros r' [<-|Hin] Hq; [exact H1 | now apply H2].
        -- right. destruct H3 as [H3|(r' & Hin & Hq & H3)].
           ++ exists r. repeat split; auto.
           ++ exists r'. repeat split; auto.
      * apply Qltb_false in El.
        destruct (IH bestTotal applied) as (H1 & H2 & H3).
        split; [exact H1|]. split.
        -- intros r' [<-|Hin] Hq; [eapply Qle_trans; eauto | now apply H2].
        -- destruct H3 as [H3|(r' & Hin & Hq & H3)]; [now left|].
           right. exists r'. repeat split; auto.
    + apply Z.leb_gt in Eq.
      destruct (IH bestTotal applied) as (H1 & H2 & H3).
      split; [exact H1|]. split.
      * intros r' [<-|Hin] Hq; [lia | now apply H2].
      * destruct H3 as [H3|(r' & Hin & Hq & H3)]; [now left|].
        right. exists r'. repeat split; auto.
Qed.
End QuantityTier.

(** The rule set the scan runs on: the active rules of the subcategory
    whose threshold is at most the quantity. *)
Lemma quantityPrices_findMany_In (db : DB) (sub : Id) (quantity : Z)
    (r : SubcategoryQuantityPrice.t) :
  In r (OrderService.quantityPrices_findMany db sub quantity)
  <-> In r (subcategoryQuantityPrices db)
      /\ SubcategoryQuantityPrice.subcategoryId r = sub
      /\ SubcategoryQuantityPrice.isActive r = true
      /\ (SubcategoryQuantityPrice.quantity r <= quantity)%Z.
Proof.
  unfold OrderService.quantityPrices_findMany.
  rewrite sort_In, filter_In, !andb_true_iff, String.eqb_eq, Z.leb_le.
  tauto.
Qed.

(** C5.  With a subcategory, [calculateItemQuantityPrice] returns the
    least of the baseline [unitPrice * quantity] and the totals of the
    qualifying rules, and the savings are the baseline minus that total;
    without a subcategory it returns the baseline and zero savings.  Base
    price 500 with the one rule (5, PERCENTAGE, 20) and quantity 5 gives
    2500, 2000 and 500. *)
Theorem quantity_tier_pricing_minimum
    (db : DB) (productId : Id) (subcategoryId : option Id)
    (unitPrice : Q) (quantity : Z) :
  let r := OrderService.calculateItemQuantityPrice db productId subcategoryId
             unitPrice quantity in
  let baseline := unitPrice * inject_Z quantity in
  let final := OrderService.QuantityPricing.finalPrice r in
  OrderService.QuantityPricing.originalPrice r = baseline
  /\ OrderService.QuantityPricing.totalSavings r == baseline - final
  /\ (truthyS subcategoryId = false ->
      final = baseline /\ OrderService.QuantityPricing.totalSavings r = 0)
  /\ (forall sub, subcategoryId = Some sub -> sub <> "" ->
      final <= baseline
      /\ (forall rule, qualifies db sub quantity rule ->
            final <= ruleTotalSpec rule unitPrice quantity)
      /\ (final = baseline
          \/ exists rule, qualifies db sub quantity rule
               /\ final = ruleTotalSpec rule unitPrice quantity))
  /\ (let b := OrderService.calculateItemQuantityPrice dbB "p1" (Some "s1")
                 500 5 in
      OrderService.QuantityPricing.originalPrice b == 2500
      /\ OrderService.QuantityPricing.finalPrice b == 2000
      /\ OrderService.QuantityPricing.totalSavings b == 500).
Proof.
  cbv zeta. unfold OrderService.calculateItemQuantityPrice.
  repeat split.
  - destruct (negb (truthyS subcategoryId)); [reflexivity|].
    destruct (OrderService.bestTotalLoop _ _ _ _ _); reflexivity.
  - destruct (negb (truthyS subcategoryId)); simpl; [lra|].
    destruct (OrderService.bestTotalLoop _ _ _ _ _); simpl; lra.
  - rewrite H; reflexivity.
  - rewrite H; reflexivity.
  - subst subcategoryId. simpl.
    apply String.eqb_neq in H0. rewrite H0. simpl.
    pose proof (bestTotalLoop_minimum unitPrice quantity
                  (OrderService.quantityPrices_findMany db sub quantity)
                  (unitPrice * inject_Z quantity) None) as (H1 & _).
    destruct (OrderService.bestTotalLoop _ _ _ _ _); exact H1.
  - intros rule Hq. subst subcategoryId. simpl.
    apply String.eqb_neq in H0. rewrite H0. simpl.
    pose proof (bestTotalLoop_minimum unitPrice quantity
                  (OrderService.quantityPrices_findMany db sub quantity)
                  (unitPrice * inject_Z quantity) None) as (_ & H2 & _).
    destruct (OrderService.bestTotalLoop _ _ _ _ _). simpl in *.
    apply H2; [now apply quantityPrices_findMany_In | apply Hq].
  - subst subcategoryId. simpl.
    apply String.eqb_neq in H0. rewrite H0. simpl.
    pose proof (bestTotalLoop_minimum unitPrice quantity
                  (OrderService.quantityPrices_findMany db sub quantity)
                  (unitPrice * inject_Z quantity) None) as (_ & _ & H3).
    destruct (OrderService.bestTotalLoop _ _ _ _ _). simpl in *.
    destruct H3 as [H3|(rule & Hin & Hq & H3)]; [now left|].
    right. exists rule. split; [now apply quantityPrices_findMany_In | exact H3].
Qed.

(* ================================================================== *)
(** ** Best-discount selection *)

Section BestDiscount.
Variable quantity : Z.
Variable totalPrice : Q.

Local Abbreviation amt d :=
  (DiscountService.lineAmount d quantity totalPrice).
Local Abbreviation kept d :=
  (DiscountService.belowMinQuantity d quantity = false).

Lemma BestOf_skip seen best m d :
  BestOf quantity totalPrice seen best m -> ~ kept d -> BestOf quantity totalPrice (seen ++ [d])%list best m.
Proof.
  unfold BestOf. destruct best as [b|]; cbv zeta.
  - intros (E & P & A & F & K & l1 & l2 & -> & H1 & H2) N.
    repeat split; auto.
    exists l1, (l2 ++ [d])%list. rewrite <- app_assoc. simpl.
    repeat split; auto.
    intros d' Hin Hk. apply in_app_or in Hin.
    destruct Hin as [Hin|[<-|[]]]; [now apply H2 | contradiction].
  - intros (E & H) N. split; [exact E|].
    intros d' Hin Hk. apply in_app_or in Hin.
    destruct Hin as [Hin|[<-|[]]]; [now apply H | contradiction].
Qed.

Lemma BestOf_keep seen best m d :
  BestOf quantity totalPrice seen best m -> amt d <= m -> BestOf quantity totalPrice (seen ++ [d])%list best m.
Proof.
  unfold BestOf. destruct best as [b|]; cbv zeta.
  - intros (E & P & A & F & K & l1 & l2 & -> & H1 & H2) L.
    repeat split; auto.
    exists l1, (l2 ++ [d])%list. rewrite <- app_assoc. simpl.
    repeat split; auto.
    intros d' Hin Hk. apply in_app_or in Hin.
    destruct Hin as [Hin|[<-|[]]]; [now apply H2 | exact L].
  - intros (E & H) L. split; [exact E|].
    intros d' Hin Hk. apply in_app_or in Hin.
    destruct Hin as [Hin|[<-|[]]]; [now apply H | now rewrite <- E].
Qed.

Lemma BestOf_replace seen best m d :
  BestOf quantity totalPrice seen best m -> kept d -> m < amt d ->
  BestOf quantity totalPrice (seen ++ [d])%list
    (Some (DiscountService.Best.mk d (amt d) (max0 (totalPrice - amt d))))
    (amt d).
Proof.
  unfold BestOf. intros H K L. cbv zeta in *. simpl.
  assert (P : 0 < amt d /\ forall d', In d' seen -> kept d' -> amt d' < amt d).
  { destruct best as [b|].
    - destruct H as (E & P & A & F & Kb & l1 & l2 & -> & H1 & H2).
      split; [lra|].
      intros d' Hin Hk. apply in_app_or in Hin.
      destruct Hin as [Hin|[<-|Hin]].
      + specialize (H1 d' Hin Hk). lra.
      + rewrite <- A, <- E. exact L.
      + specialize (H2 d' Hin Hk). lra.
    - destruct H as (E & H). subst m. split; [exact L|].
      intros d' Hin Hk. specialize (H d' Hin Hk). lra. }
  destruct P as (P0 & P1).
  repeat split; auto.
  exists seen, []. repeat split; auto. intros d' [].
Qed.

Lemma bestLoop_BestOf (rest : list Discount.t) :
  forall seen best m,
    BestOf quantity totalPrice seen best m ->
    exists m',
      BestOf quantity totalPrice (seen ++ rest)%list
        (DiscountService.bestLoop rest quantity totalPrice best m) m'.
Proof.
  induction rest as [|d rest IH]; intros seen best m H; simpl.
  - exists m. now rewrite app_nil_r.
  - replace (seen ++ d :: rest)%list with ((seen ++ [d]) ++ rest)%list
      by (rewrite <- app_assoc; reflexivity).
    destruct (DiscountService.belowMinQuantity d quantity) eqn:Ek.
    + apply IH. apply BestOf_skip; [exact H|]. congruence.
    + destruct (Qgtb (DiscountService.lineAmount d quantity totalPrice) m)
        eqn:Eg.
      * apply Qltb_true in Eg. apply IH.
        eapply BestOf_replace; [exact H | exact Ek | exact Eg].
      * apply Qltb_false in Eg. apply IH. now apply BestOf_keep.
Qed.
End BestDiscount.

(** The guard of the loop is the comparison of the claim: on a line with
    a non-negative quantity a discount is skipped exactly when it has a
    [minQuantity] greater than the quantity. *)
Lemma belowMinQuantity_spec (d : Discount.t) (quantity : Z) :
  (0 <= quantity)%Z ->
  DiscountService.belowMinQuantity d quantity = true
  <-> exists m, Discount.minQuantity d = Some m /\ (quantity < m)%Z.
Proof.
  intro Hq. unfold DiscountService.belowMinQuantity, truthyZ, numZ.
  destruct (Discount.minQuantity d) as [m|]; simpl.
  - rewrite andb_true_iff, negb_true_iff, Z.eqb_neq, Z.ltb_lt. split.
    + intros [_ H]. now exists m.
    + intros (m' & E & H). injection E as <-. split; lia.
  - split; [discriminate | intros (m & E & _); discriminate].
Qed.

(** A candidate that the claim keeps is kept by the guard of the loop. *)
Lemma kept_belowMinQuantity (d : Discount.t) (quantity : Z) :
  ~ minQuantityExceeds d quantity ->
  DiscountService.belowMinQuantity d quantity = false.
Proof.
  intro K.
  destruct (DiscountService.belowMinQuantity d quantity) eqn:E; [|reflexivity].
  exfalso. apply K.
  unfold DiscountService.belowMinQuantity in E.
  apply andb_true_iff in E. destruct E as (T & L).
  unfold truthyZ, numZ in *.
  destruct (Discount.minQuantity d) as [m|] eqn:Em; [|discriminate].
  exists m. split; [exact Em|]. now apply Z.ltb_lt.
Qed.

(** The guard keeps a candidate whose minimum exceeds the quantity in one
    case only: a minimum of 0, which [discount.minQuantity && ...] reads
    as no minimum, on a line of negative quantity. *)
Lemma belowMinQuantity_false_exceeds (d : Discount.t) (quantity : Z) :
  DiscountService.belowMinQuantity d quantity = false ->
  minQuantityExceeds d quantity ->
  Discount.minQuantity d = Some 0%Z /\ (quantity < 0)%Z.
Proof.
  intros E (m & Hm & L).
  unfold DiscountService.belowMinQuantity, truthyZ, numZ in E.
  rewrite Hm in E. apply andb_false_iff in E. destruct E as [E|E].
  - apply negb_false_iff in E. apply Z.eqb_eq in E. subst m. now split.
  - apply Z.ltb_ge in E. lia.
Qed.

(** On such a line a catalog price and a discount value that are not
    negative give an amount that is not positive. *)
Lemma lineAmount_negative_line (d : Discount.t) (quantity : Z) (unitPrice : Q) :
  Discount.minQuantity d = Some 0%Z -> (quantity < 0)%Z ->
  0 <= unitPrice -> 0 <= Discount.discountValue d ->
  DiscountService.lineAmount d quantity (unitPrice * inject_Z quantity) <= 0.
Proof.
  intros Hm Hq Hp Hv.
  assert (Hq' : inject_Z quantity < 0).
  { change 0 with (inject_Z 0). rewrite <- Zlt_Qlt. exact Hq. }
  assert (Ht : unitPrice * inject_Z quantity <= 0) by nra.
  unfold DiscountService.lineAmount.
  destruct (Discount.discountType d).
  - assert (Ha : unitPrice * inject_Z quantity * Discount.discountValue d / 100
                 <= 0).
    { apply Qle_shift_div_r; [reflexivity|]. nra. }
    cbv zeta. destruct (truthyQ (Discount.maxDiscount d)); [|exact Ha].
    eapply Qle_trans; [apply Qmin2_le_l | exact Ha].
  - eapply Qle_trans; [apply Qmin2_le_r | exact Ht].
  - rewrite Hm. simpl numZ.
    destruct (0 <=? quantity)%Z eqn:E; [|apply Qle_refl].
    apply Z.leb_le in E. lia.
Qed.

(** C6.  On a line whose quantity is not negative, or whose price and
    candidate values are not negative, [getBestProductDiscount] skips the
    candidates whose [minQuantity] exceeds the quantity, computes the
    amount of each other one from the line total, and returns the first
    candidate of the greatest amount, provided that amount is positive;
    otherwise it returns nothing.  The cart of two units at 500 with one
    sitewide uncapped 10% discount and no coupon gets subtotal 1000,
    discount 100 and total 900. *)
Theorem best_discount_selection
    (discounts : list Discount.t) (cartItem : DiscountService.CartItem.t)
    (domain :
       (0 <= DiscountService.CartItem.quantity cartItem)%Z
       \/ (0 <= DiscountService.priceOf
                  (DiscountService.CartItem.product cartItem)
           /\ Forall (fun d => 0 <= Discount.discountValue d) discounts)) :
  let quantity := DiscountService.CartItem.quantity cartItem in
  let lineTotal :=
    DiscountService.priceOf (DiscountService.CartItem.product cartItem)
    * inject_Z quantity in
  let amount d := DiscountService.lineAmount d quantity lineTotal in
  let kept d := ~ minQuantityExceeds d quantity in
  match DiscountService.getBestProductDiscount discounts cartItem with
  | None => forall d, In d discounts -> kept d -> amount d <= 0
  | Some best =>
      let chosen := DiscountService.Best.discount best in
      kept chosen
      /\ DiscountService.Best.calculatedAmount best = amount chosen
      /\ DiscountService.Best.finalPrice best
         = max0 (lineTotal - amount chosen)
      /\ 0 < amount chosen
      /\ exists earlier later,
           discounts = (earlier ++ chosen :: later)%list
           /\ (forall d, In d earlier -> kept d -> amount d < amount chosen)
           /\ (forall d, In d later -> kept d -> amount d <= amount chosen)
  end
  /\ (exists r,
        DiscountService.calculateCartDiscounts dbA 50
          [DiscountService.CartItem.mk saree 2 (Some "p1")] None None = Ok r
        /\ DiscountService.CartDiscounts.subtotal r == 1000
        /\ DiscountService.CartDiscounts.totalDiscount r == 100
        /\ DiscountService.CartDiscounts.finalTotal r == 900).
Proof.
  cbv zeta. split.
  - unfold DiscountService.getBestProductDiscount.
    assert (H0 : BestOf (DiscountService.CartItem.quantity cartItem)
                   (DiscountService.priceOf (DiscountService.CartItem.product cartItem)
                    * inject_Z (DiscountService.CartItem.quantity cartItem))
                   [] None 0).
    { split; [reflexivity | intros d []]. }
    destruct (@bestLoop_BestOf _ _ discounts _ _ _ H0) as (m' & H).
    simpl app in H.
    destruct (DiscountService.bestLoop _ _ _ _ _) as [b|]; simpl in H.
    + destruct H as (E & P & A & F & K & l1 & l2 & Hd & H1 & H2).
      rewrite E, A in P, H1, H2.
      split.
      { intro X.
        destruct (belowMinQuantity_false_exceeds _ _ K X) as (Hm & Hq).
        destruct domain as [D|(Dp & Dv)]; [lia|].
        assert (Hin : In (DiscountService.Best.discount b) discounts).
        { rewrite Hd. apply in_or_app. right. now left. }
        rewrite Forall_forall in Dv.
        pose proof (lineAmount_negative_line _ _ _ Hm Hq Dp (Dv _ Hin)) as L.
        lra. }
      split; [exact A|]. split; [exact F|]. split; [exact P|].
      exists l1, l2. split; [exact Hd|]. split.
      * intros d Hin Hk. apply H1; [exact Hin|].
        now apply kept_belowMinQuantity.
      * intros d Hin Hk. apply H2; [exact Hin|].
        now apply kept_belowMinQuantity.
    + destruct H as (_ & H). intros d Hin Hk.
      apply H; [exact Hin|]. now apply kept_belowMinQuantity.
  - eexists. split; [vm_compute; reflexivity|].
    repeat split; reflexivity.
Qed.

(* ================================================================== *)
(** ** Coupon validation *)

(** A successful validation comes from a discount that passed every
    check, and carries the amount and flag computed from it. *)
Lemma validateDiscount_Valid_inv (db : DB) (now : Z) (code : string)
    (userId : option Id) (orderAmount : Q) (v : DiscountService.Validated.t) :
  DiscountService.validateDiscount db now code userId orderAmount
    = DiscountService.Valid v ->
  exists d,
    DiscountService.findByCode db code = Some d
    /\ Discount.isActive d = true
    /\ (Discount.validFrom d <= now <= Discount.validUntil d)%Z
    /\ usageLimitReached d = false
    /\ perUserLimitReached db userId d = false
    /\ orQ (Discount.minOrderAmount d) 0 <= orderAmount
    /\ v = DiscountService.Validated.mk (Discount.id d) (Discount.name d)
             (Discount.discountType d) (Discount.discountValue d)
             (Discount.maxDiscount d)
             (fst (DiscountService.discountAmountOf d orderAmount))
             (snd (DiscountService.discountAmountOf d orderAmount))
             (orQ (Discount.minOrderAmount d) 0).
Proof.
  unfold DiscountService.validateDiscount.
  destruct (DiscountService.findByCode db code) as [d|]; [|discriminate].
  destruct (Discount.isActive d) eqn:Ea; simpl; [|discriminate].
  destruct (now <? Discount.validFrom d)%Z eqn:Ef; [discriminate|].
  destruct (Discount.validUntil d <? now)%Z eqn:Eu; [discriminate|].
  fold (usageLimitReached d).
  destruct (usageLimitReached d) eqn:El; [discriminate|].
  fold (perUserLimitReached db userId d).
  destruct (perUserLimitReached db userId d) eqn:Ep; [discriminate|].
  destruct (Qltb orderAmount _) eqn:Em; [discriminate|].
  destruct (DiscountService.discountAmountOf d orderAmount) as [a f] eqn:Ed.
  intro H. injection H as <-.
  apply Z.ltb_ge in Ef, Eu. apply Qltb_false in Em.
  exists d. repeat split; auto.
  rewrite Ed. reflexivity.
Qed.

(** The first element of a list that passes a test. *)
Lemma find_first (A : Type) (f : A -> bool) (l : list A) (x : A) :
  find f l = Some x
  <-> exists earlier later,
        l = (earlier ++ x :: later)%list
        /\ f x = true
        /\ forall e, In e earlier -> f e = false.
Proof.
  induction l as [|a l IH]; simpl.
  - split; [discriminate|].
    intros (e & t & E & _). destruct e; discriminate.
  - destruct (f a) eqn:Ea.
    + split.
      * intro H. injection H as <-. exists [], l.
        repeat split; auto. intros e [].
      * intros (e & t & E & Hx & He). destruct e as [|b e]; simpl in E.
        -- injection E as E1 _. congruence.
        -- injection E as E1 _.
           specialize (He b (or_introl eq_refl)). congruence.
    + rewrite IH. split.
      * intros (e & t & -> & Hx & He). exists (a :: e), t.
        repeat split; auto. intros e' [<-|Hin]; auto.
      * intros (e & t & E & Hx & He). destruct e as [|b e]; simpl in E.
        -- injection E as E1 _. congruence.
        -- injection E as E1 E2. exists e, t.
           repeat split; auto. intros e' Hin. apply He. now right.
Qed.

Lemma activeNamed_bool (code : string) (d : Discount.t) :
  String.eqb (Discount.name d) code && Discount.isActive d = true
  <-> activeNamed code d.
Proof.
  unfold activeNamed. rewrite andb_true_iff, String.eqb_eq. tauto.
Qed.

(** The two queries of [validateDiscount] find the discount that the
    lookup relation describes. *)
Lemma findByCode_lookedUp (db : DB) (code : string) (d : Discount.t) :
  DiscountService.findByCode db code = Some d <-> lookedUp db code d.
Proof.
  unfold DiscountService.findByCode, lookedUp.
  destruct (find (fun d => String.eqb (Discount.name d) code
                           && Discount.isActive d) (discounts db))
    as [d0|] eqn:En.
  - split.
    + intro H. injection H as <-.
      apply find_first in En. destruct En as (e & t & E & Hx & He).
      exists e, t. split; [exact E|]. left.
      split; [now apply activeNamed_bool|].
      intros e' Hin Ha. apply activeNamed_bool in Ha.
      rewrite (He e' Hin) in Ha. discriminate.
    + intros (e & t & E & [(Ha & He)|(Hno & _)]).
      * assert (F : find (fun d => String.eqb (Discount.name d) code
                                   && Discount.isActive d) (discounts db)
                    = Some d).
        { apply find_first. exists e, t. split; [exact E|].
          split; [now apply activeNamed_bool|].
          intros e' Hin.
          destruct (String.eqb (Discount.name e') code
                    && Discount.isActive e') eqn:B; [|reflexivity].
          exfalso. apply (He e' Hin). now apply activeNamed_bool. }
        congruence.
      * apply find_some in En. destruct En as (Hin & Hb).
        exfalso. apply (Hno d0 Hin). now apply activeNamed_bool.
  - unfold discount_findUnique. rewrite find_first. split.
    + intros (e & t & E & Hx & He). exists e, t. split; [exact E|]. right.
      split.
      { intros e' Hin Ha. apply activeNamed_bool in Ha.
        pose proof (find_none _ _ En e' Hin) as Hb. cbv beta in Hb.
        congruence. }
      split; [now apply String.eqb_eq|].
      intros e' Hin. apply String.eqb_neq. now apply He.
    + intros (e & t & E & [(Ha & _)|(_ & Hi & He)]).
      * exfalso.
        assert (Hin : In d (discounts db)).
        { rewrite E. apply in_or_app. right. now left. }
        pose proof (find_none _ _ En d Hin) as Hb. cbv beta in Hb.
        apply activeNamed_bool in Ha. congruence.
      * exists e, t. split; [exact E|].
        split; [now apply String.eqb_eq|].
        intros e' Hin. apply String.eqb_neq. now apply He.
Qed.


(** A discount that is found and passes every check is accepted, with the
    amount and flag computed from it. *)
Lemma validateDiscount_passes (db : DB) (now : Z) (code : string)
    (userId : option Id) (orderAmount : Q) (d : Discount.t) :
  DiscountService.findByCode db code = Some d ->
  passesChecks db now userId orderAmount d ->
  DiscountService.validateDiscount db now code userId orderAmount
  = DiscountService.Valid
      (DiscountService.Validated.mk (Discount.id d) (Discount.name d)
         (Discount.discountType d) (Discount.discountValue d)
         (Discount.maxDiscount d)
         (fst (DiscountService.discountAmountOf d orderAmount))
         (snd (DiscountService.discountAmountOf d orderAmount))
         (orQ (Discount.minOrderAmount d) 0)).
Proof.
  intros Hf (Ha & (L1 & L2) & Hu & Hp & Hm).
  unfold DiscountService.validateDiscount. rewrite Hf.
  fold (usageLimitReached d). fold (perUserLimitReached db userId d).
  apply Z.ltb_ge in L1, L2. apply Qltb_false in Hm.
  rewrite Ha, Hu, Hp. simpl. rewrite L1, L2, Hm.
  destruct (DiscountService.discountAmountOf d orderAmount). reflexivity.
Qed.

(** C4 as stated fails on a cap stored as 0, which [createDiscount]
    accepts: the guard [discount.maxDiscount && ...] reads it as no cap,
    so 10% of 1000 gives the amount 100, above the cap, and the flag stays
    false although the uncapped amount exceeds the cap. *)
Lemma validateDiscount_zero_cap_is_no_cap :
  Discount.discountType zeroCap = PERCENTAGE
  /\ Discount.maxDiscount zeroCap = Some 0
  /\ exists v,
       DiscountService.validateDiscount dbZeroCap 50 "TENZERO" None 1000
       = DiscountService.Valid v
       /\ DiscountService.Validated.maxDiscount v = Some 0
       /\ ~ DiscountService.Validated.discountAmount v <= 0
       /\ 0 < 1000 * Discount.discountValue zeroCap / 100
       /\ DiscountService.Validated.maxDiscountReached v = false.
Proof.
  split; [reflexivity|]. split; [reflexivity|].
  eexists. split; [vm_compute; reflexivity|].
  split; [reflexivity|]. split; [|split; reflexivity].
  intro H. vm_compute in H. apply H. reflexivity.
Qed.

(** C4 (as amended).  For a PERCENTAGE discount that the lookup finds for
    the code and whose [maxDiscount] is set to a non-zero number,
    validation succeeds exactly when the discount passes the checks; the
    amount it returns is then [orderAmount * value / 100] capped at
    [maxDiscount], hence at most [maxDiscount], and [maxDiscountReached]
    is true exactly when the uncapped amount exceeds [maxDiscount]. *)
Theorem percentage_amount_capped
    (db : DB) (now : Z) (code : string) (userId : option Id)
    (orderAmount : Q) (d : Discount.t) (maxDiscount : Q) :
  lookedUp db code d ->
  Discount.discountType d = PERCENTAGE ->
  Discount.maxDiscount d = Some maxDiscount ->
  ~ maxDiscount == 0 ->
  let uncapped := orderAmount * Discount.discountValue d / 100 in
  let result :=
    DiscountService.validateDiscount db now code userId orderAmount in
  (passesChecks db now userId orderAmount d
   <-> exists v, result = DiscountService.Valid v)
  /\ forall v, result = DiscountService.Valid v ->
       DiscountService.Validated.id v = Discount.id d
       /\ DiscountService.Validated.discountAmount v <= maxDiscount
       /\ (uncapped <= maxDiscount ->
           DiscountService.Validated.discountAmount v = uncapped)
       /\ (maxDiscount < uncapped ->
           DiscountService.Validated.discountAmount v = maxDiscount)
       /\ (DiscountService.Validated.maxDiscountReached v = true
           <-> maxDiscount < uncapped).
Proof.
  intros Hl Ht Hm Hz. cbv zeta.
  apply findByCode_lookedUp in Hl.
  assert (Ez : Qeq_bool maxDiscount 0 = false).
  { destruct (Qeq_bool maxDiscount 0) eqn:E; [|reflexivity].
    apply Qeq_bool_iff in E. contradiction. }
  assert (Hamt : DiscountService.discountAmountOf d orderAmount
                 = if Qgtb (orderAmount * Discount.discountValue d / 100)
                        maxDiscount
                   then (maxDiscount, true)
                   else (orderAmount * Discount.discountValue d / 100, false)).
  { unfold DiscountService.discountAmountOf. rewrite Ht, Hm. simpl.
    rewrite Ez. reflexivity. }
  split.
  - split.
    + intro P. eexists. exact (validateDiscount_passes _ _ _ _ _ _ Hl P).
    + intros (v & Hv). apply validateDiscount_Valid_inv in Hv.
      destruct Hv as (d' & Hf & Ha & Hw & Hu & Hp & Hmin & _).
      rewrite Hl in Hf. injection Hf as <-.
      repeat split; auto; apply Hw.
  - intros v Hv. apply validateDiscount_Valid_inv in Hv.
    destruct Hv as (d' & Hf & _ & _ & _ & _ & _ & ->).
    rewrite Hl in Hf. injection Hf as <-. simpl. rewrite Hamt.
    destruct (Qgtb _ maxDiscount) eqn:Eg; simpl.
    + apply Qltb_true in Eg. split; [reflexivity|].
      split; [apply Qle_refl|].
      split; [intro L; exfalso; exact (Qlt_not_le _ _ Eg L)|].
      split; [reflexivity | tauto].
    + apply Qltb_false in Eg. split; [reflexivity|].
      split; [exact Eg|]. split; [reflexivity|].
      split; [intro L; exfalso; exact (Qlt_not_le _ _ L Eg)|].
      split; [discriminate|].
      intro L. exfalso. exact (Qlt_not_le _ _ L Eg).
Qed.

(** The two lookups of [validateDiscount]. *)
Lemma findByCode_spec (db : DB) (code : string) :
  match DiscountService.findByCode db code with
  | Some d =>
      In d (discounts db)
      /\ ((Discount.name d = code /\ Discount.isActive d = true)
          \/ (Discount.id d = code
              /\ forall d', In d' (discounts db) ->
                   Discount.name d' = code -> Discount.isActive d' = false))
  | None =>
      forall d, In d (discounts db) ->
        Discount.id d <> code
        /\ (Discount.name d = code -> Discount.isActive d = false)
  end.
Proof.
  unfold DiscountService.findByCode, discount_findUnique.
  destruct (find (fun d => String.eqb (Discount.name d) code
                           && Discount.isActive d) (discounts db))
    as [d|] eqn:En.
  - apply find_some in En. destruct En as (Hin & Hb).
    apply andb_true_iff in Hb. destruct Hb as (Hn & Ha).
    apply String.eqb_eq in Hn. split; [exact Hin|]. now left.
  - assert (N : forall d', In d' (discounts db) ->
                  Discount.name d' = code -> Discount.isActive d' = false).
    { intros d' Hin Hn.
      pose proof (find_none _ _ En d' Hin) as Hb. simpl in Hb.
      apply String.eqb_eq in Hn. rewrite Hn in Hb. simpl in Hb. exact Hb. }
    destruct (find (fun d => String.eqb (Discount.id d) code) (discounts db))
      as [d|] eqn:Ei.
    + apply find_some in Ei. destruct Ei as (Hin & Hi).
      apply String.eqb_eq in Hi. split; [exact Hin|]. right. now split.
    + intros d Hin. split.
      * pose proof (find_none _ _ Ei d Hin) as Hb. simpl in Hb.
        now apply String.eqb_neq.
      * now apply N.
Qed.



(* ================================================================== *)
(** ** Cart discount calculator, coupon mode *)

#[global] Instance round2_comp : Proper (Qeq ==> Qeq) round2.
Proof.
  intros x y E. unfold round2.
  rewrite (Qleb_comp 0 0 (Qeq_refl 0) x y E).
  destruct (Qle_bool 0 y).
  - assert (F : Qfloor (x * 100 + (1 # 2)) = Qfloor (y * 100 + (1 # 2)))
      by (apply Qfloor_comp; rewrite E; reflexivity).
    rewrite F. reflexivity.
  - assert (F : Qfloor (- x * 100 + (1 # 2)) = Qfloor (- y * 100 + (1 # 2)))
      by (apply Qfloor_comp; rewrite E; reflexivity).
    rewrite F. reflexivity.
Qed.

(** C2.  With a coupon code supplied (a non-empty string),
    [calculateCartDiscounts] returns at most one descriptor and none of
    type PRODUCT_LEVEL, whatever discounts the products are eligible for;
    when validation fails the discount is zero, no descriptor is recorded
    and the validation message is the one error; when it succeeds the
    discount is the coupon's amount. *)
Theorem coupon_mode_applies_only_the_coupon
    (db : DB) (now : Z) (cartItems : list DiscountService.CartItem.t)
    (userId : option Id) (code : string) :
  code <> "" ->
  let validation :=
    DiscountService.validateDiscount db now code userId
      (DiscountService.cartSubtotal cartItems) in
  exists r,
    DiscountService.calculateCartDiscounts db now cartItems userId (Some code)
      = Ok r
    /\ Forall (fun a => AppliedDiscount.type a <> "PRODUCT_LEVEL")
         (DiscountService.CartDiscounts.appliedDiscounts r)
    /\ (List.length (DiscountService.CartDiscounts.appliedDiscounts r) <= 1)%nat
    /\ (forall message, validation = DiscountService.Invalid message ->
          DiscountService.CartDiscounts.totalDiscount r == 0
          /\ DiscountService.CartDiscounts.appliedDiscounts r = []
          /\ DiscountService.CartDiscounts.errors r = Some [message])
    /\ (forall discount, validation = DiscountService.Valid discount ->
          DiscountService.CartDiscounts.totalDiscount r
          == round2 (DiscountService.Validated.discountAmount discount)
          /\ DiscountService.CartDiscounts.appliedDiscounts r
             = [DiscountService.orderLevelDescriptor code discount]
          /\ DiscountService.CartDiscounts.errors r = None).
Proof.
  intros Hc. cbv zeta.
  unfold DiscountService.calculateCartDiscounts. simpl truthyS.
  apply String.eqb_neq in Hc. rewrite Hc. simpl negb. cbv iota.
  destruct (DiscountService.validateDiscount db now code userId
              (DiscountService.cartSubtotal cartItems)) as [v|m].
  - eexists. split; [reflexivity|]. simpl.
    split; [repeat constructor; discriminate|].
    split; [lia|].
    split; [discriminate|].
    intros discount E. injection E as <-.
    split; [|split; reflexivity].
    apply round2_comp. lra.
  - eexists. split; [reflexivity|]. simpl.
    split; [constructor|].
    split; [lia|].
    split; [|discriminate].
    intros message E. injection E as <-.
    split; [reflexivity|]. split; reflexivity.
Qed.

(* ================================================================== *)
(** ** The confirmation path: coupon plus product discounts *)

Lemma Qmax2_ge_l (a b : Q) : a <= Qmax2 a b.
Proof.
  unfold Qmax2. destruct (Qle_bool a b) eqn:E.
  - now apply Qle_bool_iff.
  - apply Qle_refl.
Qed.

Lemma Qmax2_ge_r (a b : Q) : b <= Qmax2 a b.
Proof.
  unfold Qmax2. destruct (Qle_bool a b) eqn:E.
  - apply Qle_refl.
  - apply Qle_bool_false in E. now apply Qlt_le_weak.
Qed.

Lemma fold_max_spec (l : list Q) :
  forall a,
    a <= fold_left Qmax2 l a
    /\ (forall x, In x l -> x <= fold_left Qmax2 l a)
    /\ In (fold_left Qmax2 l a) (a :: l).
Proof.
  induction l as [|y l IH]; intro a; simpl.
  - split; [apply Qle_refl|]. split; [intros x []|now left].
  - destruct (IH (Qmax2 a y)) as (H1 & H2 & H3).
    split; [eapply Qle_trans; [apply Qmax2_ge_l | exact H1]|].
    split.
    + intros x [<-|Hin]; [|now apply H2].
      eapply Qle_trans; [apply Qmax2_ge_r | exact H1].
    + destruct H3 as [H3|H3]; [|now right; right].
      rewrite <- H3. unfold Qmax2. destruct (Qle_bool a y); auto.
Qed.

(** An amount that is in the list and bounds it is the greatest. *)
Lemma greatest_unique (amounts : list Q) (h : Q) :
  In h amounts -> (forall x, In x amounts -> x <= h) -> h == greatest amounts.
Proof.
  destruct amounts as [|a l]; [intros []|]. intros Hin Hub. simpl.
  destruct (fold_max_spec l a) as (H1 & H2 & H3).
  apply Qle_antisym.
  - destruct Hin as [<-|Hin]; [exact H1 | now apply H2].
  - now apply Hub.
Qed.

Lemma byAmountDesc_total (a b : DiscountService.Best.t) :
  DiscountService.byAmountDesc a b = true
  \/ DiscountService.byAmountDesc b a = true.
Proof.
  unfold DiscountService.byAmountDesc.
  destruct (Qle_bool (DiscountService.Best.calculatedAmount b)
              (DiscountService.Best.calculatedAmount a)) eqn:E; [now left|].
  right. apply Qle_bool_false in E. apply Qle_bool_iff. now apply Qlt_le_weak.
Qed.

Lemma byAmountDesc_trans (a b c : DiscountService.Best.t) :
  DiscountService.byAmountDesc a b = true ->
  DiscountService.byAmountDesc b c = true ->
  DiscountService.byAmountDesc a c = true.
Proof.
  unfold DiscountService.byAmountDesc. rewrite !Qle_bool_iff.
  intros H1 H2. eapply Qle_trans; eauto.
Qed.

(** The head of the list sorted by amount carries the greatest amount. *)
Lemma sorted_head_greatest (price : Q) (applicable : list Discount.t)
    (best : DiscountService.Best.t) (others : list DiscountService.Best.t) :
  sort DiscountService.byAmountDesc
    (map (DiscountService.withAmount price) applicable) = best :: others ->
  DiscountService.Best.calculatedAmount best
  == greatest (map (fun d => DiscountService.unitAmount d price) applicable).
Proof.
  intro E.
  pose proof (sort_sorted _ DiscountService.byAmountDesc byAmountDesc_total
                byAmountDesc_trans
                (map (DiscountService.withAmount price) applicable)) as S.
  pose proof (sort_In _ DiscountService.byAmountDesc) as I.
  rewrite E in S.
  apply StronglySorted_inv in S. destruct S as (_ & F).
  rewrite Forall_forall in F.
  apply greatest_unique.
  - assert (Hb : In best (map (DiscountService.withAmount price) applicable)).
    { apply I. rewrite E. now left. }
    apply in_map_iff in Hb. destruct Hb as (d & <- & Hd).
    apply in_map_iff. exists d. split; [reflexivity | exact Hd].
  - intros x Hx. apply in_map_iff in Hx. destruct Hx as (d & <- & Hd).
    assert (Hw : In (DiscountService.withAmount price d) (best :: others)).
    { rewrite <- E. apply I. now apply in_map. }
    destruct Hw as [->|Hw]; [apply Qle_refl|].
    specialize (F _ Hw). unfold DiscountService.byAmountDesc in F.
    apply Qle_bool_iff in F. exact F.
Qed.

Lemma product_findUnique_by_id (db : DB) (i : option Id) (p : Product.t) :
  product_findUnique db i = Ok (Some p) ->
  product_findUnique db (Some (Product.id p)) = Ok (Some p).
Proof.
  destruct i as [j|]; simpl; [|discriminate].
  intro H. injection H as H.
  pose proof (find_some _ _ H) as (_ & E). apply String.eqb_eq in E.
  rewrite E. now rewrite H.
Qed.

Lemma insert_not_nil (A : Type) (before : A -> A -> bool) (x : A) (l : list A) :
  insert before x l <> [].
Proof. destruct l; simpl; [|destruct (before x a)]; discriminate. Qed.

(** [calculateProductDiscount] succeeds on a stored product and reports
    its best amount. *)
Lemma calculateProductDiscount_amount (db : DB) (now : Z) (userId : option Id)
    (p : Product.t) :
  product_findUnique db (Some (Product.id p)) = Ok (Some p) ->
  exists pd,
    DiscountService.calculateProductDiscount db now (Product.id p) userId = Ok pd
    /\ DiscountService.ProductDiscount.discountAmount pd
       == bestProductDiscountAmount db now userId p
    /\ (DiscountService.ProductDiscount.hasDiscount pd = true ->
        DiscountService.ProductDiscount.bestDiscount pd <> None)
    /\ (DiscountService.ProductDiscount.hasDiscount pd = false ->
        eligibleDiscounts db now userId p = []).
Proof.
  intro Hp.
  unfold DiscountService.calculateProductDiscount, bestProductDiscountAmount,
    eligibleDiscounts.
  rewrite Hp. simpl.
  unfold DiscountService.getProductDiscounts. rewrite Hp. simpl.
  set (applicable := DiscountService.removeNull _).
  destruct applicable as [|d ds] eqn:Ea.
  - eexists. split; [reflexivity|]. simpl.
    split; [reflexivity|]. split; [discriminate | reflexivity].
  - destruct (sort DiscountService.byAmountDesc
                (map (DiscountService.withAmount (DiscountService.priceOf p))
                   (d :: ds))) as [|best others] eqn:Es.
    + exfalso. simpl in Es. exact (insert_not_nil _ _ _ _ Es).
    + eexists. split; [reflexivity|]. simpl.
      split; [|split; discriminate].
      exact (sorted_head_greatest _ _ _ _ Es).
Qed.

Section ConfirmationPath.
Variable db : DB.
Variable now : Z.
Variable userId : option Id.

Let stored (line : DiscountService.ItemWithDetails.t) : Prop :=
  product_findUnique db
    (Some (Product.id (DiscountService.ItemWithDetails.product line)))
  = Ok (Some (DiscountService.ItemWithDetails.product line)).

Let share (line : DiscountService.ItemWithDetails.t) : Q :=
  bestProductDiscountAmount db now userId
    (DiscountService.ItemWithDetails.product line)
  * inject_Z (DiscountService.ItemWithDetails.quantity line).

Let sameLine (item : OrderItem.t) (line : DiscountService.ItemWithDetails.t)
  : Prop :=
  product_findUnique db (OrderItem.productId item)
  = Ok (Some (DiscountService.ItemWithDetails.product line))
  /\ DiscountService.ItemWithDetails.quantity line = OrderItem.quantity item.

Lemma detailsLoop_ok (items : list OrderItem.t) :
  Forall (productFound db) items ->
  forall subtotal acc,
  exists subtotal' lines,
    DiscountService.detailsLoop db items subtotal acc
      = Ok (subtotal', (acc ++ lines)%list)
    /\ Forall2 sameLine items lines.
Proof.
  induction 1 as [|item items (p & Hp) _ IH]; intros subtotal acc; simpl.
  - exists subtotal, []. rewrite app_nil_r. split; [reflexivity | constructor].
  - rewrite Hp. simpl.
    destruct (IH (subtotal
                  + DiscountService.priceOf p * inject_Z (OrderItem.quantity item))
                 (acc ++ [DiscountService.ItemWithDetails.mk p
                            (DiscountService.priceOf p)
                            (OrderItem.quantity item)
                            (DiscountService.priceOf p
                             * inject_Z (OrderItem.quantity item))])%list)
      as (s' & lines & E & F).
    eexists s', (_ :: lines). rewrite E, <- app_assoc. simpl.
    split; [reflexivity|]. constructor; [|exact F].
    split; [exact Hp | reflexivity].
Qed.

Lemma productDiscountsLoop_sum (lines : list DiscountService.ItemWithDetails.t) :
  Forall stored lines ->
  forall productDiscounts applied,
  exists total applied',
    DiscountService.productDiscountsLoop db now userId lines
      productDiscounts applied = Ok (total, applied')
    /\ total == productDiscounts + sumQ (map share lines).
Proof.
  induction 1 as [|line lines Hs _ IH]; intros pd0 ap0; simpl.
  - exists pd0, ap0. split; [reflexivity | lra].
  - destruct (calculateProductDiscount_amount db now userId _ Hs)
      as (pd & E & A & B & _).
    rewrite E. simpl.
    destruct (DiscountService.ProductDiscount.hasDiscount pd) eqn:Eh.
    + destruct (DiscountService.ProductDiscount.bestDiscount pd) as [b|];
        [|exfalso; now apply B].
      destruct (IH (pd0 + DiscountService.ProductDiscount.discountAmount pd
                          * inject_Z (DiscountService.ItemWithDetails.quantity line))
                   (ap0 ++ [DiscountService.productDescriptor
                              (DiscountService.ItemWithDetails.product line) b
                              (DiscountService.ProductDiscount.discountAmount pd
                               * inject_Z (DiscountService.ItemWithDetails.quantity line))])%list)
        as (t & ap & E' & S).
      exists t, ap. split; [exact E'|].
      rewrite S. unfold share at 2. rewrite A. lra.
    + destruct (IH pd0 ap0) as (t & ap & E' & S).
      exists t, ap. split; [exact E'|].
      rewrite S. unfold share at 2. rewrite <- A.
      (* without a discount the reported amount is 0 *)
      revert E Eh.
      unfold DiscountService.calculateProductDiscount.
      rewrite Hs. simpl.
      destruct (DiscountService.getProductDiscounts _ _ _ _) as [l|];
        simpl; [|discriminate].
      destruct l as [|d l].
      * intro E. injection E as <-. simpl. intros _. lra.
      * destruct (sort _ _); [discriminate|].
        intro E. injection E as <-. simpl. discriminate.
Qed.

Lemma shares_of_lines (items : list OrderItem.t)
    (lines : list DiscountService.ItemWithDetails.t) :
  Forall2 sameLine items lines ->
  Forall stored lines
  /\ map share lines = map (lineProductDiscount db now userId) items.
Proof.
  induction 1 as [|item line items lines (Hp & Hq) _ (IH1 & IH2)]; simpl.
  - split; [constructor | reflexivity].
  - split.
    + constructor; [|exact IH1]. eapply product_findUnique_by_id, Hp.
    + rewrite IH2. f_equal.
      unfold lineProductDiscount, share. now rewrite Hp, Hq.
Qed.
End ConfirmationPath.

Lemma inherited_spec (key : string) :
  DiscountService.inherited key = true
  <-> In key DiscountService.objectPrototype.
Proof.
  unfold DiscountService.inherited. rewrite existsb_exists. split.
  - intros (x & Hx & E). apply String.eqb_eq in E. now subst.
  - intro H. exists key. split; [exact H | apply String.eqb_refl].
Qed.

Lemma lookupRate_In (table : list (string * Q)) (key : string) (rate : Q) :
  DiscountService.lookupRate table key = Some rate -> In key (map fst table).
Proof.
  induction table as [|[k v] rest IH]; simpl; [discriminate|].
  destruct (String.eqb_spec k key) as [->|_]; [now left|].
  intro H. right. now apply IH.
Qed.

(** The shipping lookup gives a rate for every state but the names of
    the members of [Object.prototype]. *)
Lemma calculateShippingCost_rate (state : option string) :
  (forall name, In name DiscountService.objectPrototype -> state <> Some name)
  <-> exists rate,
        DiscountService.calculateShippingCost state
        = DiscountService.Rate rate.
Proof.
  unfold DiscountService.calculateShippingCost.
  destruct state as [s|].
  - destruct (DiscountService.lookupRate DiscountService.shippingRates s)
      as [r|] eqn:El.
    + split; [intros _; eexists; reflexivity|].
      intros _ name Hn E. injection E as ->.
      apply lookupRate_In in El.
      unfold DiscountService.shippingRates in El.
      unfold DiscountService.objectPrototype in Hn.
      cbn [map fst In] in El, Hn.
      repeat (destruct El as [El|El]; [subst name; intuition discriminate|]).
      exact El.
    + destruct (DiscountService.inherited s) eqn:Ei.
      * split; [|intros (r & H); discriminate].
        intro H. apply inherited_spec in Ei. now elim (H s Ei).
      * split; [intros _; eexists; reflexivity|].
        intros _ name Hn E. injection E as ->.
        apply inherited_spec in Hn. congruence.
  - split; [intros _; eexists; reflexivity|].
    intros _ name _. discriminate.
Qed.

Lemma detailsLoop_found (db : DB) (items : list OrderItem.t) :
  forall subtotal acc out,
    DiscountService.detailsLoop db items subtotal acc = Ok out ->
    Forall (productFound db) items.
Proof.
  induction items as [|item rest IH]; intros s acc out; simpl.
  - constructor.
  - destruct (product_findUnique db (OrderItem.productId item))
      as [[p|]|m] eqn:E; simpl; try discriminate.
    intro H. constructor; [exists p; exact E | exact (IH _ _ _ H)].
Qed.

(** C3.  Of the two definitions of [calculateFinalAmountWithDiscounts]
    the second is the method of the class, and it is what
    [verifyAndCreateOrder] calls.  When the coupon code validates against
    the cart subtotal, the [totalDiscount] of every answer of the function,
    which is then the answer that [verifyAndCreateOrder] uses, is the
    coupon's amount plus, for each line, the best product-discount amount
    of the line's product times the line's quantity (rounded to two
    decimals).  The function answers when every product of the order is
    in the catalog and the state of the address does not name a member of
    [Object.prototype], for which the shipping lookup gives no number. *)
Theorem confirmation_adds_coupon_and_product_discounts
    (db : DB) (now : Z) (orderData : OrderService.OrderData.t)
    (code : string) (coupon : DiscountService.Validated.t) :
  let cartData := OrderService.cartDataOf orderData in
  let items := DiscountService.CartData.cartItems cartData in
  let userId := OrderService.OrderData.userId orderData in
  OrderService.OrderData.discountCode orderData = Some code ->
  code <> "" ->
  DiscountService.validateDiscount db now code userId
    (confirmationSubtotal db items) = DiscountService.Valid coupon ->
  DiscountService.calculateFinalAmountWithDiscounts
    = DiscountService.calculateFinalAmountWithDiscounts_2
  /\ (forall data,
        DiscountService.calculateFinalAmountWithDiscounts db now cartData
          userId (Some code) = Ok data ->
        OrderService.verifyAndCreateOrder_totals db now orderData = data
        /\ DiscountService.FinalAmount.totalDiscount data
           == round2 (DiscountService.Validated.discountAmount coupon
                      + sumQ (map (lineProductDiscount db now userId) items)))
  /\ (Forall (productFound db) items ->
      (forall name, In name DiscountService.objectPrototype ->
         OrderService.OrderData.state orderData <> Some name) ->
      exists data,
        DiscountService.calculateFinalAmountWithDiscounts db now cartData
          userId (Some code) = Ok data).
Proof.
  cbv zeta. intros Hcode Hne Hvalid.
  split; [reflexivity|].
  assert (Hshape : Forall (productFound db)
                     (DiscountService.CartData.cartItems
                        (OrderService.cartDataOf orderData)) ->
            exists subtotal total applied,
              total == DiscountService.Validated.discountAmount coupon
                       + sumQ (map (lineProductDiscount db now
                                      (OrderService.OrderData.userId orderData))
                                 (DiscountService.CartData.cartItems
                                    (OrderService.cartDataOf orderData)))
              /\ DiscountService.calculateFinalAmountWithDiscounts db now
                   (OrderService.cartDataOf orderData)
                   (OrderService.OrderData.userId orderData) (Some code)
                 = match DiscountService.calculateShippingCost
                           (OrderService.OrderData.state orderData) with
                   | DiscountService.Member _ =>
                       Err (Msg "shippingCost.toFixed is not a function")
                   | DiscountService.Rate shippingCost =>
                       Ok (DiscountService.FinalAmount.mk (round2 subtotal)
                             (round2 total) (round2 shippingCost)
                             (round2 (max0 (subtotal - total + shippingCost)))
                             applied None (Some code))
                   end).
  { intro Hfound.
    change DiscountService.calculateFinalAmountWithDiscounts
      with DiscountService.calculateFinalAmountWithDiscounts_2.
    unfold DiscountService.calculateFinalAmountWithDiscounts_2.
    unfold confirmationSubtotal in Hvalid.
    destruct (detailsLoop_ok db _ Hfound 0 []) as (subtotal & lines & E & F).
    simpl app in E. rewrite E in Hvalid |- *. simpl bind. cbv iota beta.
    apply String.eqb_neq in Hne. simpl truthyS. rewrite Hne. simpl negb.
    cbv iota. rewrite Hvalid.
    destruct (@shares_of_lines db now (OrderService.OrderData.userId orderData)
                _ _ F) as (Hs & Hm).
    destruct (@productDiscountsLoop_sum db now
                (OrderService.OrderData.userId orderData) _ Hs 0
                [DiscountService.codeDescriptor coupon
                   (DiscountService.Validated.discountAmount coupon)])
      as (total & applied & El & S).
    rewrite El. cbn [bind].
    exists subtotal,
      (DiscountService.Validated.discountAmount coupon + total), applied.
    split; [rewrite S, Hm; lra | reflexivity]. }
  split.
  - intros data Hd.
    assert (Hfound : Forall (productFound db)
                       (DiscountService.CartData.cartItems
                          (OrderService.cartDataOf orderData))).
    { revert Hd.
      change DiscountService.calculateFinalAmountWithDiscounts
        with DiscountService.calculateFinalAmountWithDiscounts_2.
      unfold DiscountService.calculateFinalAmountWithDiscounts_2.
      destruct (DiscountService.detailsLoop db _ 0 []) as [out|m] eqn:E;
        [|discriminate].
      intros _. exact (detailsLoop_found db _ _ _ _ E). }
    destruct (Hshape Hfound) as (subtotal & total & applied & Ht & Hc).
    split.
    + unfold OrderService.verifyAndCreateOrder_totals.
      now rewrite Hcode, Hd.
    + rewrite Hd in Hc.
      destruct (DiscountService.calculateShippingCost
                  (OrderService.OrderData.state orderData)) as [rate|name];
        [|discriminate].
      injection Hc as ->. simpl. apply round2_comp. exact Ht.
  - intros Hfound Hstate.
    destruct (Hshape Hfound) as (subtotal & total & applied & _ & Hc).
    apply calculateShippingCost_rate in Hstate. destruct Hstate as (rate & Hr).
    rewrite Hr in Hc. eexists. exact Hc.
Qed.

(* ================================================================== *)
(** ** Discount resolution *)

Lemma eqb_oid_eq (a b : option Id) : eqb_oid a b = true <-> a = b.
Proof.
  destruct a as [x|], b as [y|]; simpl;
    try (split; [discriminate | discriminate]); try tauto.
  rewrite String.eqb_eq. split; [now intros -> | congruence].
Qed.

(** For a product that has both a category and a subcategory the [where]
    clause is the scope matching of the specification. *)
Lemma where_scope_spec (productId : Id) (product : Product.t) (d : Discount.t)
    (c s : Id) :
  Product.categoryId product = Some c ->
  Product.subcategoryId product = Some s ->
  DiscountService.where_scope (Some productId) product d = true
  <-> scopeMatchesSpec productId product d.
Proof.
  intros Hc Hs. unfold DiscountService.where_scope, scopeMatchesSpec.
  rewrite !orb_true_iff, !andb_true_iff, !eqb_oid_eq, Hc, Hs.
  split.
  - intros [[[H|H]|H]|H]; eauto 6. tauto.
  - intros [H|[(c' & H & E)|[(s' & H & E)|H]]]; try tauto.
    + left; left; right. congruence.
    + left; right. congruence.
Qed.

Lemma orderBy_value_created_total (a b : Discount.t) :
  DiscountService.orderBy_value_created a b = true
  \/ DiscountService.orderBy_value_created b a = true.
Proof.
  unfold DiscountService.orderBy_value_created.
  destruct (Qltb (Discount.discountValue b) (Discount.discountValue a)) eqn:E1;
    [now left|].
  destruct (Qltb (Discount.discountValue a) (Discount.discountValue b)) eqn:E2;
    [now right|].
  apply Qltb_false in E1, E2.
  assert (E : Discount.discountValue a == Discount.discountValue b)
    by (apply Qle_antisym; assumption).
  assert (Eb : Qeq_bool (Discount.discountValue a) (Discount.discountValue b) = true)
    by now apply Qeq_bool_iff.
  assert (Eb' : Qeq_bool (Discount.discountValue b) (Discount.discountValue a) = true)
    by (apply Qeq_bool_iff; now symmetry).
  rewrite Eb, Eb'. simpl.
  destruct (Z.leb_spec (Discount.createdAt b) (Discount.createdAt a));
    [now left|].
  right. apply Z.leb_le. lia.
Qed.

Lemma orderBy_value_created_iff (a b : Discount.t) :
  DiscountService.orderBy_value_created a b = true
  <-> Discount.discountValue b < Discount.discountValue a
      \/ (Discount.discountValue a == Discount.discountValue b
          /\ (Discount.createdAt b <= Discount.createdAt a)%Z).
Proof.
  unfold DiscountService.orderBy_value_created.
  rewrite orb_true_iff, andb_true_iff, Qltb_true, Qeq_bool_iff, Z.leb_le.
  tauto.
Qed.

Lemma orderBy_value_created_trans (a b c : Discount.t) :
  DiscountService.orderBy_value_created a b = true ->
  DiscountService.orderBy_value_created b c = true ->
  DiscountService.orderBy_value_created a c = true.
Proof.
  rewrite !orderBy_value_created_iff.
  intros [H1|(H1 & C1)] [H2|(H2 & C2)].
  - left. lra.
  - left. lra.
  - left. lra.
  - right. split; [lra | lia].
Qed.

Lemma eligibleOrNull_cases (db : DB) (userId : option Id) (d : Discount.t) :
  DiscountService.eligibleOrNull db userId d = Some d
  \/ DiscountService.eligibleOrNull db userId d = None.
Proof.
  unfold DiscountService.eligibleOrNull.
  destruct (_ && _ && _ && _); [now right|].
  destruct (_ && _ && _); [now right|].
  destruct (_ && _); [now right | now left].
Qed.

Lemma removeNull_filter (db : DB) (userId : option Id) (l : list Discount.t) :
  DiscountService.removeNull (map (DiscountService.eligibleOrNull db userId) l)
  = filter (fun d => match DiscountService.eligibleOrNull db userId d with
                     | Some _ => true
                     | None => false
                     end) l.
Proof.
  induction l as [|d l IH]; simpl; [reflexivity|].
  destruct (eligibleOrNull_cases db userId d) as [E|E]; rewrite E, IH;
    reflexivity.
Qed.

Lemma StronglySorted_filter (A : Type) (R : A -> A -> Prop) (f : A -> bool)
    (l : list A) :
  StronglySorted R l -> StronglySorted R (filter f l).
Proof.
  induction 1 as [|x l Hs IH Hx]; simpl; [constructor|].
  destruct (f x); [|exact IH].
  constructor; [exact IH|].
  rewrite Forall_forall in *. intros y Hy.
  apply filter_In in Hy. now apply Hx.
Qed.

(** What [getProductDiscounts] returns for a stored product: the stored
    discounts that satisfy the [where] clause and the eligibility
    callback, highest value first and, at equal value, latest first. *)
Lemma getProductDiscounts_spec (db : DB) (now : Z) (productId : option Id)
    (userId : option Id) (product : Product.t) :
  product_findUnique db productId = Ok (Some product) ->
  exists l,
    DiscountService.getProductDiscounts db now productId userId = Ok l
    /\ (forall d, In d l <->
          In d (discounts db)
          /\ DiscountService.where_scope productId product d = true
          /\ DiscountService.where_active now d = true
          /\ DiscountService.eligibleOrNull db userId d = Some d)
    /\ StronglySorted
         (fun a b => DiscountService.orderBy_value_created a b = true) l.
Proof.
  intro Hp. unfold DiscountService.getProductDiscounts. rewrite Hp. simpl.
  eexists. split; [reflexivity|]. rewrite removeNull_filter. split.
  - intro d. rewrite filter_In, sort_In, filter_In, andb_true_iff.
    destruct (eligibleOrNull_cases db userId d) as [E|E]; rewrite E.
    + tauto.
    + split; [intros (_ & ?) | intros (_ & _ & _ & ?)]; discriminate.
  - apply StronglySorted_filter.
    apply sort_sorted;
      [apply orderBy_value_created_total | apply orderBy_value_created_trans].
Qed.


(** C8 (evaluation at the failing input).  The product p1 has a category
    and no subcategory; the only stored discount is scoped to the product
    p2.  [getProductDiscounts] for p1 returns it, because the filter
    [{ subcategoryId: product.subcategoryId }] is then [{ subcategoryId:
    null }], which selects every discount without subcategory; the
    discount's scope matches neither p1, nor its category, nor a
    subcategory of it, and it is not sitewide. *)
Theorem getProductDiscounts_returns_discount_of_other_product :
  DiscountService.getProductDiscounts dbScope 50 (Some "p1") None
    = Ok [halfOffDupatta]
  /\ ~ scopeMatchesSpec "p1" kurta halfOffDupatta
  /\ DiscountService.getProductDiscounts dbScope 50 (Some "p2") None
     = Ok [halfOffDupatta].
Proof.
  split; [reflexivity|]. split; [|reflexivity].
  unfold scopeMatchesSpec. simpl.
  intros [H|[(c & H & _)|[(s & _ & H)|(H & _)]]]; discriminate.
Qed.

(* ================================================================== *)
(** ** Usage recording *)

(** C9 (evaluation at the failing input).  At confirmation of the
    two-line order the sitewide discount d1 is the best discount of both
    lines, so [appliedDiscounts] holds two descriptors of d1; the
    recording loop then writes two ledger rows for the pair (d1, o1) and
    raises [usedCount] from 0 to 2: the second recording for the same
    pair is not rejected. *)
Theorem confirmation_records_same_discount_twice :
  let data := OrderService.verifyAndCreateOrder_totals dbTwo 50 twoLineOrder in
  let applied := DiscountService.FinalAmount.appliedDiscounts data in
  let db' := OrderService.verifyAndCreateOrder_recordUsage dbTwo (Some "u1")
               "o1" applied in
  map AppliedDiscount.discountId applied = [Some "d1"; Some "d1"]
  /\ usagesOf dbTwo "d1" "o1" = []
  /\ List.length (usagesOf db' "d1" "o1") = 2%nat
  /\ option_map Discount.usedCount (discount_findUnique dbTwo "d1") = Some 0%Z
  /\ option_map Discount.usedCount (discount_findUnique db' "d1") = Some 2%Z.
Proof. cbv zeta. repeat split; vm_compute; reflexivity. Qed.

(** The sibling path [applyDiscount]: a successful call adds exactly one
    ledger row and increments the counters of the discount once. *)
Lemma applyDiscount_records_once (db db' : DB) (now : Z)
    (orderId discountId userId : Id) (usage : DiscountUsage.t) :
  DiscountService.applyDiscount db now orderId discountId userId
    = Ok (db', usage) ->
  discountUsages db' = (discountUsages db ++ [usage])%list
  /\ DiscountUsage.discountId usage = discountId
  /\ DiscountUsage.orderId usage = orderId
  /\ usagesOf db discountId orderId = []
  /\ exists d,
       discount_findUnique db discountId = Some d
       /\ discount_findUnique db' discountId
          = Some (incrementUsage (DiscountUsage.discountAmount usage) d).
Proof.
  unfold DiscountService.applyDiscount.
  destruct (discount_findUnique db discountId) as [d|] eqn:Ed; [|discriminate].
  destruct (negb (Discount.isActive d)); [discriminate|].
  destruct (_ || _); [discriminate|].
  destruct (_ && _); [discriminate|].
  destruct (_ && _); [discriminate|].
  destruct (discountUsage_findFirst db discountId orderId) eqn:Ef;
    [discriminate|].
  destruct (order_findUnique db orderId) as [o|]; [|discriminate].
  destruct (_ && _); [discriminate|].
  destruct (Qltb _ _); [discriminate|].
  intro H. injection H as <- <-. simpl.
  repeat split.
  - unfold usagesOf, discountUsage_findFirst in *.
    induction (discountUsages db) as [|u l IH]; simpl in *; [reflexivity|].
    destruct (_ && _); [discriminate | now apply IH].
  - exists d. split; [reflexivity|].
    unfold discount_findUnique in *. simpl.
    induction (discounts db) as [|x l IH]; simpl in *; [discriminate|].
    destruct (String.eqb (Discount.id x) discountId) eqn:Ex.
    + injection Ed as ->. simpl. rewrite Ex. reflexivity.
    + simpl. rewrite Ex. now apply IH.
Qed.

(** ... and a second call for the same (discount, order) pair is
    rejected, whoever makes it and whenever. *)
Lemma applyDiscount_rejects_second (db db' : DB) (now now' : Z)
    (orderId discountId userId userId' : Id) (usage : DiscountUsage.t) :
  DiscountService.applyDiscount db now orderId discountId userId
    = Ok (db', usage) ->
  exists message,
    DiscountService.applyDiscount db' now' orderId discountId userId'
    = Err message.
Proof.
  intro H. destruct (applyDiscount_records_once _ _ _ _ _ _ _ H)
    as (Hu & Hd & Ho & _ & _).
  assert (F : exists u, discountUsage_findFirst db' discountId orderId = Some u).
  { unfold discountUsage_findFirst. rewrite Hu. clear Hu H.
    induction (discountUsages db) as [|x l IH]; simpl.
    - rewrite Hd, Ho, !String.eqb_refl. simpl. now exists usage.
    - destruct (_ && _); [now exists x | exact IH]. }
  destruct F as (u & F).
  unfold DiscountService.applyDiscount. rewrite F.
  destruct (discount_findUnique db' discountId); [|eauto].
  destruct (negb _); [eauto|].
  destruct (_ || _); [eauto|].
  destruct (_ && _); [eauto|].
  destruct (_ && _); eauto.
Qed.

(* ================================================================== *)
(** ** The theorems at concrete stores *)

(** Two sarees with the code TEN: the products are eligible for the
    sitewide discount, and the result holds the coupon only. *)
Lemma coupon_mode_applies_only_the_coupon_witness :
  exists r,
    DiscountService.calculateCartDiscounts dbA 50 [sareeLine] None (Some "TEN")
      = Ok r
    /\ Forall (fun a => AppliedDiscount.type a <> "PRODUCT_LEVEL")
         (DiscountService.CartDiscounts.appliedDiscounts r)
    /\ (List.length (DiscountService.CartDiscounts.appliedDiscounts r) <= 1)%nat.
Proof.
  assert (Hc : "TEN" <> "") by discriminate.
  destruct (coupon_mode_applies_only_the_coupon dbA 50 [sareeLine] None
              "TEN" Hc)
    as (r & H1 & H2 & H3 & _).
  exists r. split; [exact H1|]. split; [exact H2 | exact H3].
Defined.

(** Two sarees confirmed with the code TEN: 100 from the coupon and
    2 * 50 from the sitewide discount as product discount. *)
Lemma confirmation_adds_coupon_and_product_discounts_witness :
  DiscountService.FinalAmount.totalDiscount
    (OrderService.verifyAndCreateOrder_totals dbA 50 sareeOrder) == 200.
Proof.
  assert (H1 : OrderService.OrderData.discountCode sareeOrder = Some "TEN")
    by reflexivity.
  assert (H2 : "TEN" <> "") by discriminate.
  assert (H4 : DiscountService.validateDiscount dbA 50 "TEN"
                 (OrderService.OrderData.userId sareeOrder)
                 (confirmationSubtotal dbA
                    (DiscountService.CartData.cartItems
                       (OrderService.cartDataOf sareeOrder)))
               = DiscountService.Valid tenOnSarees)
    by (vm_compute; reflexivity).
  destruct (confirmation_adds_coupon_and_product_discounts
              dbA 50 sareeOrder "TEN" tenOnSarees H1 H2 H4) as (_ & Hc & _).
  destruct (Hc (OrderService.verifyAndCreateOrder_totals dbA 50 sareeOrder))
    as (_ & H); [vm_compute; reflexivity|].
  rewrite H. reflexivity.
Defined.

Lemma percentage_amount_capped_witness :
  exists v,
    DiscountService.validateDiscount dbCapped 50 "TWENTY" None 1000
    = DiscountService.Valid v
    /\ DiscountService.Validated.id v = "d3"
    /\ DiscountService.Validated.discountAmount v = 150
    /\ DiscountService.Validated.maxDiscountReached v = true.
Proof.
  assert (Hl : lookedUp dbCapped "TWENTY" capped20).
  { exists [], []. split; [reflexivity|]. left.
    split; [split; reflexivity | intros e []]. }
  assert (Ht : Discount.discountType capped20 = PERCENTAGE) by reflexivity.
  assert (Hm : Discount.maxDiscount capped20 = Some 150) by reflexivity.
  assert (Hz : ~ 150 == 0) by (intro E; vm_compute in E; discriminate).
  destruct (percentage_amount_capped dbCapped 50 "TWENTY" None 1000
              capped20 150 Hl Ht Hm Hz) as (Hiff & Hcap).
  assert (P : passesChecks dbCapped 50 None 1000 capped20).
  { split; [reflexivity|]. split; [simpl; lia|].
    split; [reflexivity|]. split; [reflexivity|].
    vm_compute. discriminate. }
  destruct (proj1 Hiff P) as (v & Hv). exists v. split; [exact Hv|].
  destruct (Hcap v Hv) as (Hid & _ & _ & Hbind & Hflag).
  assert (L : 150 < 1000 * Discount.discountValue capped20 / 100)
    by (vm_compute; reflexivity).
  split; [exact Hid|]. split; [exact (Hbind L) | exact (proj2 Hflag L)].
Defined.

Lemma quantity_tier_pricing_minimum_witness :
  OrderService.QuantityPricing.finalPrice
    (OrderService.calculateItemQuantityPrice dbB "p1" (Some "s1") 500 5)
  <= ruleTotalSpec rule5 500 5.
Proof.
  destruct (quantity_tier_pricing_minimum dbB "p1" (Some "s1") 500 5)
    as (_ & _ & _ & H & _).
  assert (Hs : "s1" <> "") by discriminate.
  destruct (H "s1" eq_refl Hs) as (_ & Hmin & _).
  apply Hmin. unfold qualifies. simpl.
  split; [now left|]. split; [reflexivity|]. split; [reflexivity | lia].
Defined.

(** Two units of the saree: the half-price discount from five units on is
    skipped although its amount would be the greater, and the sitewide
    10% is chosen. *)
Lemma best_discount_selection_witness :
  match DiscountService.getBestProductDiscount [bulk50; sitewide10] sareeLine
  with
  | Some best =>
      ~ minQuantityExceeds (DiscountService.Best.discount best) 2
      /\ 0 < DiscountService.lineAmount (DiscountService.Best.discount best) 2
               (DiscountService.priceOf saree * inject_Z 2)
  | None => True
  end.
Proof.
  assert (D : (0 <= DiscountService.CartItem.quantity sareeLine)%Z
              \/ (0 <= DiscountService.priceOf
                         (DiscountService.CartItem.product sareeLine)
                  /\ Forall (fun d => 0 <= Discount.discountValue d)
                       [bulk50; sitewide10])).
  { left. simpl. lia. }
  destruct (best_discount_selection [bulk50; sitewide10] sareeLine D)
    as (H & _).
  cbv zeta in H.
  destruct (DiscountService.getBestProductDiscount [bulk50; sitewide10]
              sareeLine).
  - destruct H as (K & _ & _ & H & _). split; [exact K | exact H].
  - exact I.
Defined.


(* ================================================================== *)
(** ** Further properties of discount resolution and selection *)



(** X1.  For a product of the catalog [getProductDiscounts] does not fail; it
    returns the stored discounts that pass the [where] clause and the
    eligibility callback, every one of them active and inside its validity
    window at [now], listed by decreasing value and, at equal value, latest
    first. *)
Theorem getProductDiscounts_sorted_eligible
    (db : DB) (now : Z) (productId userId : option Id) (product : Product.t) :
  product_findUnique db productId = Ok (Some product) ->
  exists l,
    DiscountService.getProductDiscounts db now productId userId = Ok l
    /\ (forall d, In d l <->
          In d (discounts db)
          /\ DiscountService.where_scope productId product d = true
          /\ DiscountService.where_active now d = true
          /\ DiscountService.eligibleOrNull db userId d = Some d)
    /\ Forall (fun d => Discount.isActive d = true
                        /\ (Discount.validFrom d <= now <= Discount.validUntil d)%Z)
         l
    /\ StronglySorted
         (fun a b =>
            Discount.discountValue b < Discount.discountValue a
            \/ (Discount.discountValue a == Discount.discountValue b
                /\ (Discount.createdAt b <= Discount.createdAt a)%Z))
         l.
Proof.
  intro Hp.
  destruct (getProductDiscounts_spec db now productId userId product Hp)
    as (l & E & M & S).
  exists l. split; [exact E|]. split; [exact M|]. split.
  - rewrite Forall_forall. intros d Hd. apply M in Hd.
    destruct Hd as (_ & _ & A & _). unfold DiscountService.where_active in A.
    rewrite !andb_true_iff, !Z.leb_le in A. tauto.
  - clear -S. induction S as [|a l S IH F]; constructor; [exact IH|].
    eapply Forall_impl; [|exact F]. intros b Hb.
    now apply orderBy_value_created_iff.
Qed.

Lemma getProductDiscounts_sorted_eligible_witness :
  exists l,
    DiscountService.getProductDiscounts dbA 50 (Some "p1") None = Ok l
    /\ Forall (fun d => Discount.isActive d = true
                        /\ (Discount.validFrom d <= 50 <= Discount.validUntil d)%Z)
         l.
Proof.
  assert (Hp : product_findUnique dbA (Some "p1") = Ok (Some saree))
    by reflexivity.
  destruct (getProductDiscounts_sorted_eligible dbA 50 (Some "p1") None saree Hp)
    as (l & E & _ & F & _).
  exists l. split; [exact E | exact F].
Defined.

Lemma max0_comp (x y : Q) : x == y -> max0 x == max0 y.
Proof.
  intro E. unfold max0, Qmax2.
  rewrite (Qleb_comp 0 0 (Qeq_refl 0) x y E).
  destruct (Qle_bool 0 y); [exact E | reflexivity].
Qed.

(** The selection, without the position of the chosen discount: nothing
    when no kept discount has a positive amount, else a kept discount of
    the list whose amount is positive and bounds all the others. *)
Lemma getBestProductDiscount_greatest
    (discounts : list Discount.t) (cartItem : DiscountService.CartItem.t) :
  let quantity := DiscountService.CartItem.quantity cartItem in
  let lineTotal :=
    DiscountService.priceOf (DiscountService.CartItem.product cartItem)
    * inject_Z quantity in
  let amount d := DiscountService.lineAmount d quantity lineTotal in
  let kept d := DiscountService.belowMinQuantity d quantity = false in
  match DiscountService.getBestProductDiscount discounts cartItem with
  | None => forall d, In d discounts -> kept d -> amount d <= 0
  | Some best =>
      let chosen := DiscountService.Best.discount best in
      In chosen discounts
      /\ kept chosen
      /\ DiscountService.Best.calculatedAmount best = amount chosen
      /\ DiscountService.Best.finalPrice best
         = max0 (lineTotal - amount chosen)
      /\ 0 < amount chosen
      /\ forall d, In d discounts -> kept d -> amount d <= amount chosen
  end.
Proof.
  cbv zeta. unfold DiscountService.getBestProductDiscount.
  assert (H0 : BestOf (DiscountService.CartItem.quantity cartItem)
                 (DiscountService.priceOf (DiscountService.CartItem.product cartItem)
                  * inject_Z (DiscountService.CartItem.quantity cartItem))
                 [] None 0).
  { split; [reflexivity | intros d []]. }
  destruct (bestLoop_BestOf _ _ discounts _ _ _ H0) as (m' & H).
  simpl app in H.
  destruct (DiscountService.bestLoop _ _ _ _ _) as [b|]; unfold BestOf in H;
    cbv zeta in H.
  - destruct H as (E & P & A & F & K & l1 & l2 & -> & H1 & H2).
    split; [apply in_or_app; right; now left|].
    split; [exact K|]. split; [exact A|]. split; [exact F|].
    split; [rewrite <- A, <- E; exact P|].
    intros d Hin Hk. rewrite <- A, <- E. apply in_app_or in Hin.
    destruct Hin as [Hin|[<-|Hin]].
    + apply Qlt_le_weak. now apply H1.
    + rewrite E, A. apply Qle_refl.
    + now apply H2.
  - destruct H as (_ & H). exact H.
Qed.

(** X3.  The amount of the selected discount does not depend on the order in
    which the eligible discounts are listed (on a tie the discount itself
    may differ, its amount does not). *)
Theorem getBestProductDiscount_amount_permutation
    (discounts discounts' : list Discount.t)
    (cartItem : DiscountService.CartItem.t) :
  Permutation discounts discounts' ->
  match DiscountService.getBestProductDiscount discounts cartItem,
        DiscountService.getBestProductDiscount discounts' cartItem with
  | Some best, Some best' =>
      DiscountService.Best.calculatedAmount best
      == DiscountService.Best.calculatedAmount best'
      /\ DiscountService.Best.finalPrice best
         == DiscountService.Best.finalPrice best'
  | None, None => True
  | _, _ => False
  end.
Proof.
  intro P.
  pose proof (getBestProductDiscount_greatest discounts cartItem) as H.
  pose proof (getBestProductDiscount_greatest discounts' cartItem) as H'.
  cbv zeta in H, H'.
  destruct (DiscountService.getBestProductDiscount discounts cartItem) as [b|];
    destruct (DiscountService.getBestProductDiscount discounts' cartItem)
      as [b'|].
  - destruct H as (I & K & A & F & Pz & U).
    destruct H' as (I' & K' & A' & F' & Pz' & U').
    assert (E : DiscountService.Best.calculatedAmount b
                == DiscountService.Best.calculatedAmount b').
    { rewrite A, A'. apply Qle_antisym.
      - apply U'; [|exact K]. now apply (Permutation_in _ P).
      - apply U; [|exact K']. now apply (Permutation_in _ (Permutation_sym P)). }
    split; [exact E|].
    rewrite F, F'. apply max0_comp. unfold Qminus.
    apply Qplus_comp; [reflexivity|]. apply Qopp_comp.
    rewrite <- A, <- A'. exact E.
  - destruct H as (I & K & A & F & Pz & U).
    specialize (H' _ (Permutation_in _ P I) K).
    exact (Qlt_not_le _ _ Pz H').
  - destruct H' as (I' & K' & A' & F' & Pz' & U').
    specialize (H _ (Permutation_in _ (Permutation_sym P) I') K').
    exact (Qlt_not_le _ _ Pz' H).
  - exact I.
Qed.

Lemma getBestProductDiscount_amount_permutation_witness :
  match DiscountService.getBestProductDiscount [sitewide10; capped20] sareeLine,
        DiscountService.getBestProductDiscount [capped20; sitewide10] sareeLine
  with
  | Some best, Some best' =>
      DiscountService.Best.calculatedAmount best
      == DiscountService.Best.calculatedAmount best'
      /\ DiscountService.Best.finalPrice best
         == DiscountService.Best.finalPrice best'
  | None, None => True
  | _, _ => False
  end.
Proof.
  assert (P : Permutation [sitewide10; capped20] [capped20; sitewide10])
    by apply perm_swap.
  exact (getBestProductDiscount_amount_permutation _ _ sareeLine P).
Defined.

(** X4.  What the selected discount takes off a line: the amount is positive
    and the line's final price is never negative; a FIXED_AMOUNT discount
    takes at most the line total, a capped PERCENTAGE at most its cap, and
    whenever the amount is within the line total the final price is the
    line total less the amount. *)
Theorem getBestProductDiscount_bounds
    (discounts : list Discount.t) (cartItem : DiscountService.CartItem.t)
    (best : DiscountService.Best.t) :
  DiscountService.getBestProductDiscount discounts cartItem = Some best ->
  let lineTotal :=
    DiscountService.priceOf (DiscountService.CartItem.product cartItem)
    * inject_Z (DiscountService.CartItem.quantity cartItem) in
  let chosen := DiscountService.Best.discount best in
  let amount := DiscountService.Best.calculatedAmount best in
  0 < amount
  /\ 0 <= DiscountService.Best.finalPrice best
  /\ (Discount.discountType chosen = FIXED_AMOUNT -> amount <= lineTotal)
  /\ (Discount.discountType chosen = PERCENTAGE ->
      forall cap, Discount.maxDiscount chosen = Some cap -> ~ cap == 0 ->
      amount <= cap)
  /\ (amount <= lineTotal ->
      DiscountService.Best.finalPrice best == lineTotal - amount).
Proof.
  intro E. cbv zeta.
  pose proof (getBestProductDiscount_greatest discounts cartItem) as H.
  cbv zeta in H. rewrite E in H.
  destruct H as (_ & _ & A & F & Pz & _).
  rewrite A, F. split; [exact Pz|].
  split; [apply max0_nonneg|].
  split; [|split].
  - intro T. unfold DiscountService.lineAmount. rewrite T. apply Qmin2_le_r.
  - intros T cap Hc Hz. unfold DiscountService.lineAmount. rewrite T, Hc.
    simpl. destruct (Qeq_bool cap 0) eqn:Ez.
    + apply Qeq_bool_iff in Ez. contradiction.
    + simpl. apply Qmin2_le_r.
  - intro L. unfold max0, Qmax2.
    destruct (Qle_bool 0 _) eqn:Eb; [reflexivity|].
    apply Qle_bool_false in Eb. lra.
Qed.

Lemma getBestProductDiscount_bounds_witness :
  match DiscountService.getBestProductDiscount [sitewide10] sareeLine with
  | Some best => 0 < DiscountService.Best.calculatedAmount best
  | None => True
  end.
Proof.
  destruct (DiscountService.getBestProductDiscount [sitewide10] sareeLine)
    as [best|] eqn:E; [|exact I].
  exact (proj1 (getBestProductDiscount_bounds [sitewide10] sareeLine best E)).
Defined.

(* ================================================================== *)
(** ** Further properties of quantity-tier pricing *)

(** The rule the scan remembers: the one it started with, the best total
    being then unchanged, or a qualifying rule whose total is the result
    and is strictly below the total the scan started from. *)
Lemma bestTotalLoop_applied (basePrice : Q) (quantity : Z)
    (rules : list SubcategoryQuantityPrice.t) :
  forall bestTotal applied,
    let out := OrderService.bestTotalLoop rules basePrice quantity
                 bestTotal applied in
    (snd out = applied /\ fst out = bestTotal)
    \/ exists r, snd out = Some r /\ In r rules
         /\ (SubcategoryQuantityPrice.quantity r <= quantity)%Z
         /\ fst out = OrderService.finalPriceForRule r basePrice quantity
         /\ fst out < bestTotal.
Proof.
  induction rules as [|r rules IH]; intros bestTotal applied; simpl.
  - left. split; reflexivity.
  - destruct (SubcategoryQuantityPrice.quantity r <=? quantity)%Z eqn:Eq.
    + apply Z.leb_le in Eq.
      destruct (Qltb (OrderService.finalPriceForRule r basePrice quantity)
                  bestTotal) eqn:El.
      * apply Qltb_true in El. right.
        destruct (IH (OrderService.finalPriceForRule r basePrice quantity)
                    (Some r)) as [(H1 & H2)|(r' & H1 & H2 & H3 & H4 & H5)].
        -- exists r. rewrite H2. repeat split; auto.
        -- exists r'. repeat split; auto. lra.
      * destruct (IH bestTotal applied)
          as [H|(r' & H1 & H2 & H3 & H4 & H5)]; [now left|].
        right. exists r'. repeat split; auto.
    + destruct (IH bestTotal applied)
        as [H|(r' & H1 & H2 & H3 & H4 & H5)]; [now left|].
      right. exists r'. repeat split; auto.
Qed.

(** X5.  [calculateItemQuantityPrice] never raises the price: the savings are
    not negative; [hasDiscount] is set exactly when the final price is
    strictly below the original one, and then [appliedDiscount] is a
    qualifying rule of the subcategory whose total is the final price. *)
Theorem calculateItemQuantityPrice_applied_rule
    (db : DB) (productId : Id) (subcategoryId : option Id)
    (unitPrice : Q) (quantity : Z) :
  let r := OrderService.calculateItemQuantityPrice db productId subcategoryId
             unitPrice quantity in
  0 <= OrderService.QuantityPricing.totalSavings r
  /\ OrderService.QuantityPricing.finalPrice r
     <= OrderService.QuantityPricing.originalPrice r
  /\ (OrderService.QuantityPricing.hasDiscount r = true
      <-> OrderService.QuantityPricing.finalPrice r
          < OrderService.QuantityPricing.originalPrice r)
  /\ (OrderService.QuantityPricing.hasDiscount r = false
      -> OrderService.QuantityPricing.appliedDiscount r = None)
  /\ (forall rule,
        OrderService.QuantityPricing.appliedDiscount r = Some rule ->
        OrderService.QuantityPricing.hasDiscount r = true
        /\ OrderService.QuantityPricing.finalPrice r
           = ruleTotalSpec rule unitPrice quantity
        /\ exists sub, subcategoryId = Some sub
             /\ qualifies db sub quantity rule).
Proof.
  cbv zeta. unfold OrderService.calculateItemQuantityPrice.
  destruct (truthyS subcategoryId) eqn:Et; simpl.
  2:{ split; [apply Qle_refl|]. split; [apply Qle_refl|].
      split; [split; [discriminate | intro H; exfalso; exact (Qlt_irrefl _ H)]|].
      split; [reflexivity | discriminate]. }
  destruct subcategoryId as [sub|]; [|discriminate].
  pose proof (bestTotalLoop_minimum unitPrice quantity
                (OrderService.quantityPrices_findMany db sub quantity)
                (unitPrice * inject_Z quantity) None) as (M1 & _).
  pose proof (bestTotalLoop_applied unitPrice quantity
                (OrderService.quantityPrices_findMany db sub quantity)
                (unitPrice * inject_Z quantity) None) as A.
  cbv zeta in A.
  destruct (OrderService.bestTotalLoop _ _ _ _ _) as [best applied].
  simpl in *.
  split; [lra|]. split; [exact M1|].
  destruct A as [(-> & ->)|(r & -> & Hin & Hq & Hf & Hlt)].
  - split; [split; [discriminate | intro H; exfalso; exact (Qlt_irrefl _ H)]|].
    split; [reflexivity | discriminate].
  - split; [split; [intros _; exact Hlt | reflexivity]|].
    split; [discriminate|].
    intros rule E. injection E as <-.
    split; [reflexivity|]. split; [exact Hf|].
    exists sub. split; [reflexivity|].
    now apply quantityPrices_findMany_In.
Qed.

(* ================================================================== *)
(** ** The cart discount calculator without coupon *)

(** What the loop of the no-coupon branch adds: at most one descriptor per
    line, each PRODUCT_LEVEL with a positive amount, and the running total
    grows by the sum of their amounts. *)
Lemma autoApplyLoop_spec (db : DB) (now : Z) (userId : option Id)
    (cartItems : list DiscountService.CartItem.t) :
  forall totalDiscount applied totalDiscount' applied',
    DiscountService.autoApplyLoop db now userId cartItems totalDiscount applied
    = Ok (totalDiscount', applied') ->
    exists added,
      applied' = (applied ++ added)%list
      /\ (List.length added <= List.length cartItems)%nat
      /\ Forall (fun a => AppliedDiscount.type a = "PRODUCT_LEVEL"
                          /\ 0 < AppliedDiscount.amount a) added
      /\ totalDiscount'
         == totalDiscount + sumQ (map AppliedDiscount.amount added).
Proof.
  induction cartItems as [|item rest IH]; intros t ap t' ap'; simpl.
  - intro H. injection H as <- <-. exists []. rewrite app_nil_r.
    split; [reflexivity|]. split; [simpl; lia|]. split; [constructor|].
    simpl. lra.
  - destruct (DiscountService.getProductDiscounts db now _ userId)
      as [ds|]; simpl; [|discriminate].
    destruct ds as [|d ds].
    + intro H. destruct (IH _ _ _ _ H) as (added & E & L & F & S).
      exists added. split; [exact E|]. split; [lia|]. split; assumption.
    + pose proof (getBestProductDiscount_greatest (d :: ds) item) as G.
      cbv zeta in G.
      destruct (DiscountService.getBestProductDiscount (d :: ds) item)
        as [b|].
      * intro H. destruct (IH _ _ _ _ H) as (added & E & L & F & S).
        exists (DiscountService.productLevelDescriptor item b :: added).
        rewrite E, <- app_assoc. simpl.
        split; [reflexivity|]. split; [lia|]. split.
        -- constructor; [|exact F]. simpl. split; [reflexivity|].
           destruct G as (_ & _ & A & _ & P & _). now rewrite A.
        -- rewrite S. lra.
      * intro H. destruct (IH _ _ _ _ H) as (added & E & L & F & S).
        exists added. split; [exact E|]. split; [lia|]. split; assumption.
Qed.

(** X6.  Without a coupon code, [calculateCartDiscounts] records no error, at
    most one descriptor per cart line, each of them PRODUCT_LEVEL with a
    positive amount; the total discount is the sum of these amounts and
    the final total is not negative. *)
Theorem calculateCartDiscounts_auto_mode
    (db : DB) (now : Z) (cartItems : list DiscountService.CartItem.t)
    (userId : option Id) (discountCode : option string)
    (r : DiscountService.CartDiscounts.t) :
  truthyS discountCode = false ->
  DiscountService.calculateCartDiscounts db now cartItems userId discountCode
    = Ok r ->
  let applied := DiscountService.CartDiscounts.appliedDiscounts r in
  DiscountService.CartDiscounts.errors r = None
  /\ (List.length applied <= List.length cartItems)%nat
  /\ Forall (fun a => AppliedDiscount.type a = "PRODUCT_LEVEL"
                      /\ 0 < AppliedDiscount.amount a) applied
  /\ DiscountService.CartDiscounts.totalDiscount r
     == round2 (sumQ (map AppliedDiscount.amount applied))
  /\ 0 <= DiscountService.CartDiscounts.finalTotal r.
Proof.
  intros Hc. unfold DiscountService.calculateCartDiscounts. rewrite Hc.
  destruct (DiscountService.autoApplyLoop db now userId cartItems 0 [])
    as [[t ap]|] eqn:E; simpl; [|discriminate].
  intro H. injection H as <-. simpl.
  destruct (autoApplyLoop_spec db now userId cartItems _ _ _ _ E)
    as (added & -> & L & F & S).
  simpl. split; [reflexivity|]. split; [exact L|]. split; [exact F|].
  split; [apply round2_comp; rewrite S; lra|].
  apply round2_nonneg, max0_nonneg.
Qed.

Lemma calculateCartDiscounts_auto_mode_witness :
  exists r,
    DiscountService.calculateCartDiscounts dbA 50 [sareeLine] None None = Ok r
    /\ DiscountService.CartDiscounts.errors r = None
    /\ 0 <= DiscountService.CartDiscounts.finalTotal r.
Proof.
  destruct (DiscountService.calculateCartDiscounts dbA 50 [sareeLine] None None)
    as [r|] eqn:E; [|vm_compute in E; discriminate].
  exists r. split; [reflexivity|].
  destruct (calculateCartDiscounts_auto_mode dbA 50 [sareeLine] None None r
              eq_refl E) as (H1 & _ & _ & _ & H5).
  split; [exact H1 | exact H5].
Defined.

(** X7.  Without a coupon code, [calculateCartDiscounts] fails exactly when
    the product of some cart line is not in the catalog. *)
Theorem calculateCartDiscounts_auto_mode_succeeds_iff
    (db : DB) (now : Z) (cartItems : list DiscountService.CartItem.t)
    (userId : option Id) (discountCode : option string) :
  truthyS discountCode = false ->
  (exists r,
     DiscountService.calculateCartDiscounts db now cartItems userId discountCode
     = Ok r)
  <-> Forall (fun item =>
                exists product,
                  product_findUnique db (DiscountService.CartItem.productId item)
                  = Ok (Some product))
             cartItems.
Proof.
  intro Hc. unfold DiscountService.calculateCartDiscounts. rewrite Hc.
  assert (L : forall t ap,
            (exists out, DiscountService.autoApplyLoop db now userId cartItems t ap
                         = Ok out)
            <-> Forall (fun item =>
                          exists product,
                            product_findUnique db
                              (DiscountService.CartItem.productId item)
                            = Ok (Some product))
                       cartItems).
  { induction cartItems as [|item rest IH]; intros t ap; simpl.
    - split; [constructor | intros _; eexists; reflexivity].
    - unfold DiscountService.getProductDiscounts.
      destruct (product_findUnique db (DiscountService.CartItem.productId item))
        as [[p|]|m] eqn:Ep; simpl.
      + set (ds := DiscountService.removeNull _).
        destruct ds as [|d ds'].
        * rewrite IH. split; [intro F; constructor; eauto | intro F; now inversion F].
        * destruct (DiscountService.getBestProductDiscount (d :: ds') item);
            rewrite IH;
            (split; [intro F; constructor; eauto | intro F; now inversion F]).
      + split; [intros (out & H); discriminate|].
        intro F. inversion F as [|? ? (p & Hp) _]. congruence.
      + split; [intros (out & H); discriminate|].
        intro F. inversion F as [|? ? (p & Hp) _]. congruence. }
  rewrite <- (L 0 []).
  destruct (DiscountService.autoApplyLoop db now userId cartItems 0 [])
    as [[t ap]|]; simpl.
  - split; intros _; eexists; reflexivity.
  - split; intros (out & H); discriminate.
Qed.

Lemma calculateCartDiscounts_auto_mode_succeeds_iff_witness :
  exists r,
    DiscountService.calculateCartDiscounts dbA 50 [sareeLine] None None = Ok r.
Proof.
  apply (calculateCartDiscounts_auto_mode_succeeds_iff dbA 50 [sareeLine]
           None None eq_refl).
  repeat constructor. exists saree. reflexivity.
Defined.

(* ================================================================== *)
(** ** Further properties of order total assembly *)

Lemma variantPriceOf_ok_iff (db : DB) (item : OrderItem.t) :
  (exists price, OrderService.variantPriceOf db item = Ok price)
  <-> (truthyS (OrderItem.productVariantId item) = true ->
       exists variant,
         productVariant_findUnique db (idText (OrderItem.productVariantId item))
         = Some variant
         /\ (OrderItem.quantity item <= ProductVariant.stock variant)%Z).
Proof.
  unfold OrderService.variantPriceOf.
  destruct (truthyS (OrderItem.productVariantId item)).
  - destruct (productVariant_findUnique db _) as [variant|].
    + destruct (ProductVariant.stock variant <? OrderItem.quantity item)%Z
        eqn:E.
      * apply Z.ltb_lt in E. split; [intros (p & H); discriminate|].
        intro H. destruct (H eq_refl) as (v & Hv & L).
        injection Hv as <-. lia.
      * apply Z.ltb_ge in E. split; [|intros _; eexists; reflexivity].
        intros _ _. exists variant. split; [reflexivity | exact E].
    + split; [intros (p & H); discriminate|].
      intro H. destruct (H eq_refl) as (v & Hv & _). discriminate.
  - split; [intros _ H; discriminate | intros _; eexists; reflexivity].
Qed.

(** The pricing loop goes through exactly when every line is valid. *)
Lemma pricingLoop_ok_iff (db : DB) (orderItems : list OrderItem.t) :
  forall subtotal quantitySavings acc,
    (exists out,
       OrderService.pricingLoop db orderItems subtotal quantitySavings acc
       = Ok out)
    <-> Forall (lineValid db) orderItems.
Proof.
  induction orderItems as [|item rest IH]; intros s q acc; simpl.
  - split; [constructor | intros _; eexists; reflexivity].
  - destruct (truthyS (OrderItem.productId item)) eqn:Ep; simpl.
    2:{ split; [intros (o & H); discriminate|].
        intro F. apply Forall_inv in F. destruct F as (Hp & _). congruence. }
    destruct (OrderItem.quantity item =? 0)%Z eqn:E0; simpl.
    { apply Z.eqb_eq in E0. split; [intros (o & H); discriminate|].
      intro F. apply Forall_inv in F. destruct F as (_ & Hq & _). lia. }
    destruct (OrderItem.quantity item <=? 0)%Z eqn:E1; simpl.
    { apply Z.leb_le in E1. split; [intros (o & H); discriminate|].
      intro F. apply Forall_inv in F. destruct F as (_ & Hq & _). lia. }
    apply Z.leb_gt in E1.
    destruct (product_findUnique db (OrderItem.productId item))
      as [[p|]|m] eqn:Ef; simpl.
    + destruct (String.eqb (Product.status p) "ACTIVE") eqn:Es; simpl.
      * apply String.eqb_eq in Es.
        pose proof (variantPriceOf_ok_iff db item) as V.
        destruct (OrderService.variantPriceOf db item) as [vp|m] eqn:Ev; simpl.
        -- rewrite IH. split.
           ++ intro F. constructor; [|exact F].
              split; [exact Ep|]. split; [exact E1|].
              split; [exists p; split; [exact Ef | exact Es]|].
              apply V. eexists; reflexivity.
           ++ intro F. exact (Forall_inv_tail F).
        -- split; [intros (o & H); discriminate|].
           intro F. apply Forall_inv in F. destruct F as (_ & _ & _ & Hv).
           apply V in Hv. destruct Hv as (x & Hx). discriminate.
      * apply String.eqb_neq in Es.
        split; [intros (o & H); discriminate|].
        intro F. apply Forall_inv in F. destruct F as (_ & _ & (p' & Hp' & Hs) & _).
        rewrite Ef in Hp'. injection Hp' as <-. contradiction.
    + split; [intros (o & H); discriminate|].
      intro F. apply Forall_inv in F. destruct F as (_ & _ & (p' & Hp' & _) & _).
      congruence.
    + split; [intros (o & H); discriminate|].
      intro F. apply Forall_inv in F. destruct F as (_ & _ & (p' & Hp' & _) & _).
      congruence.
Qed.

(** X8.  [calculateOrderTotals] succeeds exactly when the order has at least
    one line and every line is valid; a refused coupon never makes it
    fail. *)
Theorem calculateOrderTotals_succeeds_iff
    (db : DB) (now : Z) (orderItems : list OrderItem.t)
    (discountCode shippingState : option string) (userId : option Id) :
  (exists totals,
     OrderService.calculateOrderTotals db now orderItems discountCode
       shippingState userId = Ok totals)
  <-> orderItems <> [] /\ Forall (lineValid db) orderItems.
Proof.
  unfold OrderService.calculateOrderTotals.
  destruct orderItems as [|item rest].
  - split; [intros (t & H); discriminate | intros (H & _); congruence].
  - rewrite <- (pricingLoop_ok_iff db (item :: rest) 0 0 []).
    destruct (OrderService.pricingLoop db (item :: rest) 0 0 [])
      as [[[s q] items]|m]; simpl.
    + split.
      * intros _. split; [discriminate | eexists; reflexivity].
      * intros _.
        destruct (if truthyS discountCode then _ else _) as [[a ap] e].
        eexists; reflexivity.
    + split; [intros (t & H); discriminate|].
      intros (_ & (o & H)). discriminate.
Qed.

Lemma calculateOrderTotals_succeeds_iff_witness :
  exists totals,
    OrderService.calculateOrderTotals dbFlat 50
      [OrderItem.mk (Some "p1") 1 None] (Some "FLAT500") (Some "Tamil Nadu")
      None = Ok totals.
Proof.
  apply calculateOrderTotals_succeeds_iff.
  split; [discriminate|].
  constructor; [|constructor].
  split; [reflexivity|]. split; [simpl; lia|].
  split; [exists shawl; split; reflexivity | discriminate].
Defined.

Lemma calculateItemQuantityPrice_savings (db : DB) (productId : Id)
    (subcategoryId : option Id) (basePrice : Q) (quantity : Z) :
  let r := OrderService.calculateItemQuantityPrice db productId subcategoryId
             basePrice quantity in
  0 <= OrderService.QuantityPricing.totalSavings r
  /\ OrderService.QuantityPricing.finalPrice r
     + OrderService.QuantityPricing.totalSavings r
     == basePrice * inject_Z quantity.
Proof.
  cbv zeta. unfold OrderService.calculateItemQuantityPrice.
  destruct (negb (truthyS subcategoryId)); simpl; [split; lra|].
  pose proof (bestTotalLoop_minimum basePrice quantity
                (OrderService.quantityPrices_findMany db
                   (match subcategoryId with Some i => i | None => "" end)
                   quantity)
                (basePrice * inject_Z quantity) None) as (M1 & _).
  destruct (OrderService.bestTotalLoop _ _ _ _ _) as [best applied].
  simpl in *. split; lra.
Qed.

(** What the pricing loop adds for the lines it goes through. *)
Lemma pricingLoop_lines (db : DB) (orderItems : list OrderItem.t) :
  forall subtotal quantitySavings acc subtotal' quantitySavings' acc',
    OrderService.pricingLoop db orderItems subtotal quantitySavings acc
    = Ok (subtotal', quantitySavings', acc') ->
    exists lines,
      acc' = (acc ++ lines)%list
      /\ map OrderService.ItemWithPricing.item lines = orderItems
      /\ subtotal'
         == subtotal + sumQ (map OrderService.ItemWithPricing.itemTotal lines)
      /\ quantitySavings'
         == quantitySavings
            + sumQ (map OrderService.ItemWithPricing.itemSavings lines)
      /\ Forall (fun l =>
                   0 <= OrderService.ItemWithPricing.itemSavings l
                   /\ OrderService.ItemWithPricing.itemTotal l
                      + OrderService.ItemWithPricing.itemSavings l
                      == OrderService.ItemWithPricing.basePrice l
                         * inject_Z (OrderItem.quantity
                                       (OrderService.ItemWithPricing.item l)))
                lines.
Proof.
  induction orderItems as [|item rest IH]; intros s q acc s' q' acc'; simpl.
  - intro H. injection H as <- <- <-. exists []. rewrite app_nil_r.
    split; [reflexivity|]. split; [reflexivity|].
    split; [simpl; lra|]. split; [simpl; lra | constructor].
  - destruct (negb _ || _ || _); [discriminate|].
    destruct (product_findUnique db (OrderItem.productId item))
      as [[p|]|m]; simpl; try discriminate.
    destruct (negb _); [discriminate|].
    destruct (OrderService.variantPriceOf db item) as [vp|m]; simpl;
      [|discriminate].
    intro H. destruct (IH _ _ _ _ _ _ H) as (lines & E & Mi & S & Qs & F).
    pose proof (calculateItemQuantityPrice_savings db (Product.id p)
                  (Product.subcategoryId p)
                  (match vp with
                   | Some v => v
                   | None => DiscountService.priceOf p
                   end)
                  (OrderItem.quantity item)) as (C1 & C2).
    eexists (_ :: lines). rewrite E, <- app_assoc. simpl.
    split; [reflexivity|]. simpl. split; [now rewrite Mi|].
    split; [rewrite S; lra|]. split; [rewrite Qs; lra|].
    constructor; [|exact F]. simpl. split; [exact C1 | exact C2].
Qed.

(** X9.  The lines of a successful [calculateOrderTotals] are the order lines,
    in order; quantity pricing never raises a line (its savings are not
    negative and add up with its total to base price times quantity);
    [subtotal] and [quantitySavings] are the rounded sums over the lines,
    and [hasQuantityDiscounts] says that the savings are positive. *)
Theorem calculateOrderTotals_lines
    (db : DB) (now : Z) (orderItems : list OrderItem.t)
    (discountCode shippingState : option string) (userId : option Id)
    (totals : OrderService.OrderTotals.t) :
  OrderService.calculateOrderTotals db now orderItems discountCode
    shippingState userId = Ok totals ->
  let lines := OrderService.OrderTotals.items totals in
  map OrderService.ItemWithPricing.item lines = orderItems
  /\ OrderService.OrderTotals.subtotal totals
     == round2 (sumQ (map OrderService.ItemWithPricing.itemTotal lines))
  /\ OrderService.OrderTotals.quantitySavings totals
     == round2 (sumQ (map OrderService.ItemWithPricing.itemSavings lines))
  /\ (OrderService.OrderTotals.hasQuantityDiscounts totals = true
      <-> 0 < sumQ (map OrderService.ItemWithPricing.itemSavings lines))
  /\ Forall (fun l =>
               0 <= OrderService.ItemWithPricing.itemSavings l
               /\ OrderService.ItemWithPricing.itemTotal l
                  + OrderService.ItemWithPricing.itemSavings l
                  == OrderService.ItemWithPricing.basePrice l
                     * inject_Z (OrderItem.quantity
                                   (OrderService.ItemWithPricing.item l)))
            lines.
Proof.
  unfold OrderService.calculateOrderTotals.
  destruct orderItems as [|item rest]; [discriminate|].
  destruct (OrderService.pricingLoop db (item :: rest) 0 0 [])
    as [[[s q] items]|m] eqn:E; simpl; [|discriminate].
  destruct (if truthyS discountCode then _ else _) as [[a ap] e].
  intro H. injection H as <-. simpl.
  destruct (pricingLoop_lines db _ _ _ _ _ _ _ E) as (lines & -> & Mi & S & Qs & F).
  simpl. split; [exact Mi|].
  split; [apply round2_comp; rewrite S; lra|].
  split; [apply round2_comp; rewrite Qs; lra|].
  split; [|exact F].
  unfold Qgtb. rewrite Qltb_true. rewrite Qs. split; intro L; lra.
Qed.

Lemma calculateOrderTotals_lines_witness :
  exists totals,
    OrderService.calculateOrderTotals dbFlat 50
      [OrderItem.mk (Some "p1") 1 None] (Some "FLAT500") (Some "Tamil Nadu")
      None = Ok totals
    /\ map OrderService.ItemWithPricing.item
         (OrderService.OrderTotals.items totals)
       = [OrderItem.mk (Some "p1") 1 None].
Proof.
  destruct (OrderService.calculateOrderTotals dbFlat 50
              [OrderItem.mk (Some "p1") 1 None] (Some "FLAT500")
              (Some "Tamil Nadu") None) as [t|] eqn:E;
    [|vm_compute in E; discriminate].
  exists t. split; [reflexivity|].
  exact (proj1 (calculateOrderTotals_lines _ _ _ _ _ _ _ E)).
Defined.

(** X10.  [calculateOrderTotals] never applies a product-level discount: its
    descriptors are at most the one ORDER_LEVEL coupon, and without a
    coupon code the discount is zero, nothing is recorded and the total
    is the rounded sum of the line totals and the shipping cost. *)
Theorem calculateOrderTotals_coupon_only
    (db : DB) (now : Z) (orderItems : list OrderItem.t)
    (discountCode shippingState : option string) (userId : option Id)
    (totals : OrderService.OrderTotals.t) :
  OrderService.calculateOrderTotals db now orderItems discountCode
    shippingState userId = Ok totals ->
  let applied := OrderService.OrderTotals.appliedDiscounts totals in
  (List.length applied <= 1)%nat
  /\ Forall (fun a => AppliedDiscount.type a = "ORDER_LEVEL") applied
  /\ (truthyS discountCode = false ->
      applied = []
      /\ OrderService.OrderTotals.discountAmount totals == 0
      /\ OrderService.OrderTotals.discountError totals = None
      /\ OrderService.OrderTotals.totalAmount totals
         == round2 (sumQ (map OrderService.ItemWithPricing.itemTotal
                            (OrderService.OrderTotals.items totals))
                    + OrderService.calculateShippingCost shippingState)).
Proof.
  unfold OrderService.calculateOrderTotals.
  destruct orderItems as [|item rest]; [discriminate|].
  destruct (OrderService.pricingLoop db (item :: rest) 0 0 [])
    as [[[s q] items]|m] eqn:E; simpl; [|discriminate].
  destruct (pricingLoop_lines db _ _ _ _ _ _ _ E) as (lines & -> & _ & S & _).
  unfold DiscountService.calculateCartDiscounts.
  destruct (truthyS discountCode) eqn:Ec.
  - destruct (DiscountService.validateDiscount db now _ userId _) as [v|msg];
      simpl; intro H; injection H as <-; simpl.
    + split; [lia|]. split; [repeat constructor | discriminate].
    + split; [lia|]. split; [constructor | discriminate].
  - intro H. injection H as <-. simpl.
    split; [lia|]. split; [constructor|]. intros _.
    split; [reflexivity|]. split; [reflexivity|]. split; [reflexivity|].
    apply round2_comp. rewrite S. lra.
Qed.

Lemma calculateOrderTotals_coupon_only_witness :
  exists totals,
    OrderService.calculateOrderTotals dbA 50
      [OrderItem.mk (Some "p1") 2 None] None (Some "Kerala") None = Ok totals
    /\ OrderService.OrderTotals.appliedDiscounts totals = []
    /\ OrderService.OrderTotals.discountAmount totals == 0.
Proof.
  destruct (OrderService.calculateOrderTotals dbA 50
              [OrderItem.mk (Some "p1") 2 None] None (Some "Kerala") None)
    as [t|] eqn:E; [|vm_compute in E; discriminate].
  exists t. split; [reflexivity|].
  destruct (calculateOrderTotals_coupon_only _ _ _ _ _ _ _ E) as (_ & _ & H).
  destruct (H eq_refl) as (H1 & H2 & _). split; assumption.
Defined.

(* ================================================================== *)
(** ** Further properties of the confirmation path and of validation *)

(** X11.  The effective [calculateFinalAmountWithDiscounts] answers exactly
    when every product of the cart is in the catalog and the shipping
    state does not name a member of [Object.prototype]: for such a name
    the lookup in the rate table gives a function, whose [toFixed] is
    not callable.  A refused coupon never makes it fail. *)
Theorem confirmation_succeeds_iff
    (db : DB) (now : Z) (cartData : DiscountService.CartData.t)
    (userId : option Id) (discountCode : option string) :
  (exists data,
     DiscountService.calculateFinalAmountWithDiscounts db now cartData userId
       discountCode = Ok data)
  <-> Forall (productFound db) (DiscountService.CartData.cartItems cartData)
      /\ (forall name, In name DiscountService.objectPrototype ->
          DiscountService.CartData.shippingState cartData <> Some name).
Proof.
  rewrite calculateShippingCost_rate.
  change DiscountService.calculateFinalAmountWithDiscounts
    with DiscountService.calculateFinalAmountWithDiscounts_2.
  unfold DiscountService.calculateFinalAmountWithDiscounts_2.
  split.
  - intros (data & H).
    destruct (DiscountService.detailsLoop db _ 0 []) as [[subtotal lines]|m]
      eqn:E; [|discriminate].
    split; [exact (detailsLoop_found db _ _ _ _ E)|].
    cbn [bind] in H.
    destruct (if truthyS discountCode then _ else _) as [[a ap] e].
    destruct (DiscountService.productDiscountsLoop _ _ _ _ _ _) as [[pd ap']|];
      cbn [bind] in H; [|discriminate].
    destruct (DiscountService.calculateShippingCost _) as [rate|name];
      [now exists rate | discriminate].
  - intros (F & (rate & Hr)).
    destruct (detailsLoop_ok db _ F 0 []) as (subtotal & lines & E & F2).
    simpl app in E. rewrite E. simpl bind. cbv iota beta.
    destruct (shares_of_lines db now userId _ _ F2) as (Hs & _).
    destruct (if truthyS discountCode then _ else _) as [[a ap] e].
    destruct (productDiscountsLoop_sum db now userId _ Hs 0 ap)
      as (total & applied & El & _).
    rewrite El, Hr. simpl. eexists; reflexivity.
Qed.

Lemma confirmation_succeeds_iff_witness :
  exists data,
    DiscountService.calculateFinalAmountWithDiscounts dbA 50%Z
      (OrderService.cartDataOf sareeOrder) None (Some "TEN") = Ok data.
Proof.
  apply confirmation_succeeds_iff. split.
  - repeat constructor. exists saree. reflexivity.
  - intros name Hn E. injection E as <-.
    unfold DiscountService.objectPrototype in Hn. simpl in Hn.
    intuition discriminate.
Defined.

(** X12.  In every case the confirmation path adds the product discounts to
    whatever the code gives: [totalDiscount] is the rounded sum of the
    coupon part (zero without a code or on a refused code) and, for each
    line, the best product-discount amount times the quantity; the
    subtotal is the rounded cart subtotal, and a refused code is the one
    recorded error. *)
Theorem confirmation_totalDiscount
    (db : DB) (now : Z) (cartData : DiscountService.CartData.t)
    (userId : option Id) (discountCode : option string)
    (data : DiscountService.FinalAmount.t) :
  DiscountService.calculateFinalAmountWithDiscounts db now cartData userId
    discountCode = Ok data ->
  let items := DiscountService.CartData.cartItems cartData in
  let subtotal := confirmationSubtotal db items in
  DiscountService.FinalAmount.subtotal data == round2 subtotal
  /\ DiscountService.FinalAmount.totalDiscount data
     == round2 (couponPart db now userId discountCode subtotal
                + sumQ (map (lineProductDiscount db now userId) items))
  /\ (forall message,
        DiscountService.FinalAmount.errors data = Some [message]
        <-> truthyS discountCode = true
            /\ DiscountService.validateDiscount db now
                 (match discountCode with Some c => c | None => "" end)
                 userId subtotal
               = DiscountService.Invalid message)
  /\ (DiscountService.FinalAmount.errors data = None
      \/ exists message,
           DiscountService.FinalAmount.errors data = Some [message]).
Proof.
  intro H.
  assert (F : Forall (productFound db)
                (DiscountService.CartData.cartItems cartData)).
  { revert H.
    change DiscountService.calculateFinalAmountWithDiscounts
      with DiscountService.calculateFinalAmountWithDiscounts_2.
    unfold DiscountService.calculateFinalAmountWithDiscounts_2.
    destruct (DiscountService.detailsLoop db _ 0 []) as [out|m] eqn:E;
      [|discriminate].
    intros _. exact (detailsLoop_found db _ _ _ _ E). }
  revert H.
  change DiscountService.calculateFinalAmountWithDiscounts
    with DiscountService.calculateFinalAmountWithDiscounts_2.
  unfold DiscountService.calculateFinalAmountWithDiscounts_2.
  cbv zeta. unfold confirmationSubtotal, couponPart.
  destruct (detailsLoop_ok db _ F 0 []) as (subtotal & lines & E & F2).
  simpl app in E. rewrite E. simpl bind. cbv iota beta.
  destruct (shares_of_lines db now userId _ _ F2) as (Hs & Hm).
  destruct (truthyS discountCode) eqn:Ec.
  - destruct (DiscountService.validateDiscount db now _ userId subtotal)
      as [v|msg] eqn:Ev.
    + destruct (productDiscountsLoop_sum db now userId _ Hs 0
                  [DiscountService.codeDescriptor v
                     (DiscountService.Validated.discountAmount v)])
        as (total & applied & El & S).
      rewrite El. cbn [bind].
      destruct (DiscountService.calculateShippingCost _) as [rate|name];
        [|discriminate].
      intro H. injection H as <-. simpl.
      split; [reflexivity|].
      split; [apply round2_comp; rewrite S, Hm; lra|].
      split; [|now left].
      intro message. split; [discriminate | intros (_ & C); discriminate].
    + destruct (productDiscountsLoop_sum db now userId _ Hs 0 [])
        as (total & applied & El & S).
      rewrite El. cbn [bind].
      destruct (DiscountService.calculateShippingCost _) as [rate|name];
        [|discriminate].
      intro H. injection H as <-. simpl.
      split; [reflexivity|].
      split; [apply round2_comp; rewrite S, Hm; lra|].
      split; [|right; now exists msg].
      intro message. split.
      * intro C. injection C as <-. split; reflexivity.
      * intros (_ & C). injection C as <-. reflexivity.
  - destruct (productDiscountsLoop_sum db now userId _ Hs 0 [])
      as (total & applied & El & S).
    rewrite El. cbn [bind].
    destruct (DiscountService.calculateShippingCost _) as [rate|name];
      [|discriminate].
    intro H. injection H as <-. simpl.
    split; [reflexivity|].
    split; [apply round2_comp; rewrite S, Hm; lra|].
    split; [|now left].
    intro message. split; [discriminate | intros (C & _); discriminate].
Qed.

Lemma confirmation_totalDiscount_witness :
  exists data,
    DiscountService.calculateFinalAmountWithDiscounts dbTwo 50%Z
      (OrderService.cartDataOf twoLineOrder) (Some "u1") None = Ok data
    /\ DiscountService.FinalAmount.totalDiscount data == 80.
Proof.
  destruct (DiscountService.calculateFinalAmountWithDiscounts dbTwo 50%Z
              (OrderService.cartDataOf twoLineOrder) (Some "u1") None)
    as [data|] eqn:E; [|vm_compute in E; discriminate].
  exists data. split; [reflexivity|].
  destruct (confirmation_totalDiscount _ _ _ _ _ _ E) as (_ & H & _).
  rewrite H. reflexivity.
Defined.

(** X13.  The amount of a validated code by type: a PERCENTAGE without cap
    gives [orderAmount * value / 100]; every other type gives its value
    verbatim, whatever the order amount, and never sets
    [maxDiscountReached]. *)
Theorem validateDiscount_amount_by_type
    (db : DB) (now : Z) (code : string) (userId : option Id)
    (orderAmount : Q) (v : DiscountService.Validated.t) :
  DiscountService.validateDiscount db now code userId orderAmount
    = DiscountService.Valid v ->
  (DiscountService.Validated.discountType v = PERCENTAGE ->
   truthyQ (DiscountService.Validated.maxDiscount v) = false ->
   DiscountService.Validated.discountAmount v
   = orderAmount * DiscountService.Validated.discountValue v / 100
   /\ DiscountService.Validated.maxDiscountReached v = false)
  /\ (DiscountService.Validated.discountType v <> PERCENTAGE ->
      DiscountService.Validated.discountAmount v
      = DiscountService.Validated.discountValue v
      /\ DiscountService.Validated.maxDiscountReached v = false).
Proof.
  intro H. apply validateDiscount_Valid_inv in H.
  destruct H as (d & _ & _ & _ & _ & _ & _ & ->). simpl.
  unfold DiscountService.discountAmountOf. split.
  - intros -> ->. simpl. split; reflexivity.
  - intro N. destruct (Discount.discountType d);
      [contradiction | split; reflexivity | split; reflexivity].
Qed.

Lemma validateDiscount_amount_by_type_witness :
  exists v,
    DiscountService.validateDiscount dbFlat 50 "FLAT500" None 100
    = DiscountService.Valid v
    /\ DiscountService.Validated.discountAmount v
       = DiscountService.Validated.discountValue v.
Proof.
  destruct (DiscountService.validateDiscount dbFlat 50 "FLAT500" None 100)
    as [v|] eqn:E; [|vm_compute in E; discriminate].
  exists v. split; [reflexivity|].
  destruct (validateDiscount_amount_by_type _ _ _ _ _ _ E) as (_ & H).
  apply H. vm_compute in E. injection E as <-. discriminate.
Defined.



Lemma calculateFinalAmountWithDiscounts_floor_witness :
  exists data,
    DiscountService.calculateFinalAmountWithDiscounts dbFlat 50%Z
      (DiscountService.CartData.mk [OrderItem.mk (Some "p1") 1 None]
         (Some "Tamil Nadu"))
      None (Some "FLAT500") = Ok data
    /\ 0 <= DiscountService.FinalAmount.finalTotal data.
Proof.
  destruct (DiscountService.calculateFinalAmountWithDiscounts dbFlat 50%Z
              (DiscountService.CartData.mk [OrderItem.mk (Some "p1") 1 None]
                 (Some "Tamil Nadu"))
              None (Some "FLAT500")) as [data|] eqn:E;
    [|vm_compute in E; discriminate].
  exists data. split; [reflexivity|].
  exact (calculateFinalAmountWithDiscounts_floor _ _ _ _ _ _ E).
Defined.

(* ================================================================== *)
(** ** What [applyDiscount] does to the store *)





(** Once a discount has been applied to an order, no later call applies it
    to that order again. *)
Lemma applyDiscount_rejects_second_witness :
  exists db' usage message,
    DiscountService.applyDiscount dbOrder 50 "o1" "d1" "u1" = Ok (db', usage)
    /\ DiscountService.applyDiscount db' 60 "o1" "d1" "u2" = Err message.
Proof.
  destruct (DiscountService.applyDiscount dbOrder 50 "o1" "d1" "u1")
    as [[db' usage]|m] eqn:E; [|vm_compute in E; discriminate].
  destruct (applyDiscount_rejects_second dbOrder db' 50 60 "o1" "d1" "u1" "u2"
              usage E) as (message & H).
  exists db', usage, message. split; [reflexivity | exact H].
Defined.

(* ================================================================== *)
(** ** [getActiveDiscounts] and the list of available discounts *)

Lemma getActiveDiscounts_In (db : DB) (now : Z)
    (filters : DiscountService.ActiveFilters.t) (product : option Product.t)
    (d : Discount.t) :
  In d (DiscountService.removeNull
          (map (DiscountService.eligibleOrNull db
                  (DiscountService.ActiveFilters.userId filters))
             (sort DiscountService.orderBy_value_created
                (filter (fun d => DiscountService.where_active now d
                                  && DiscountService.where_filters filters
                                       product d)
                        (discounts db)))))
  <-> In d (discounts db)
      /\ DiscountService.where_active now d = true
      /\ DiscountService.where_filters filters product d = true
      /\ DiscountService.eligibleOrNull db
           (DiscountService.ActiveFilters.userId filters) d = Some d.
Proof.
  rewrite removeNull_filter, filter_In, sort_In, filter_In, andb_true_iff.
  destruct (eligibleOrNull_cases db
              (DiscountService.ActiveFilters.userId filters) d) as [E|E];
    rewrite E.
  - tauto.
  - split; [intros (_ & ?) | intros (_ & _ & _ & ?)]; discriminate.
Qed.

Lemma where_sitewide_spec (d : Discount.t) :
  DiscountService.where_sitewide d = true
  <-> Discount.productId d = None
      /\ Discount.categoryId d = None
      /\ Discount.subcategoryId d = None.
Proof.
  unfold DiscountService.where_sitewide.
  rewrite !andb_true_iff, !eqb_oid_eq. tauto.
Qed.

(** X16.  For a product of the catalog the two listings agree: with a product
    id, [getActiveDiscounts] answers exactly what [getProductDiscounts]
    answers, and the category and subcategory filters of the request are
    ignored. *)
Theorem getActiveDiscounts_of_stored_product
    (db : DB) (now : Z) (userId productId categoryId subcategoryId : option Id)
    (product : Product.t) :
  truthyS productId = true ->
  product_findUnique db productId = Ok (Some product) ->
  DiscountService.getActiveDiscounts db now
    (DiscountService.ActiveFilters.mk userId productId categoryId
       subcategoryId)
  = DiscountService.getProductDiscounts db now productId userId.
Proof.
  intros Ht Hp.
  unfold DiscountService.getActiveDiscounts,
    DiscountService.getProductDiscounts.
  simpl. rewrite Ht, Hp. simpl. do 4 f_equal.
  apply filter_ext. intro d.
  unfold DiscountService.where_filters, DiscountService.where_scope,
    DiscountService.where_sitewide. simpl. rewrite Ht.
  destruct (eqb_oid (Discount.productId d) productId),
    (eqb_oid (Discount.categoryId d) (Product.categoryId product)),
    (eqb_oid (Discount.subcategoryId d) (Product.subcategoryId product)),
    (eqb_oid (Discount.productId d) None),
    (eqb_oid (Discount.categoryId d) None),
    (eqb_oid (Discount.subcategoryId d) None),
    (DiscountService.where_active now d); reflexivity.
Qed.

Lemma getActiveDiscounts_of_stored_product_witness :
  DiscountService.getActiveDiscounts dbA 50
    (DiscountService.ActiveFilters.mk None (Some "p1") (Some "c9") None)
  = DiscountService.getProductDiscounts dbA 50 (Some "p1") None.
Proof.
  apply (getActiveDiscounts_of_stored_product dbA 50 None (Some "p1")
           (Some "c9") None saree); reflexivity.
Defined.

Lemma getActiveDiscounts_Ok (db : DB) (now : Z)
    (filters : DiscountService.ActiveFilters.t) :
  exists product l,
    DiscountService.getActiveDiscounts db now filters = Ok l
    /\ (truthyS (DiscountService.ActiveFilters.productId filters) = true ->
        product_findUnique db (DiscountService.ActiveFilters.productId filters)
        = Ok product)
    /\ forall d, In d l <->
         In d (discounts db)
         /\ DiscountService.where_active now d = true
         /\ DiscountService.where_filters filters product d = true
         /\ DiscountService.eligibleOrNull db
              (DiscountService.ActiveFilters.userId filters) d = Some d.
Proof.
  unfold DiscountService.getActiveDiscounts.
  assert (P : exists product,
            (if truthyS (DiscountService.ActiveFilters.productId filters)
             then product_findUnique db
                    (DiscountService.ActiveFilters.productId filters)
             else Ok None) = Ok product
            /\ (truthyS (DiscountService.ActiveFilters.productId filters)
                  = true ->
                product_findUnique db
                  (DiscountService.ActiveFilters.productId filters)
                = Ok product)).
  { destruct (DiscountService.ActiveFilters.productId filters) as [i|];
      simpl; [|now exists None].
    destruct (negb (i =? "")%string).
    - eexists. split; [reflexivity | intros _; reflexivity].
    - exists None. split; [reflexivity | discriminate]. }
  destruct P as (product & -> & Hprod). cbn [bind].
  exists product. eexists. split; [reflexivity|]. split; [exact Hprod|].
  intro d. apply getActiveDiscounts_In.
Qed.

(** X17.  [getActiveDiscounts] never fails, not even for a product id that the
    catalog does not know.  Its answer holds stored discounts that are
    active, inside their validity window and open to the caller; without
    any filter they are all sitewide; with a category or a subcategory
    filter alone, or with the id of an unknown product, each one is
    sitewide or carries the requested scope. *)
Theorem getActiveDiscounts_scope
    (db : DB) (now : Z) (filters : DiscountService.ActiveFilters.t) :
  exists l,
    DiscountService.getActiveDiscounts db now filters = Ok l
    /\ Forall
         (fun d =>
            In d (discounts db)
            /\ Discount.isActive d = true
            /\ (Discount.validFrom d <= now <= Discount.validUntil d)%Z
            /\ DiscountService.eligibleOrNull db
                 (DiscountService.ActiveFilters.userId filters) d = Some d)
         l
    /\ (truthyS (DiscountService.ActiveFilters.productId filters) = false ->
        truthyS (DiscountService.ActiveFilters.categoryId filters) = false ->
        truthyS (DiscountService.ActiveFilters.subcategoryId filters) = false ->
        Forall (fun d => DiscountService.where_sitewide d = true) l)
    /\ (truthyS (DiscountService.ActiveFilters.productId filters) = false ->
        truthyS (DiscountService.ActiveFilters.categoryId filters) = true ->
        Forall
          (fun d =>
             Discount.categoryId d
               = DiscountService.ActiveFilters.categoryId filters
             \/ DiscountService.where_sitewide d = true)
          l)
    /\ (truthyS (DiscountService.ActiveFilters.productId filters) = false ->
        truthyS (DiscountService.ActiveFilters.categoryId filters) = false ->
        truthyS (DiscountService.ActiveFilters.subcategoryId filters) = true ->
        Forall
          (fun d =>
             Discount.subcategoryId d
               = DiscountService.ActiveFilters.subcategoryId filters
             \/ DiscountService.where_sitewide d = true)
          l)
    /\ (truthyS (DiscountService.ActiveFilters.productId filters) = true ->
        product_findUnique db (DiscountService.ActiveFilters.productId filters)
          = Ok None ->
        Forall
          (fun d =>
             Discount.productId d
               = DiscountService.ActiveFilters.productId filters
             \/ DiscountService.where_sitewide d = true)
          l).
Proof.
  destruct (getActiveDiscounts_Ok db now filters)
    as (product & l & E & Hprod & M).
  exists l. split; [exact E|].
  split; [|split; [|split; [|split]]].
  - rewrite Forall_forall. intros d Hd. apply M in Hd.
    destruct Hd as (Hin & Ha & _ & He).
    unfold DiscountService.where_active in Ha.
    rewrite !andb_true_iff, !Z.leb_le in Ha. tauto.
  - intros Hp Hc Hs. rewrite Forall_forall. intros d Hd.
    apply M in Hd. destruct Hd as (_ & _ & Hw & _).
    unfold DiscountService.where_filters in Hw.
    now rewrite Hp, Hc, Hs in Hw.
  - intros Hp Hc. rewrite Forall_forall. intros d Hd.
    apply M in Hd. destruct Hd as (_ & _ & Hw & _).
    unfold DiscountService.where_filters in Hw. rewrite Hp, Hc in Hw.
    apply orb_true_iff in Hw. rewrite eqb_oid_eq in Hw. exact Hw.
  - intros Hp Hc Hs. rewrite Forall_forall. intros d Hd.
    apply M in Hd. destruct Hd as (_ & _ & Hw & _).
    unfold DiscountService.where_filters in Hw. rewrite Hp, Hc, Hs in Hw.
    apply orb_true_iff in Hw. rewrite eqb_oid_eq in Hw. exact Hw.
  - intros Hp Hn. rewrite Forall_forall. intros d Hd.
    apply M in Hd. destruct Hd as (_ & _ & Hw & _).
    specialize (Hprod Hp). rewrite Hn in Hprod. injection Hprod as <-.
    unfold DiscountService.where_filters in Hw. rewrite Hp in Hw.
    apply orb_true_iff in Hw. rewrite eqb_oid_eq in Hw. exact Hw.
Qed.

(** *** The removal of duplicates *)

Lemma findIndex_prefix (A : Type) (callback : A -> bool)
    (prefix : list A) (x : A) (rest : list A) :
  callback x = true ->
  DiscountController.eqb_index (List.length prefix)
    (DiscountController.findIndex callback (prefix ++ x :: rest)%list)
  = negb (existsb callback prefix).
Proof.
  intro Hx. induction prefix as [|y prefix IH]; simpl.
  - now rewrite Hx.
  - destruct (callback y); simpl; [reflexivity|].
    rewrite <- IH.
    destruct (DiscountController.findIndex callback
                (prefix ++ x :: rest)%list); reflexivity.
Qed.

Lemma filterFrom_first_occurrences (self : list Discount.t) :
  forall suffix prefix,
    self = (prefix ++ suffix)%list ->
    let kept :=
      DiscountController.filterFrom
        (fun discount index =>
           DiscountController.eqb_index index
             (DiscountController.findIndex
                (fun d => String.eqb (Discount.id d) (Discount.id discount))
                self))
        suffix (List.length prefix) in
    (forall d, In d kept ->
       In d suffix
       /\ existsb (fun e => String.eqb (Discount.id e) (Discount.id d))
            prefix = false)
    /\ NoDup (map Discount.id kept)
    /\ (forall d, In d suffix ->
         existsb (fun e => String.eqb (Discount.id e) (Discount.id d))
           prefix = true
         \/ In (Discount.id d) (map Discount.id kept)).
Proof.
  induction suffix as [|x rest IH]; intros prefix Hs; simpl.
  - split; [intros d []|]. split; [constructor | intros d []].
  - assert (Hs' : self = ((prefix ++ [x]) ++ rest)%list)
      by now rewrite <- app_assoc.
    specialize (IH (prefix ++ [x])%list Hs').
    rewrite length_app, Nat.add_1_r in IH. simpl in IH.
    destruct IH as (Ha & Hb & Hc).
    assert (Hcond :
              DiscountController.eqb_index (List.length prefix)
                (DiscountController.findIndex
                   (fun d => String.eqb (Discount.id d) (Discount.id x)) self)
              = negb (existsb
                        (fun d => String.eqb (Discount.id d) (Discount.id x))
                        prefix)).
    { rewrite Hs. apply findIndex_prefix. apply String.eqb_refl. }
    rewrite Hcond.
    assert (Hsplit : forall d,
              existsb (fun e => String.eqb (Discount.id e) (Discount.id d))
                (prefix ++ [x])%list
              = existsb (fun e => String.eqb (Discount.id e) (Discount.id d))
                  prefix
                || String.eqb (Discount.id x) (Discount.id d)).
    { intro d. rewrite existsb_app. simpl. now rewrite orb_false_r. }
    destruct (existsb (fun d => String.eqb (Discount.id d) (Discount.id x))
                prefix) eqn:Ex; simpl.
    + split; [|split; [exact Hb|]].
      * intros d Hd. destruct (Ha d Hd) as (Hin & He).
        rewrite Hsplit in He. apply orb_false_iff in He. tauto.
      * intros d [<-|Hd]; [now left|].
        destruct (Hc d Hd) as [He|He]; [|now right].
        rewrite Hsplit in He. apply orb_true_iff in He.
        destruct He as [He|He]; [now left|].
        apply String.eqb_eq in He. rewrite <- He. now left.
    + split; [|split].
      * intros d [<-|Hd]; [split; [now left | exact Ex]|].
        destruct (Ha d Hd) as (Hin & He).
        rewrite Hsplit in He. apply orb_false_iff in He. tauto.
      * constructor; [|exact Hb].
        intro Hin. apply in_map_iff in Hin. destruct Hin as (d & Hid & Hd).
        destruct (Ha d Hd) as (_ & He). rewrite Hsplit in He.
        apply orb_false_iff in He. destruct He as (_ & He).
        rewrite Hid, String.eqb_refl in He. discriminate.
      * intros d [<-|Hd]; [right; now left|].
        destruct (Hc d Hd) as [He|He]; [|right; now right].
        rewrite Hsplit in He. apply orb_true_iff in He.
        destruct He as [He|He]; [now left|].
        apply String.eqb_eq in He. right. left. exact He.
Qed.

Lemma uniqueDiscounts_spec (discounts : list Discount.t) :
  NoDup (map Discount.id (DiscountController.uniqueDiscounts discounts))
  /\ (forall d, In d (DiscountController.uniqueDiscounts discounts) ->
       In d discounts)
  /\ (forall d, In d discounts ->
       In (Discount.id d)
         (map Discount.id (DiscountController.uniqueDiscounts discounts))).
Proof.
  destruct (filterFrom_first_occurrences discounts discounts [] eq_refl)
    as (Ha & Hb & Hc).
  split; [exact Hb|]. split.
  - intros d Hd. now apply Ha.
  - intros d Hd. destruct (Hc d Hd) as [He|He]; [discriminate | exact He].
Qed.

Lemma getProductDiscounts_Ok_inv (db : DB) (now : Z)
    (productId userId : option Id) (l : list Discount.t) :
  DiscountService.getProductDiscounts db now productId userId = Ok l ->
  exists product,
    product_findUnique db productId = Ok (Some product)
    /\ forall d, In d l ->
         In d (discounts db)
         /\ DiscountService.where_active now d = true
         /\ DiscountService.eligibleOrNull db userId d = Some d.
Proof.
  intro H.
  destruct (product_findUnique db productId) as [[product|]|m] eqn:Hp;
    try (unfold DiscountService.getProductDiscounts in H; rewrite Hp in H;
         discriminate).
  exists product. split; [reflexivity|].
  destruct (getProductDiscounts_spec db now productId userId product Hp)
    as (l' & E & M & _).
  rewrite E in H. injection H as <-.
  intros d Hd. apply M in Hd. tauto.
Qed.

Lemma collectLoop_spec (db : DB) (now : Z) (userId : option Id)
    (productIds : list (option Id)) :
  forall discounts out,
    DiscountController.collectLoop db now userId productIds discounts = Ok out ->
    exists lists,
      Forall2
        (fun productId l =>
           DiscountService.getProductDiscounts db now productId userId = Ok l)
        productIds lists
      /\ out = (discounts ++ concat lists)%list.
Proof.
  induction productIds as [|productId rest IH]; intros discounts out; simpl.
  - intro H. injection H as <-. exists []. split; [constructor|].
    simpl. now rewrite app_nil_r.
  - destruct (DiscountService.getProductDiscounts db now productId userId)
      as [l|m] eqn:E; simpl; [|discriminate].
    intro H. destruct (IH _ _ H) as (lists & F & ->).
    exists (l :: lists). split; [now constructor|].
    simpl. now rewrite app_assoc.
Qed.

(** X18.  The list of discounts available for a cart holds no discount twice.
    When it is produced, every product of the cart is in the catalog,
    each listed discount is stored, active, inside its validity window and
    open to the caller, and every discount that [getProductDiscounts]
    gives for a line of the cart is listed. *)
Theorem getAvailableDiscounts_unique
    (db : DB) (now : Z) (cartItems : list OrderItem.t) (userId : option Id)
    (data : list Discount.t) :
  DiscountController.getAvailableDiscounts db now cartItems userId = Ok data ->
  NoDup (map Discount.id data)
  /\ Forall
       (fun item =>
          exists product,
            product_findUnique db (OrderItem.productId item)
            = Ok (Some product))
       cartItems
  /\ Forall
       (fun d =>
          In d (discounts db)
          /\ Discount.isActive d = true
          /\ (Discount.validFrom d <= now <= Discount.validUntil d)%Z
          /\ DiscountService.eligibleOrNull db userId d = Some d)
       data
  /\ (forall item l d,
       In item cartItems ->
       DiscountService.getProductDiscounts db now (OrderItem.productId item)
         userId = Ok l ->
       In d l ->
       In (Discount.id d) (map Discount.id data)).
Proof.
  unfold DiscountController.getAvailableDiscounts.
  destruct (DiscountController.collectLoop db now userId
              (map OrderItem.productId cartItems) []) as [collected|m] eqn:Ec;
    cbn [bind]; [|discriminate].
  destruct (getActiveDiscounts_Ok db now
              (DiscountService.ActiveFilters.mk userId None None None))
    as (noProduct & sitewide & Es & _ & Ms).
  rewrite Es. cbn [bind]. intro H. injection H as <-.
  destruct (collectLoop_spec db now userId _ _ _ Ec) as (lists & F2 & Hc).
  simpl in Hc. subst collected.
  destruct (uniqueDiscounts_spec (concat lists ++ sitewide)%list)
    as (Hn & Hsub & Hall).
  assert (Hitem : forall item, In item cartItems ->
            exists l, In l lists
              /\ DiscountService.getProductDiscounts db now
                   (OrderItem.productId item) userId = Ok l).
  { clear -F2. remember (map OrderItem.productId cartItems) as ids eqn:Ei.
    revert cartItems Ei.
    induction F2 as [|i l ids lists Hi F2 IH]; intros cartItems Ei item Hin.
    - destruct cartItems; [destruct Hin | discriminate].
    - destruct cartItems as [|c cs]; [destruct Hin|].
      simpl in Ei. injection Ei as -> ->.
      destruct Hin as [<-|Hin].
      + exists l. split; [now left | exact Hi].
      + destruct (IH cs eq_refl item Hin) as (l' & Hl & Hg).
        exists l'. split; [now right | exact Hg]. }
  split; [exact Hn|]. split; [|split].
  - rewrite Forall_forall. intros item Hin.
    destruct (Hitem item Hin) as (l & _ & Hg).
    destruct (getProductDiscounts_Ok_inv db now _ _ _ Hg) as (p & Hp & _).
    now exists p.
  - rewrite Forall_forall. intros d Hd. apply Hsub in Hd.
    apply in_app_or in Hd. destruct Hd as [Hd|Hd].
    + apply in_concat in Hd. destruct Hd as (l & Hl & Hd).
      assert (Hg : exists productId,
                DiscountService.getProductDiscounts db now productId userId
                = Ok l).
      { clear -F2 Hl. induction F2 as [|i l' ids lists Hi F2 IH];
          [destruct Hl|].
        destruct Hl as [->|Hl]; [now exists i | now apply IH]. }
      destruct Hg as (productId & Hg).
      destruct (getProductDiscounts_Ok_inv db now _ _ _ Hg) as (p & _ & Hall').
      destruct (Hall' d Hd) as (Hin & Ha & He).
      unfold DiscountService.where_active in Ha.
      rewrite !andb_true_iff, !Z.leb_le in Ha. tauto.
    + apply Ms in Hd. simpl in Hd. destruct Hd as (Hin & Ha & _ & He).
      unfold DiscountService.where_active in Ha.
      rewrite !andb_true_iff, !Z.leb_le in Ha. tauto.
  - intros item l d Hin Hg Hd.
    destruct (Hitem item Hin) as (l' & Hl & Hg').
    rewrite Hg in Hg'. injection Hg' as <-.
    apply Hall. apply in_or_app. left. apply in_concat.
    exists l. split; [exact Hl | exact Hd].
Qed.

Lemma getAvailableDiscounts_unique_witness :
  exists data,
    DiscountController.getAvailableDiscounts dbTwo 50
      [OrderItem.mk (Some "p1") 1 None; OrderItem.mk (Some "p2") 2 None]
      (Some "u1") = Ok data
    /\ NoDup (map Discount.id data).
Proof.
  destruct (DiscountController.getAvailableDiscounts dbTwo 50
              [OrderItem.mk (Some "p1") 1 None; OrderItem.mk (Some "p2") 2 None]
              (Some "u1")) as [data|m] eqn:E; [|vm_compute in E; discriminate].
  exists data. split; [reflexivity|].
  exact (proj1 (getAvailableDiscounts_unique dbTwo 50 _ (Some "u1") data E)).
Defined.

(* ================================================================== *)
(** ** The life of a discount: creation, update, deactivation, deletion *)

Lemma discount_findUnique_In (db : DB) (i : Id) (d : Discount.t) :
  discount_findUnique db i = Some d -> In d (discounts db) /\ Discount.id d = i.
Proof.
  unfold discount_findUnique. intro H. apply find_some in H.
  now rewrite String.eqb_eq in H.
Qed.

Lemma discount_findUnique_update (db : DB) (i : Id)
    (f : Discount.t -> Discount.t) (d : Discount.t) :
  (forall x, Discount.id (f x) = Discount.id x) ->
  discount_findUnique db i = Some d ->
  discount_findUnique (DiscountService.discount_update db i f) i = Some (f d).
Proof.
  intro Hf. unfold discount_findUnique, DiscountService.discount_update.
  simpl. induction (discounts db) as [|x l IH]; simpl; [discriminate|].
  destruct (String.eqb (Discount.id x) i) eqn:Ex.
  - intro H. injection H as ->. simpl. now rewrite Hf, Ex.
  - simpl. rewrite Ex. exact IH.
Qed.

(** X19.  A discount that [createDiscount] stores has a positive value, at most
    100 for a percentage, a validity window that is not empty, counters
    at zero, a minimum order amount and a per-user limit that are set, and
    it references only a product, a category and a subcategory that
    exist; the other rows of the table are unchanged. *)
Theorem createDiscount_wellformed
    (db db' : DB) (taxonomy : DiscountService.Taxonomy.t) (now : Z) (id : Id)
    (discountData : DiscountService.DiscountData.t) (discount : Discount.t) :
  DiscountService.createDiscount db taxonomy now id discountData
    = Ok (db', discount) ->
  discounts db' = (discounts db ++ [discount])%list
  /\ 0 < Discount.discountValue discount
  /\ (Discount.discountType discount = PERCENTAGE ->
      Discount.discountValue discount <= 100)
  /\ (Discount.validFrom discount < Discount.validUntil discount)%Z
  /\ Discount.usedCount discount = 0%Z
  /\ Discount.totalDiscounts discount == 0
  /\ Discount.perUserLimit discount <> 0%Z
  /\ (exists m, Discount.minOrderAmount discount = Some m)
  /\ (truthyS (Discount.productId discount) = true ->
      exists product,
        product_findUnique db (Discount.productId discount)
        = Ok (Some product))
  /\ (truthyS (Discount.categoryId discount) = true ->
      DiscountService.mem_id (idText (Discount.categoryId discount))
        (DiscountService.Taxonomy.categories taxonomy) = true)
  /\ (truthyS (Discount.subcategoryId discount) = true ->
      DiscountService.mem_id (idText (Discount.subcategoryId discount))
        (DiscountService.Taxonomy.subcategories taxonomy) = true).
Proof.
  unfold DiscountService.createDiscount.
  destruct (Qle_bool (DiscountService.DiscountData.discountValue discountData)
              0) eqn:Ev; [discriminate|].
  destruct (match DiscountService.DiscountData.discountType discountData with
            | PERCENTAGE => _
            | _ => false
            end) eqn:Ep; [discriminate|].
  destruct ((DiscountService.DiscountData.validUntil discountData
             <=? DiscountService.DiscountData.validFrom discountData)%Z)
    eqn:Ed; [discriminate|].
  assert (Hprod : forall k : Result (DB * Discount.t),
            bind (if truthyS
                       (DiscountService.DiscountData.productId discountData)
                  then
                    bind (product_findUnique db
                            (DiscountService.DiscountData.productId
                               discountData))
                      (fun product =>
                         match product with
                         | Some _ => Ok tt
                         | None => Err (Msg "Product not found")
                         end)
                  else Ok tt) (fun _ => k) = Ok (db', discount) ->
            k = Ok (db', discount)
            /\ (truthyS (DiscountService.DiscountData.productId discountData)
                = true ->
                exists product,
                  product_findUnique db
                    (DiscountService.DiscountData.productId discountData)
                  = Ok (Some product))).
  { intros k.
    destruct (truthyS (DiscountService.DiscountData.productId discountData));
      cbn [bind]; [|intro H; split; [exact H | discriminate]].
    destruct (product_findUnique db
                (DiscountService.DiscountData.productId discountData))
      as [[product|]|m]; cbn [bind]; try discriminate.
    intro H. split; [exact H | intros _; now exists product]. }
  intro H. apply Hprod in H. destruct H as (H & Hp).
  destruct (truthyS (DiscountService.DiscountData.categoryId discountData)
            && negb _) eqn:Ec; [discriminate|].
  destruct (truthyS (DiscountService.DiscountData.subcategoryId discountData)
            && negb _) eqn:Es; [discriminate|].
  injection H as <- <-. simpl.
  split; [reflexivity|].
  split; [now apply Qle_bool_false|].
  split.
  { intro Ht. rewrite Ht in Ep. unfold Qgtb in Ep.
    now apply Qltb_false in Ep. }
  split; [now apply Z.leb_gt in Ed|].
  split; [reflexivity|]. split; [reflexivity|].
  split.
  { destruct (DiscountService.DiscountData.perUserLimit discountData)
      as [z|]; simpl; [|discriminate].
    destruct (Z.eqb z 0) eqn:Ez; simpl; [discriminate|].
    now apply Z.eqb_neq. }
  split; [eauto|].
  split; [exact Hp|].
  split.
  - intro Ht. rewrite Ht in Ec. simpl in Ec. now apply negb_false_iff in Ec.
  - intro Ht. rewrite Ht in Es. simpl in Es. now apply negb_false_iff in Es.
Qed.

Lemma createDiscount_wellformed_witness :
  exists db' discount,
    DiscountService.createDiscount dbA noTaxonomy 20 "d20" festive
    = Ok (db', discount)
    /\ 0 < Discount.discountValue discount
    /\ (Discount.validFrom discount < Discount.validUntil discount)%Z.
Proof.
  destruct (DiscountService.createDiscount dbA noTaxonomy 20 "d20" festive)
    as [[db' discount]|m] eqn:E; [|vm_compute in E; discriminate].
  exists db', discount. split; [reflexivity|].
  destruct (createDiscount_wellformed dbA db' noTaxonomy 20 "d20" festive
              discount E) as (_ & Hv & _ & Hd & _).
  split; [exact Hv | exact Hd].
Defined.

Lemma orQ_zero_idem (m : option Q) : orQ (Some (orQ m 0)) 0 == orQ m 0.
Proof.
  unfold orQ at 1. destruct (Qeq_bool (orQ m 0) 0) eqn:E; [|reflexivity].
  apply Qeq_bool_iff in E. now rewrite E.
Qed.

Lemma find_app_last (A : Type) (f : A -> bool) (l : list A) (x : A) :
  (forall y, In y l -> f y = false) -> f x = true ->
  find f (l ++ [x])%list = Some x.
Proof.
  intros Hl Hx. induction l as [|y l IH]; simpl.
  - now rewrite Hx.
  - rewrite (Hl y (or_introl eq_refl)). apply IH.
    intros z Hz. apply Hl. now right.
Qed.

(** X20.  A discount that has just been created can be redeemed by its name:
    when no active discount of the store already bears the name, the
    discount was not created inactive, its usage limit is not negative,
    and the store's key was fresh, [validateDiscount] accepts the name at
    any time of the validity window for any order that reaches the
    minimum amount, and grants the amount of the new discount. *)
Theorem created_discount_is_redeemable
    (db db' : DB) (taxonomy : DiscountService.Taxonomy.t) (now : Z) (id : Id)
    (discountData : DiscountService.DiscountData.t) (discount : Discount.t)
    (now' : Z) (userId : option Id) (orderAmount : Q) :
  DiscountService.createDiscount db taxonomy now id discountData
    = Ok (db', discount) ->
  (forall d, In d (discounts db) ->
     Discount.name d <> DiscountService.DiscountData.name discountData
     \/ Discount.isActive d = false) ->
  DiscountService.DiscountData.isActive discountData <> Some false ->
  (forall limit,
     DiscountService.DiscountData.usageLimit discountData = Some limit ->
     (0 <= limit)%Z) ->
  (forall u, In u (discountUsages db) -> DiscountUsage.discountId u <> id) ->
  (DiscountService.DiscountData.validFrom discountData <= now'
   <= DiscountService.DiscountData.validUntil discountData)%Z ->
  orQ (DiscountService.DiscountData.minOrderAmount discountData) 0
    <= orderAmount ->
  exists v,
    DiscountService.validateDiscount db' now'
      (DiscountService.DiscountData.name discountData) userId orderAmount
    = DiscountService.Valid v
    /\ DiscountService.Validated.id v = id
    /\ DiscountService.Validated.discountAmount v
       = fst (DiscountService.discountAmountOf discount orderAmount).
Proof.
  intros Hc Hname Hact Hlim Hfresh Hwin Hmin.
  assert (Hshape :
            discounts db' = (discounts db ++ [discount])%list
            /\ discountUsages db' = discountUsages db
            /\ Discount.id discount = id
            /\ Discount.name discount
               = DiscountService.DiscountData.name discountData
            /\ Discount.isActive discount = true
            /\ Discount.validFrom discount
               = DiscountService.DiscountData.validFrom discountData
            /\ Discount.validUntil discount
               = DiscountService.DiscountData.validUntil discountData
            /\ Discount.usageLimit discount
               = DiscountService.DiscountData.usageLimit discountData
            /\ Discount.usedCount discount = 0%Z
            /\ Discount.minOrderAmount discount
               = Some (orQ (DiscountService.DiscountData.minOrderAmount
                              discountData) 0)).
  { revert Hc. unfold DiscountService.createDiscount.
    destruct (Qle_bool _ 0); [discriminate|].
    destruct (match DiscountService.DiscountData.discountType discountData with
              | PERCENTAGE => _
              | _ => false
              end); [discriminate|].
    destruct (_ <=? _)%Z; [discriminate|].
    destruct (if truthyS (DiscountService.DiscountData.productId discountData)
              then _ else Ok tt) as [[]|m]; cbn [bind]; [|discriminate].
    destruct (truthyS (DiscountService.DiscountData.categoryId discountData)
              && negb _); [discriminate|].
    destruct (truthyS (DiscountService.DiscountData.subcategoryId discountData)
              && negb _); [discriminate|].
    intro H. injection H as <- <-. simpl.
    repeat (split; [reflexivity|]).
    split; [|repeat (split; [reflexivity|]); reflexivity].
    destruct (DiscountService.DiscountData.isActive discountData) as [[|]|];
      [reflexivity | now elim Hact | reflexivity]. }
  destruct Hshape
    as (Hd & Hu & Hid & Hn & Ha & Hf & Ht & Hl & Hcount & Hm).
  assert (Hfind : DiscountService.findByCode db'
                    (DiscountService.DiscountData.name discountData)
                  = Some discount).
  { unfold DiscountService.findByCode. rewrite Hd.
    rewrite (find_app_last Discount.t _ (discounts db) discount);
      [reflexivity| |].
    - intros y Hy. destruct (Hname y Hy) as [Hne|Hin].
      + apply String.eqb_neq in Hne. now rewrite Hne.
      + rewrite Hin. apply andb_false_r.
    - now rewrite Hn, String.eqb_refl, Ha. }
  assert (Hzero : discountUsage_count db' (Discount.id discount) userId = 0%Z).
  { unfold discountUsage_count. rewrite Hu, Hid.
    clear -Hfresh. revert Hfresh. generalize (discountUsages db) as l.
    induction l as [|u l IH]; intro Hfresh; simpl; [reflexivity|].
    assert (Hne : DiscountUsage.discountId u <> id)
      by (apply Hfresh; now left).
    apply String.eqb_neq in Hne. rewrite Hne. simpl.
    apply IH. intros u' Hu'. apply Hfresh. now right. }
  unfold DiscountService.validateDiscount. rewrite Hfind, Ha. cbn [negb].
  rewrite Hf, Ht.
  destruct (Z.ltb_spec now'
              (DiscountService.DiscountData.validFrom discountData)) as [?|_];
    [lia|].
  destruct (Z.ltb_spec (DiscountService.DiscountData.validUntil discountData)
              now') as [?|_]; [lia|].
  rewrite Hl, Hcount, Hzero.
  assert (E1 : truthyZ (DiscountService.DiscountData.usageLimit discountData)
               && (numZ (DiscountService.DiscountData.usageLimit discountData)
                   <=? 0)%Z = false).
  { destruct (DiscountService.DiscountData.usageLimit discountData)
      as [limit|] eqn:El; [|reflexivity].
    simpl. specialize (Hlim limit eq_refl).
    destruct (Z.eqb_spec limit 0) as [->|Hne]; [reflexivity|].
    simpl. apply Z.leb_gt. lia. }
  rewrite E1.
  assert (E2 : (0 <? Discount.perUserLimit discount)%Z && truthyS userId
               && (Discount.perUserLimit discount <=? 0)%Z = false).
  { destruct (Z.ltb_spec 0 (Discount.perUserLimit discount)) as [Hp|_];
      [|reflexivity].
    destruct (truthyS userId); [|reflexivity]. simpl. apply Z.leb_gt. lia. }
  rewrite E2.
  assert (E3 : Qltb orderAmount (orQ (Discount.minOrderAmount discount) 0)
               = false).
  { apply Qltb_false. rewrite Hm, orQ_zero_idem. exact Hmin. }
  rewrite E3.
  destruct (DiscountService.discountAmountOf discount orderAmount)
    as [amount reached].
  eexists. split; [reflexivity|]. simpl. split; [exact Hid | reflexivity].
Qed.

Lemma created_discount_is_redeemable_witness :
  exists v,
    DiscountService.validateDiscount
      (set_discounts dbA
         (discounts dbA
          ++ [Discount.mk "d20" "FESTIVE" PERCENTAGE 15 None None None None
                None (Some 500) None (Some 100%Z) 1 10 90 true 0 0 20])%list)
      50 "FESTIVE" (Some "u1") 1000
    = DiscountService.Valid v
    /\ DiscountService.Validated.id v = "d20".
Proof.
  destruct (created_discount_is_redeemable dbA
              (set_discounts dbA
                 (discounts dbA
                  ++ [Discount.mk "d20" "FESTIVE" PERCENTAGE 15 None None None
                        None None (Some 500) None (Some 100%Z) 1 10 90 true
                        0 0 20])%list)
              noTaxonomy 20 "d20" festive
              (Discount.mk "d20" "FESTIVE" PERCENTAGE 15 None None None
                 None None (Some 500) None (Some 100%Z) 1 10 90 true 0 0 20)
              50 (Some "u1") 1000) as (v & Hv & Hid & _).
  - reflexivity.
  - intros d [<-|[]]. left. discriminate.
  - discriminate.
  - intros limit H. injection H as <-. lia.
  - intros u [].
  - simpl. lia.
  - vm_compute. discriminate.
  - exists v. split; [exact Hv | exact Hid].
Defined.

(** X21.  [updateDiscount] keeps, on every row of a table with distinct keys,
    a positive value and a validity window that is not empty. *)
Theorem updateDiscount_keeps_value_and_dates
    (db db' : DB) (discountId : Id)
    (updateData : DiscountService.UpdateData.t) (discount' : Discount.t) :
  NoDup (map Discount.id (discounts db)) ->
  Forall positiveAndOrdered (discounts db) ->
  DiscountService.updateDiscount db discountId updateData
    = Ok (db', discount') ->
  Forall positiveAndOrdered (discounts db')
  /\ positiveAndOrdered discount'
  /\ discount_findUnique db' discountId = Some discount'.
Proof.
  intros Hnd Hall. unfold DiscountService.updateDiscount.
  destruct (discount_findUnique db discountId) as [d|] eqn:Ed;
    [|discriminate].
  destruct (match DiscountService.UpdateData.discountValue updateData with
            | Some discountValue => Qle_bool discountValue 0
            | None => false
            end) eqn:Ev; [discriminate|].
  destruct (match DiscountService.UpdateData.discountValue updateData,
                  DiscountService.UpdateData.discountType updateData with
            | Some discountValue, Some PERCENTAGE => _
            | _, _ => false
            end); [discriminate|].
  destruct (match DiscountService.UpdateData.validFrom updateData,
                  DiscountService.UpdateData.validUntil updateData with
            | None, None => false
            | _, _ => _
            end) eqn:Et; [discriminate|].
  intro H. injection H as <- <-.
  destruct (discount_findUnique_In db discountId d Ed) as (Hin & Hid).
  assert (Hd : positiveAndOrdered (DiscountService.updated updateData d)).
  { rewrite Forall_forall in Hall. destruct (Hall d Hin) as (Hv & Ht).
    unfold positiveAndOrdered, DiscountService.updated,
      DiscountService.or_else. simpl. split.
    - destruct (DiscountService.UpdateData.discountValue updateData) as [v|];
        [now apply Qle_bool_false | exact Hv].
    - destruct (DiscountService.UpdateData.validFrom updateData) as [f|],
        (DiscountService.UpdateData.validUntil updateData) as [u|];
        simpl in Et; try (apply Z.leb_gt in Et); lia. }
  split; [|split; [exact Hd|]].
  - unfold DiscountService.discount_update. simpl.
    rewrite Forall_forall in *. intros x Hx. apply in_map_iff in Hx.
    destruct Hx as (y & <- & Hy).
    destruct (String.eqb (Discount.id y) discountId) eqn:Ey;
      [|now apply Hall].
    apply String.eqb_eq in Ey.
    assert (y = d); [|now subst y].
    clear -Hnd Hy Hin Ey Hid. rewrite <- Hid in Ey. clear Hid.
    induction (discounts db) as [|z l IH]; [destruct Hy|].
    simpl in Hnd. inversion Hnd as [|? ? Hnot Hnd']; subst.
    destruct Hy as [->|Hy], Hin as [->|Hin]; try reflexivity.
    + elim Hnot. rewrite Ey. now apply in_map.
    + elim Hnot. rewrite <- Ey. now apply in_map.
    + now apply IH.
  - apply discount_findUnique_update; [reflexivity | exact Ed].
Qed.

Lemma updateDiscount_keeps_value_and_dates_witness :
  exists db' discount',
    DiscountService.updateDiscount dbA "d1" (onlyDiscountValue 25)
    = Ok (db', discount')
    /\ Forall positiveAndOrdered (discounts db').
Proof.
  destruct (DiscountService.updateDiscount dbA "d1" (onlyDiscountValue 25))
    as [[db' discount']|m] eqn:E; [|vm_compute in E; discriminate].
  exists db', discount'. split; [reflexivity|].
  refine (proj1 (updateDiscount_keeps_value_and_dates dbA db' "d1"
                   (onlyDiscountValue 25) discount' _ _ E)).
  - simpl. constructor; [intros [] | constructor].
  - constructor; [|constructor]. split; [reflexivity | simpl; lia].
Defined.

(** X22.  [updateDiscount] does not keep the bound of a percentage: an update
    that carries only a value is accepted for a percentage discount
    whatever the value above 100, because the bound is checked only when
    the request names the type as well. *)
Theorem updateDiscount_accepts_percentage_over_100
    (db : DB) (discountId : Id) (d : Discount.t) (v : Q) :
  discount_findUnique db discountId = Some d ->
  Discount.discountType d = PERCENTAGE ->
  100 < v ->
  exists db' d',
    DiscountService.updateDiscount db discountId (onlyDiscountValue v)
    = Ok (db', d')
    /\ discount_findUnique db' discountId = Some d'
    /\ Discount.discountType d' = PERCENTAGE
    /\ Discount.discountValue d' = v.
Proof.
  intros Ed Ht Hv. unfold DiscountService.updateDiscount. rewrite Ed. simpl.
  assert (E : Qle_bool v 0 = false) by (apply Qle_bool_false; lra).
  rewrite E. eexists. eexists. split; [reflexivity|].
  split; [|split; [exact Ht | reflexivity]].
  apply (discount_findUnique_update db discountId
           (DiscountService.updated (onlyDiscountValue v)) d);
    [reflexivity | exact Ed].
Qed.

Lemma updateDiscount_accepts_percentage_over_100_witness :
  exists db' d',
    DiscountService.updateDiscount dbA "d1" (onlyDiscountValue 150)
    = Ok (db', d')
    /\ Discount.discountValue d' = 150.
Proof.
  destruct (updateDiscount_accepts_percentage_over_100 dbA "d1" sitewide10 150)
    as (db' & d' & E & _ & _ & Hv);
    [reflexivity | reflexivity | reflexivity |].
  exists db', d'. split; [exact E | exact Hv].
Defined.

(** X23.  After a deactivation, that is a call of [toggleDiscountActivation]
    with anything but [true] or ['true'], the discount is granted by no
    path: no code validates to it, no product listing shows it, and
    [applyDiscount] refuses it. *)
Theorem deactivated_discount_is_never_granted
    (db db' : DB) (discountId : Id) (isActive : DiscountService.Flag)
    (discount' : Discount.t) :
  DiscountService.toggleDiscountActivation db discountId isActive
    = Ok (db', discount') ->
  isActive <> DiscountService.FlagBool true ->
  isActive <> DiscountService.FlagString "true" ->
  (forall now code userId orderAmount v,
     DiscountService.validateDiscount db' now code userId orderAmount
       = DiscountService.Valid v ->
     DiscountService.Validated.id v <> discountId)
  /\ (forall now productId userId l,
       DiscountService.getProductDiscounts db' now productId userId = Ok l ->
       Forall (fun d => Discount.id d <> discountId) l)
  /\ (forall now orderId userId,
       DiscountService.applyDiscount db' now orderId discountId userId
       = Err (Msg "Discount is not active")).
Proof.
  unfold DiscountService.toggleDiscountActivation.
  destruct (discount_findUnique db discountId) as [d|] eqn:Ed;
    [|discriminate].
  intros H Hb Hs. injection H as <- <-.
  assert (Hoff : match isActive with
                 | DiscountService.FlagBool b => b
                 | DiscountService.FlagString s => String.eqb s "true"
                 | DiscountService.FlagOther => false
                 end = false).
  { destruct isActive as [[|]|s|]; try reflexivity; [now elim Hb|].
    apply String.eqb_neq. intros ->. now elim Hs. }
  rewrite Hoff.
  assert (Hrows : forall x,
            In x (discounts
                    (DiscountService.discount_update db discountId
                       (DiscountService.setActive false))) ->
            Discount.isActive x = true -> Discount.id x <> discountId).
  { intros x Hx Ha. unfold DiscountService.discount_update in Hx.
    simpl in Hx. apply in_map_iff in Hx. destruct Hx as (y & <- & _).
    destruct (String.eqb (Discount.id y) discountId) eqn:Ey.
    - simpl in Ha. discriminate.
    - now apply String.eqb_neq. }
  split; [|split].
  - intros now code userId orderAmount v Hv.
    apply validateDiscount_Valid_inv in Hv.
    destruct Hv as (x & Hf & Ha & _ & _ & _ & _ & ->). simpl.
    pose proof (findByCode_spec
                  (DiscountService.discount_update db discountId
                     (DiscountService.setActive false)) code) as S.
    rewrite Hf in S. destruct S as (Hin & _).
    now apply Hrows.
  - intros now productId userId l Hl.
    destruct (getProductDiscounts_Ok_inv _ _ _ _ _ Hl) as (p & _ & Hall).
    rewrite Forall_forall. intros x Hx.
    destruct (Hall x Hx) as (Hin & Ha & _).
    apply Hrows; [exact Hin|].
    unfold DiscountService.where_active in Ha.
    rewrite !andb_true_iff in Ha. tauto.
  - intros now orderId userId. unfold DiscountService.applyDiscount.
    rewrite (discount_findUnique_update db discountId
               (DiscountService.setActive false) d (fun _ => eq_refl) Ed).
    reflexivity.
Qed.

Lemma deactivated_discount_is_never_granted_witness :
  exists db' discount',
    DiscountService.toggleDiscountActivation dbA "d1"
      (DiscountService.FlagString "false") = Ok (db', discount')
    /\ DiscountService.applyDiscount db' 50 "o1" "d1" "u1"
       = Err (Msg "Discount is not active").
Proof.
  destruct (DiscountService.toggleDiscountActivation dbA "d1"
              (DiscountService.FlagString "false"))
    as [[db' discount']|m] eqn:E; [|vm_compute in E; discriminate].
  exists db', discount'. split; [reflexivity|].
  destruct (deactivated_discount_is_never_granted dbA db' "d1"
              (DiscountService.FlagString "false") discount' E)
    as (_ & _ & H); [discriminate | discriminate |].
  apply H.
Defined.

(** X24.  A discount that has been applied to an order can no longer be
    deleted. *)
Theorem applied_discount_cannot_be_deleted
    (db db' : DB) (now : Z) (orderId discountId userId : Id)
    (usage : DiscountUsage.t) :
  (forall d, In d (discounts db) -> (0 <= Discount.usedCount d)%Z) ->
  DiscountService.applyDiscount db now orderId discountId userId
    = Ok (db', usage) ->
  DiscountService.deleteDiscount db' discountId
  = Err (Msg "Cannot delete discount that has been used").
Proof.
  intros Hpos H.
  destruct (applyDiscount_records_once _ _ _ _ _ _ _ H)
    as (_ & _ & _ & _ & d & Ed & Ed').
  unfold DiscountService.deleteDiscount. rewrite Ed'. simpl.
  destruct (discount_findUnique_In db discountId d Ed) as (Hin & _).
  specialize (Hpos d Hin).
  destruct (Z.ltb_spec 0 (Discount.usedCount d + 1)) as [_|?];
    [reflexivity | lia].
Qed.

Lemma applied_discount_cannot_be_deleted_witness :
  exists db' usage,
    DiscountService.applyDiscount dbOrder 50 "o1" "d1" "u1" = Ok (db', usage)
    /\ DiscountService.deleteDiscount db' "d1"
       = Err (Msg "Cannot delete discount that has been used").
Proof.
  destruct (DiscountService.applyDiscount dbOrder 50 "o1" "d1" "u1")
    as [[db' usage]|m] eqn:E; [|vm_compute in E; discriminate].
  exists db', usage. split; [reflexivity|].
  apply (applied_discount_cannot_be_deleted dbOrder db' 50 "o1" "d1" "u1"
           usage); [|exact E].
  intros d [<-|[]]. simpl. lia.
Defined.

(* ================================================================== *)
(** ** The amount sent to the payment gateway *)

Lemma Math_round_bounds (x : Q) :
  x - (1 # 2) < inject_Z (RazorpayService.Math_round x)
  /\ inject_Z (RazorpayService.Math_round x) <= x + (1 # 2).
Proof.
  unfold RazorpayService.Math_round.
  pose proof (Qfloor_le (x + (1 # 2))) as L.
  pose proof (Qlt_floor (x + (1 # 2))) as U.
  rewrite inject_Z_plus in U. change (inject_Z 1) with 1 in U.
  split; lra.
Qed.

Lemma Math_round_integer (z : Z) :
  RazorpayService.Math_round (inject_Z z) = z.
Proof.
  destruct (Math_round_bounds (inject_Z z)) as (L & U).
  set (r := RazorpayService.Math_round (inject_Z z)) in *.
  assert (L' : inject_Z z < inject_Z (r + 1)).
  { rewrite inject_Z_plus. change (inject_Z 1) with 1. lra. }
  assert (U' : inject_Z r < inject_Z (z + 1)).
  { rewrite inject_Z_plus. change (inject_Z 1) with 1. lra. }
  rewrite <- Zlt_Qlt in L', U'. lia.
Qed.

Lemma amountInPaise_below_1000 (rupees : Q) :
  rupees < 1000 ->
  100 * rupees - (1 # 2) < inject_Z (RazorpayService.amountInPaise rupees)
  /\ inject_Z (RazorpayService.amountInPaise rupees)
     <= 100 * rupees + (1 # 2).
Proof.
  unfold RazorpayService.amountInPaise.
  intros Hr. apply Qltb_true in Hr. rewrite Hr.
  destruct (Math_round_bounds (rupees * 100)) as (L & U). split; lra.
Qed.

Lemma amountInPaise_from_1000 (rupees : Q) :
  1000 <= rupees ->
  rupees - (1 # 2) < inject_Z (RazorpayService.amountInPaise rupees)
  /\ inject_Z (RazorpayService.amountInPaise rupees) <= rupees + (1 # 2).
Proof.
  unfold RazorpayService.amountInPaise.
  intros Hr. apply Qltb_false in Hr. rewrite Hr.
  apply Math_round_bounds.
Qed.

(** X25.  The conversion of [createOrder] and [refundPayment] guesses the unit
    from the size of the amount.  A whole number of paise goes through
    unchanged from 1000 on and is multiplied by 100 below; an amount in
    rupees is converted to the nearest paisa below 1000 rupees, and from
    1000 rupees on it is only rounded, so that the gateway receives as
    many paise as there were rupees. *)
Theorem amountInPaise_units :
  (forall p : Z, (1000 <= p)%Z ->
     RazorpayService.amountInPaise (inject_Z p) = p)
  /\ (forall p : Z, (p < 1000)%Z ->
       RazorpayService.amountInPaise (inject_Z p) = (100 * p)%Z)
  /\ (forall rupees : Q, rupees < 1000 ->
       100 * rupees - (1 # 2)
         < inject_Z (RazorpayService.amountInPaise rupees)
       /\ inject_Z (RazorpayService.amountInPaise rupees)
          <= 100 * rupees + (1 # 2))
  /\ (forall rupees : Q, 1000 <= rupees ->
       rupees - (1 # 2) < inject_Z (RazorpayService.amountInPaise rupees)
       /\ inject_Z (RazorpayService.amountInPaise rupees)
          <= rupees + (1 # 2)).
Proof.
  unfold RazorpayService.amountInPaise.
  split; [|split; [|split]].
  - intros p Hp.
    assert (E : Qltb (inject_Z p) 1000 = false).
    { apply Qltb_false. change 1000 with (inject_Z 1000).
      now rewrite <- Zle_Qle. }
    rewrite E. apply Math_round_integer.
  - intros p Hp.
    assert (E : Qltb (inject_Z p) 1000 = true).
    { apply Qltb_true. change 1000 with (inject_Z 1000).
      now rewrite <- Zlt_Qlt. }
    rewrite E.
    assert (Q100 : inject_Z p * 100 == inject_Z (100 * p)).
    { rewrite inject_Z_mult. change (inject_Z 100) with 100. lra. }
    unfold RazorpayService.Math_round.
    rewrite (Qfloor_comp _ _ (Qplus_comp _ _ Q100 _ _ (Qeq_refl (1 # 2)))).
    apply Math_round_integer.
  - intros rupees Hr. fold (RazorpayService.amountInPaise rupees).
    now apply amountInPaise_below_1000.
  - intros rupees Hr. fold (RazorpayService.amountInPaise rupees).
    now apply amountInPaise_from_1000.
Qed.

(** A larger amount can be charged less: any amount from 1000 on is sent
    as fewer paise than a smaller amount whose hundredfold exceeds it by
    one. *)
Theorem amountInPaise_not_monotone (a b : Q) :
  a < 1000 -> 1000 <= b -> b + 1 <= 100 * a ->
  (RazorpayService.amountInPaise b < RazorpayService.amountInPaise a)%Z.
Proof.
  intros Ha Hb Hab.
  destruct (amountInPaise_below_1000 a Ha) as (La & _).
  destruct (amountInPaise_from_1000 b Hb) as (_ & Ub).
  rewrite Zlt_Qlt. lra.
Qed.

Lemma amountInPaise_not_monotone_witness :
  (RazorpayService.amountInPaise 1000 < RazorpayService.amountInPaise 999)%Z.
Proof.
  apply (amountInPaise_not_monotone 999 1000); lra.
Defined.

(* ================================================================== *)
(** ** Stock and the order book: cash on delivery, deletion, expiry *)

Lemma withStock_id (f : Id -> Z) (v : ProductVariant.t) :
  f (ProductVariant.id v) = 0%Z -> withStock f v = v.
Proof.
  intro H. destruct v as [i s p]. unfold withStock. simpl in *.
  rewrite H. f_equal. lia.
Qed.

Lemma set_productVariants_same (db : DB) :
  set_productVariants db (productVariants db) = db.
Proof. now destruct db. Qed.

Lemma productVariant_findUnique_withStock (db : DB) (f : Id -> Z) (i : Id) :
  productVariant_findUnique
    (set_productVariants db (map (withStock f) (productVariants db))) i
  = option_map (withStock f) (productVariant_findUnique db i).
Proof.
  unfold productVariant_findUnique. simpl.
  induction (productVariants db) as [|v l IH]; simpl; [reflexivity|].
  destruct (String.eqb (ProductVariant.id v) i); [reflexivity | exact IH].
Qed.

Lemma productVariant_incrementStock_spec (db : DB) (i : Id) (by_ : Z) :
  match productVariant_findUnique db i with
  | Some _ =>
      productVariant_incrementStock db i by_
      = Ok (set_productVariants db
              (map (withStock (fun j => if String.eqb j i then by_ else 0%Z))
                   (productVariants db)))
  | None =>
      productVariant_incrementStock db i by_
      = Err (Msg "Record to update not found")
      /\ map (withStock (fun j => if String.eqb j i then by_ else 0%Z))
           (productVariants db)
         = productVariants db
  end.
Proof.
  unfold productVariant_incrementStock.
  destruct (productVariant_findUnique db i) as [v|] eqn:E.
  - do 2 f_equal. apply map_ext. intros [j s p]. unfold withStock. simpl.
    destruct (String.eqb j i); [reflexivity|]. f_equal. lia.
  - split; [reflexivity|].
    unfold productVariant_findUnique in E.
    rewrite <- (map_id (productVariants db)) at 2.
    apply map_ext_in. intros v Hv. apply withStock_id.
    destruct (String.eqb (ProductVariant.id v) i) eqn:Ev; [|reflexivity].
    exfalso. eapply find_none in E; [|exact Hv]. simpl in E. congruence.
Qed.

Lemma withStock_compose (f g h : Id -> Z) (l : list ProductVariant.t) :
  (forall i, (f i + g i = h i)%Z) ->
  map (withStock g) (map (withStock f) l) = map (withStock h) l.
Proof.
  intro H. rewrite map_map. apply map_ext. intros [i s p].
  unfold withStock. simpl. f_equal. rewrite <- H. lia.
Qed.

Lemma orderedQuantity_cons (i : Id) (item : OrderItem.t)
    (rest : list OrderItem.t) :
  ((if truthyS (OrderItem.productVariantId item)
    then if String.eqb i (idText (OrderItem.productVariantId item))
         then OrderItem.quantity item else 0
    else 0)
   + orderedQuantity i rest
   = orderedQuantity i (item :: rest))%Z.
Proof.
  simpl. rewrite (String.eqb_sym i).
  destruct (truthyS (OrderItem.productVariantId item)); simpl; [|reflexivity].
  destruct (String.eqb _ i); lia.
Qed.

(** The stock update of the confirmation path, as one pass over the
    variant table. *)
Lemma verifyAndCreateOrder_updateStock_spec (orderItems : list OrderItem.t) :
  forall db,
    OrderService.verifyAndCreateOrder_updateStock db orderItems
    = set_productVariants db
        (map (withStock (fun i => (- orderedQuantity i orderItems)%Z))
             (productVariants db)).
Proof.
  unfold OrderService.verifyAndCreateOrder_updateStock.
  induction orderItems as [|item rest IH]; intro db; simpl fold_left.
  - rewrite <- (set_productVariants_same db) at 1. f_equal.
    rewrite <- (map_id (productVariants db)) at 1.
    apply map_ext. intro v. symmetry. now apply withStock_id.
  - rewrite IH. clear IH.
    pose proof (orderedQuantity_cons) as Hc.
    destruct (truthyS (OrderItem.productVariantId item)) eqn:Et.
    + pose proof (productVariant_incrementStock_spec db
                    (idText (OrderItem.productVariantId item))
                    (- OrderItem.quantity item)) as S.
      destruct (productVariant_findUnique db _) as [v|].
      * rewrite S.
        change (set_productVariants db
                  (map (withStock
                          (fun i => (- orderedQuantity i rest)%Z))
                       (map (withStock
                               (fun j =>
                                  if String.eqb j
                                       (idText
                                          (OrderItem.productVariantId item))
                                  then (- OrderItem.quantity item)%Z
                                  else 0%Z))
                            (productVariants db)))
                = set_productVariants db
                    (map (withStock
                            (fun i =>
                               (- orderedQuantity i (item :: rest))%Z))
                         (productVariants db))).
        f_equal. apply withStock_compose.
        intro i. rewrite <- Hc, Et.
        destruct (String.eqb i _); lia.
      * destruct S as (-> & Hsame). f_equal.
        rewrite <- Hsame at 1. apply withStock_compose.
        intro i. rewrite <- Hc, Et.
        destruct (String.eqb i _); lia.
    + f_equal. apply map_ext. intros [i s p]. unfold withStock.
      cbn [ProductVariant.id ProductVariant.stock ProductVariant.price].
      f_equal. rewrite <- Hc, Et. lia.
Qed.

Lemma detailsLoop_stock (db : DB) (variants : list ProductVariant.t)
    (cartItems : list OrderItem.t) :
  forall subtotal itemsWithDetails,
    DiscountService.detailsLoop (set_productVariants db variants) cartItems
      subtotal itemsWithDetails
    = DiscountService.detailsLoop db cartItems subtotal itemsWithDetails.
Proof.
  induction cartItems as [|item rest IH]; intros s acc; simpl;
    [reflexivity|].
  change (product_findUnique (set_productVariants db variants)
            (OrderItem.productId item))
    with (product_findUnique db (OrderItem.productId item)).
  destruct (product_findUnique db (OrderItem.productId item))
    as [[product|]|m]; simpl; try reflexivity.
  apply IH.
Qed.

Lemma productDiscountsLoop_stock (db : DB) (variants : list ProductVariant.t)
    (now : Z) (userId : option Id)
    (itemsWithDetails : list DiscountService.ItemWithDetails.t) :
  forall productDiscounts appliedDiscounts,
    DiscountService.productDiscountsLoop (set_productVariants db variants)
      now userId itemsWithDetails productDiscounts appliedDiscounts
    = DiscountService.productDiscountsLoop db now userId itemsWithDetails
        productDiscounts appliedDiscounts.
Proof.
  induction itemsWithDetails as [|item rest IH]; intros s acc; simpl;
    [reflexivity|].
  change (DiscountService.calculateProductDiscount
            (set_productVariants db variants) now
            (Product.id (DiscountService.ItemWithDetails.product item)) userId)
    with (DiscountService.calculateProductDiscount db now
            (Product.id (DiscountService.ItemWithDetails.product item)) userId).
  destruct (DiscountService.calculateProductDiscount db now _ userId)
    as [pd|m]; simpl; [|reflexivity].
  destruct (DiscountService.ProductDiscount.hasDiscount pd); [|apply IH].
  destruct (DiscountService.ProductDiscount.bestDiscount pd);
    [apply IH | reflexivity].
Qed.

(** X26.  The confirmation path never looks at the stock: its totals are the
    same whatever the variant table holds, and its stock update takes the
    ordered quantity from every named variant that exists, without
    comparing it with what is left. *)
Theorem verifyAndCreateOrder_ignores_stock
    (db : DB) (now : Z) (orderData : OrderService.OrderData.t) :
  (forall variants,
     OrderService.verifyAndCreateOrder_totals
       (set_productVariants db variants) now orderData
     = OrderService.verifyAndCreateOrder_totals db now orderData)
  /\ (forall i,
       productVariant_findUnique
         (OrderService.verifyAndCreateOrder_updateStock db
            (OrderService.OrderData.orderItems orderData)) i
       = option_map
           (withStock
              (fun i => (- orderedQuantity i
                             (OrderService.OrderData.orderItems orderData))%Z))
           (productVariant_findUnique db i)).
Proof.
  split.
  - intro variants. unfold OrderService.verifyAndCreateOrder_totals.
    change DiscountService.calculateFinalAmountWithDiscounts
      with DiscountService.calculateFinalAmountWithDiscounts_2.
    unfold DiscountService.calculateFinalAmountWithDiscounts_2.
    rewrite detailsLoop_stock.
    destruct (DiscountService.detailsLoop db _ 0 []) as [[subtotal items]|m];
      cbn [bind]; [|reflexivity].
    change (DiscountService.validateDiscount (set_productVariants db variants))
      with (DiscountService.validateDiscount db).
    destruct (if truthyS (OrderService.OrderData.discountCode orderData)
              then _ else _) as [[a ap] e].
    rewrite productDiscountsLoop_stock. reflexivity.
  - intro i. rewrite verifyAndCreateOrder_updateStock_spec.
    apply productVariant_findUnique_withStock.
Qed.

(** *** createCODOrder *)

Lemma updateStockLoop_spec (orderItems : list OrderItem.t) :
  forall db db',
    OrderService.updateStockLoop db orderItems = Ok db' ->
    db' = OrderService.verifyAndCreateOrder_updateStock db orderItems.
Proof.
  unfold OrderService.verifyAndCreateOrder_updateStock.
  induction orderItems as [|item rest IH]; intros db db'; simpl.
  - intro H. now injection H as <-.
  - destruct (truthyS (OrderItem.productVariantId item)); [|apply IH].
    destruct (productVariant_incrementStock db _ _) as [db1|m];
      cbn [bind]; [apply IH | discriminate].
Qed.

Lemma calculateOrderTotals_Ok_inv (db : DB) (now : Z)
    (orderItems : list OrderItem.t) (discountCode shippingState : option string)
    (userId : option Id) (totals : OrderService.OrderTotals.t) :
  OrderService.calculateOrderTotals db now orderItems discountCode
    shippingState userId = Ok totals ->
  map OrderService.ItemWithPricing.item (OrderService.OrderTotals.items totals)
  = orderItems
  /\ Forall (lineValid db) orderItems
  /\ OrderService.OrderTotals.shippingCost totals
     = round2 (OrderService.calculateShippingCost shippingState).
Proof.
  intro H.
  assert (V : Forall (lineValid db) orderItems).
  { revert H. unfold OrderService.calculateOrderTotals.
    destruct orderItems as [|item rest]; [discriminate|].
    destruct (OrderService.pricingLoop db (item :: rest) 0 0 [])
      as [out|m] eqn:E; [|discriminate].
    intros _. apply (pricingLoop_ok_iff db (item :: rest) 0 0 []).
    now exists out. }
  revert H. unfold OrderService.calculateOrderTotals.
  destruct orderItems as [|item rest]; [discriminate|].
  destruct (OrderService.pricingLoop db (item :: rest) 0 0 [])
    as [[[s q] items]|m] eqn:E; simpl; [|discriminate].
  destruct (if truthyS discountCode then _ else _) as [[a ap] e].
  intro H. injection H as <-. simpl.
  destruct (pricingLoop_lines db _ _ _ _ _ _ _ E) as (lines & -> & Mi & _).
  simpl. split; [exact Mi|]. split; [exact V | reflexivity].
Qed.

(** What a successful [createCODOrder] leaves in its parts. *)
Lemma createCODOrder_Ok_inv (st st' : OrderService.Store.t) (now : Z) (id : Id)
    (orderNumber : string) (orderData : OrderService.CODOrderData.t)
    (order : OrderService.OrderRow.t) (totals : OrderService.OrderTotals.t) :
  OrderService.createCODOrder st now id orderNumber orderData
    = Ok (st', order, totals) ->
  OrderService.calculateOrderTotals (OrderService.Store.db st) now
    (OrderService.CODOrderData.orderItems orderData)
    (OrderService.CODOrderData.couponCode orderData) None None = Ok totals
  /\ (exists userId,
        OrderService.CODOrderData.userId orderData = Some userId
        /\ user_findUnique (OrderService.Store.db st) userId <> None
        /\ order
           = OrderService.OrderRow.mk id orderNumber userId "CONFIRMED"
               "PENDING" "COD" (OrderService.OrderTotals.totalAmount totals)
               (OrderService.OrderTotals.subtotal totals) None
               (OrderService.OrderTotals.shippingCost totals) now)
  /\ st'
     = OrderService.Store.mk
         (OrderService.verifyAndCreateOrder_updateStock
            (OrderService.Store.db st)
            (OrderService.CODOrderData.orderItems orderData))
         (OrderService.Store.order st ++ [order])
         (OrderService.Store.orderItem st
          ++ map (OrderService.orderItemRowOf id)
               (OrderService.OrderTotals.items totals)).
Proof.
  unfold OrderService.createCODOrder.
  destruct (negb _ || _ || _ || _ || _ || _ || _); [discriminate|].
  destruct (OrderService.calculateOrderTotals _ now _ _ None None)
    as [t|m]; cbn [bind]; [|discriminate].
  destruct (OrderService.CODOrderData.userId orderData) as [userId|];
    [|discriminate].
  destruct (user_findUnique (OrderService.Store.db st) userId) eqn:Eu;
    [|discriminate].
  destruct (OrderService.updateStockLoop _ _) as [db'|m] eqn:El;
    cbn [bind]; [|discriminate].
  intro H. injection H as <- <- <-.
  split; [reflexivity|]. split.
  - exists userId. split; [reflexivity|]. split; [congruence | reflexivity].
  - now rewrite (updateStockLoop_spec _ _ _ El).
Qed.

(** X27.  [createCODOrder] charges the shipping cost of the states that the
    table does not name, 200, whatever the state of the address, because
    it computes the totals without the state; and it prices the coupon
    but never records it: the discount table and the usage ledger are
    what they were, whatever discount the totals hold. *)
Theorem createCODOrder_shipping_and_coupon
    (st st' : OrderService.Store.t) (now : Z) (id : Id) (orderNumber : string)
    (orderData : OrderService.CODOrderData.t)
    (order : OrderService.OrderRow.t) (totals : OrderService.OrderTotals.t) :
  OrderService.createCODOrder st now id orderNumber orderData
    = Ok (st', order, totals) ->
  OrderService.OrderRow.shippingCost order == 200
  /\ OrderService.OrderTotals.shippingState totals = None
  /\ OrderService.OrderRow.totalAmount order
     = OrderService.OrderTotals.totalAmount totals
  /\ OrderService.OrderRow.discount order = None
  /\ OrderService.OrderRow.status order = "CONFIRMED"
  /\ OrderService.OrderRow.paymentStatus order = "PENDING"
  /\ discounts (OrderService.Store.db st')
     = discounts (OrderService.Store.db st)
  /\ discountUsages (OrderService.Store.db st')
     = discountUsages (OrderService.Store.db st).
Proof.
  intro H. apply createCODOrder_Ok_inv in H.
  destruct H as (Ht & (userId & _ & _ & ->) & ->).
  destruct (calculateOrderTotals_Ok_inv _ _ _ _ _ _ _ Ht) as (_ & _ & Hs).
  simpl. split; [rewrite Hs; vm_compute; reflexivity|].
  split.
  { revert Ht. unfold OrderService.calculateOrderTotals.
    destruct (OrderService.CODOrderData.orderItems orderData); [discriminate|].
    destruct (OrderService.pricingLoop _ _ 0 0 []) as [[[s q] items]|m];
      cbn [bind]; [|discriminate].
    destruct (if truthyS _ then _ else _) as [[a ap] e].
    intro H. now injection H as <-. }
  rewrite verifyAndCreateOrder_updateStock_spec. simpl.
  repeat (split; [reflexivity|]). reflexivity.
Qed.

Lemma createCODOrder_shipping_and_coupon_witness :
  exists st' order totals,
    OrderService.createCODOrder storeCOD 50 "o1" "ORD-1" codOrder
    = Ok (st', order, totals)
    /\ OrderService.OrderRow.shippingCost order == 200
    /\ OrderService.calculateShippingCost
         (OrderService.CODOrderData.state codOrder) == 80.
Proof.
  destruct (OrderService.createCODOrder storeCOD 50 "o1" "ORD-1" codOrder)
    as [[[st' order] totals]|m] eqn:E; [|vm_compute in E; discriminate].
  exists st', order, totals. split; [reflexivity|].
  split; [|vm_compute; reflexivity].
  exact (proj1 (createCODOrder_shipping_and_coupon storeCOD st' 50 "o1"
                  "ORD-1" codOrder order totals E)).
Defined.

Lemma orderedQuantity_not_named (i : Id) (orderItems : list OrderItem.t) :
  ~ In i (namedVariants orderItems) -> orderedQuantity i orderItems = 0%Z.
Proof.
  unfold namedVariants.
  induction orderItems as [|item rest IH]; simpl; [reflexivity|].
  destruct (truthyS (OrderItem.productVariantId item)); simpl.
  - intro H.
    destruct (String.eqb (idText (OrderItem.productVariantId item)) i) eqn:E.
    + apply String.eqb_eq in E. elim H. now left.
    + apply IH. intro K. apply H. now right.
  - exact IH.
Qed.

(** X28.  After a cash-on-delivery order every variant has lost exactly the
    quantity that the lines of the order name for it.  When no two lines
    name the same variant, a stock that was not negative stays so; the
    stock check is made line by line, so that nothing is promised when two
    lines share a variant. *)
Theorem createCODOrder_stock
    (st st' : OrderService.Store.t) (now : Z) (id : Id) (orderNumber : string)
    (orderData : OrderService.CODOrderData.t)
    (order : OrderService.OrderRow.t) (totals : OrderService.OrderTotals.t) :
  OrderService.createCODOrder st now id orderNumber orderData
    = Ok (st', order, totals) ->
  (forall i,
     productVariant_findUnique (OrderService.Store.db st') i
     = option_map
         (withStock
            (fun i =>
               (- orderedQuantity i
                    (OrderService.CODOrderData.orderItems orderData))%Z))
         (productVariant_findUnique (OrderService.Store.db st) i))
  /\ (NoDup (namedVariants (OrderService.CODOrderData.orderItems orderData)) ->
      forall i v v',
        productVariant_findUnique (OrderService.Store.db st) i = Some v ->
        productVariant_findUnique (OrderService.Store.db st') i = Some v' ->
        (0 <= ProductVariant.stock v)%Z ->
        (0 <= ProductVariant.stock v')%Z).
Proof.
  intro H. apply createCODOrder_Ok_inv in H.
  destruct H as (Ht & _ & ->). simpl.
  destruct (calculateOrderTotals_Ok_inv _ _ _ _ _ _ _ Ht) as (_ & V & _).
  assert (F : forall i,
            productVariant_findUnique
              (OrderService.verifyAndCreateOrder_updateStock
                 (OrderService.Store.db st)
                 (OrderService.CODOrderData.orderItems orderData)) i
            = option_map
                (withStock
                   (fun i =>
                      (- orderedQuantity i
                           (OrderService.CODOrderData.orderItems
                              orderData))%Z))
                (productVariant_findUnique (OrderService.Store.db st) i)).
  { intro i. rewrite verifyAndCreateOrder_updateStock_spec.
    apply productVariant_findUnique_withStock. }
  split; [exact F|].
  intros Hnd i v v' Hv Hv' Hpos. rewrite F, Hv in Hv'. simpl in Hv'.
  injection Hv' as <-. unfold withStock. simpl.
  assert (Hi : ProductVariant.id v = i).
  { unfold productVariant_findUnique in Hv. apply find_some in Hv.
    now apply String.eqb_eq. }
  rewrite Hi.
  assert (Q : (orderedQuantity i
                 (OrderService.CODOrderData.orderItems orderData)
               <= ProductVariant.stock v)%Z).
  { revert V Hnd.
    generalize (OrderService.CODOrderData.orderItems orderData) as items.
    induction items as [|item rest IH]; intros V Hnd; simpl; [exact Hpos|].
    pose proof (Forall_inv V) as (_ & _ & _ & Hline).
    apply Forall_inv_tail in V. unfold namedVariants in Hnd. simpl in Hnd.
    destruct (truthyS (OrderItem.productVariantId item)) eqn:Et; simpl;
      [|now apply IH].
    simpl in Hnd. apply NoDup_cons_iff in Hnd.
    destruct Hnd as (Hnot & Hnd').
    destruct (String.eqb (idText (OrderItem.productVariantId item)) i) eqn:E;
      [|now apply IH].
    apply String.eqb_eq in E.
    rewrite E in Hnot. rewrite (orderedQuantity_not_named i rest Hnot).
    destruct (Hline eq_refl) as (w & Hw & Hq). rewrite E, Hv in Hw.
    injection Hw as <-. lia. }
  lia.
Qed.

Lemma createCODOrder_stock_witness :
  exists st' order totals,
    OrderService.createCODOrder storeCOD 50 "o1" "ORD-1" codOrder
    = Ok (st', order, totals)
    /\ option_map ProductVariant.stock
         (productVariant_findUnique (OrderService.Store.db st') "v1")
       = Some 3%Z.
Proof.
  destruct (OrderService.createCODOrder storeCOD 50 "o1" "ORD-1" codOrder)
    as [[[st' order] totals]|m] eqn:E; [|vm_compute in E; discriminate].
  exists st', order, totals. split; [reflexivity|].
  rewrite (proj1 (createCODOrder_stock storeCOD st' 50 "o1" "ORD-1" codOrder
                    order totals E) "v1").
  reflexivity.
Defined.

(** *** deleteOrder after createCODOrder *)

Lemma restoreStockLoop_of_lines (orderId : Id)
    (lines : list OrderService.ItemWithPricing.t) :
  forall db,
    Forall (fun item =>
              truthyS (OrderItem.productVariantId item) = true ->
              productVariant_findUnique db
                (idText (OrderItem.productVariantId item)) <> None)
           (map OrderService.ItemWithPricing.item lines) ->
    OrderService.restoreStockLoop db
      (map (OrderService.orderItemRowOf orderId) lines)
    = Ok (set_productVariants db
            (map (withStock
                    (fun i =>
                       orderedQuantity i
                         (map OrderService.ItemWithPricing.item lines)))
                 (productVariants db))).
Proof.
  induction lines as [|line rest IH]; intros db F.
  - simpl. rewrite <- (set_productVariants_same db) at 1. do 2 f_equal.
    rewrite <- (map_id (productVariants db)) at 1.
    apply map_ext. intro v. symmetry. now apply withStock_id.
  - change (map OrderService.ItemWithPricing.item (line :: rest))
      with (OrderService.ItemWithPricing.item line
            :: map OrderService.ItemWithPricing.item rest) in *.
    change (map (OrderService.orderItemRowOf orderId) (line :: rest))
      with (OrderService.orderItemRowOf orderId line
            :: map (OrderService.orderItemRowOf orderId) rest).
    pose proof (Forall_inv F) as Hi. cbv beta in Hi.
    apply Forall_inv_tail in F.
    pose proof (orderedQuantity_cons) as Hc.
    cbn [OrderService.restoreStockLoop].
    unfold OrderService.orderItemRowOf at 1 2 3.
    cbn [OrderService.OrderItemRow.productVariantId
         OrderService.OrderItemRow.quantity].
    remember (OrderService.ItemWithPricing.item line) as item eqn:Ei.
    destruct (truthyS (OrderItem.productVariantId item)) eqn:Et.
    + rewrite Et.
      pose proof (productVariant_incrementStock_spec db
                    (idText (OrderItem.productVariantId item))
                    (OrderItem.quantity item)) as S.
      destruct (productVariant_findUnique db
                  (idText (OrderItem.productVariantId item))) as [v|];
        [|now elim (Hi eq_refl)].
      rewrite S. cbn [bind]. rewrite IH.
      * change (Ok (set_productVariants db
                  (map (withStock
                          (fun i =>
                             orderedQuantity i
                               (map OrderService.ItemWithPricing.item rest)))
                       (map (withStock
                               (fun j =>
                                  if String.eqb j
                                       (idText
                                          (OrderItem.productVariantId item))
                                  then OrderItem.quantity item
                                  else 0%Z))
                            (productVariants db))))
                = Ok (set_productVariants db
                        (map (withStock
                                (fun i =>
                                   orderedQuantity i
                                     (item
                                      :: map OrderService.ItemWithPricing.item
                                           rest)))
                             (productVariants db)))).
        do 2 f_equal. apply withStock_compose.
        intro i. rewrite <- Hc, Et. reflexivity.
      * eapply Forall_impl; [|exact F]. intros it Hit Ht.
        rewrite productVariant_findUnique_withStock.
        cbv beta in Hit. specialize (Hit Ht).
        destruct (productVariant_findUnique db
                    (idText (OrderItem.productVariantId it)));
          [discriminate | now elim Hit].
    + cbn [truthyS]. rewrite IH; [|exact F].
      do 2 f_equal. apply map_ext. intros [i s p]. unfold withStock.
      cbn [ProductVariant.id ProductVariant.stock ProductVariant.price].
      f_equal. rewrite <- Hc, Et. lia.
Qed.

Lemma filter_all (A : Type) (f : A -> bool) (l : list A) :
  (forall x, In x l -> f x = true) -> filter f l = l.
Proof.
  induction l as [|x l IH]; intro H; simpl; [reflexivity|].
  rewrite (H x (or_introl eq_refl)). f_equal. apply IH.
  intros y Hy. apply H. now right.
Qed.

Lemma filter_none (A : Type) (f : A -> bool) (l : list A) :
  (forall x, In x l -> f x = false) -> filter f l = [].
Proof.
  induction l as [|x l IH]; intro H; simpl; [reflexivity|].
  rewrite (H x (or_introl eq_refl)). apply IH.
  intros y Hy. apply H. now right.
Qed.

(** X29.  Deleting a cash-on-delivery order that has just been placed gives the
    store back as it was: the order and its lines are gone and every
    variant has its stock again.  The key of the order is new, as the
    store guarantees. *)
Theorem createCODOrder_then_deleteOrder
    (st st' : OrderService.Store.t) (now : Z) (id : Id) (orderNumber : string)
    (orderData : OrderService.CODOrderData.t)
    (order : OrderService.OrderRow.t) (totals : OrderService.OrderTotals.t) :
  (forall o, In o (OrderService.Store.order st) ->
     OrderService.OrderRow.id o <> id) ->
  (forall item, In item (OrderService.Store.orderItem st) ->
     OrderService.OrderItemRow.orderId item <> id) ->
  OrderService.createCODOrder st now id orderNumber orderData
    = Ok (st', order, totals) ->
  OrderService.deleteOrder st' id = Ok st.
Proof.
  intros Ho Hi H. apply createCODOrder_Ok_inv in H.
  destruct H as (Ht & (userId & _ & _ & Hrow) & ->).
  destruct (calculateOrderTotals_Ok_inv _ _ _ _ _ _ _ Ht) as (Hm & V & _).
  assert (Hid : OrderService.OrderRow.id order = id) by now subst order.
  assert (Hst : OrderService.OrderRow.status order = "CONFIRMED")
    by now subst order.
  clear Hrow.
  unfold OrderService.deleteOrder, OrderService.orderRow_findUnique.
  cbn [OrderService.Store.order OrderService.Store.orderItem
       OrderService.Store.db].
  rewrite (find_app_last OrderService.OrderRow.t _
             (OrderService.Store.order st) order).
  2:{ intros o Hin. apply String.eqb_neq. now apply Ho. }
  2:{ rewrite Hid. apply String.eqb_refl. }
  rewrite Hst. cbn [String.eqb Ascii.eqb Bool.eqb orb andb].
  rewrite !filter_app.
  rewrite (filter_none OrderService.OrderItemRow.t
             (fun item => String.eqb (OrderService.OrderItemRow.orderId item) id)
             (OrderService.Store.orderItem st)).
  2:{ intros item Hin. apply String.eqb_neq. now apply Hi. }
  rewrite (filter_all OrderService.OrderItemRow.t
             (fun item => String.eqb (OrderService.OrderItemRow.orderId item) id)
             (map (OrderService.orderItemRowOf id)
                (OrderService.OrderTotals.items totals))).
  2:{ intros item Hin. apply in_map_iff in Hin. destruct Hin as (l & <- & _).
      apply String.eqb_refl. }
  rewrite (filter_all OrderService.OrderRow.t
             (fun o => negb (String.eqb (OrderService.OrderRow.id o) id))
             (OrderService.Store.order st)).
  2:{ intros o Hin. apply negb_true_iff, String.eqb_neq. now apply Ho. }
  rewrite (filter_all OrderService.OrderItemRow.t
             (fun item =>
                negb (String.eqb (OrderService.OrderItemRow.orderId item) id))
             (OrderService.Store.orderItem st)).
  2:{ intros item Hin. apply negb_true_iff, String.eqb_neq. now apply Hi. }
  rewrite (filter_none OrderService.OrderItemRow.t
             (fun item =>
                negb (String.eqb (OrderService.OrderItemRow.orderId item) id))
             (map (OrderService.orderItemRowOf id)
                (OrderService.OrderTotals.items totals))).
  2:{ intros item Hin. apply in_map_iff in Hin. destruct Hin as (l & <- & _).
      simpl. now rewrite String.eqb_refl. }
  cbn [filter]. rewrite Hid, String.eqb_refl. cbn [negb app].
  rewrite !app_nil_r.
  rewrite restoreStockLoop_of_lines.
  - cbn [bind]. rewrite Hm, verifyAndCreateOrder_updateStock_spec.
    destruct st as [db orders items].
    cbn [OrderService.Store.order OrderService.Store.orderItem
         OrderService.Store.db].
    assert (Hdb : forall items',
              set_productVariants
                (set_productVariants db
                   (map (withStock (fun i => (- orderedQuantity i items')%Z))
                        (productVariants db)))
                (map (withStock (fun i => orderedQuantity i items'))
                     (productVariants
                        (set_productVariants db
                           (map (withStock
                                   (fun i => (- orderedQuantity i items')%Z))
                                (productVariants db)))))
              = db).
    { intro items'.
      transitivity (set_productVariants db (productVariants db));
        [|apply set_productVariants_same].
      change (set_productVariants db
                (map (withStock (fun i => orderedQuantity i items'))
                     (map (withStock
                             (fun i => (- orderedQuantity i items')%Z))
                          (productVariants db)))
              = set_productVariants db (productVariants db)).
      f_equal. rewrite <- (map_id (productVariants db)) at 2.
      rewrite map_map. apply map_ext. intros [i s p]. unfold withStock.
      cbn [ProductVariant.id ProductVariant.stock ProductVariant.price].
      f_equal. lia. }
    now rewrite Hdb.
  - rewrite Hm. rewrite Forall_forall in *. intros item Hin Htr.
    destruct (V item Hin) as (_ & _ & _ & Hline).
    destruct (Hline Htr) as (w & Hw & _).
    rewrite verifyAndCreateOrder_updateStock_spec,
      productVariant_findUnique_withStock, Hw. discriminate.
Qed.

Lemma createCODOrder_then_deleteOrder_witness :
  exists st' order totals,
    OrderService.createCODOrder storeCOD 50 "o1" "ORD-1" codOrder
    = Ok (st', order, totals)
    /\ OrderService.deleteOrder st' "o1" = Ok storeCOD.
Proof.
  destruct (OrderService.createCODOrder storeCOD 50 "o1" "ORD-1" codOrder)
    as [[[st' order] totals]|m] eqn:E; [|vm_compute in E; discriminate].
  exists st', order, totals. split; [reflexivity|].
  apply (createCODOrder_then_deleteOrder storeCOD st' 50 "o1" "ORD-1" codOrder
           order totals); [intros o [] | intros item [] | exact E].
Defined.

(** *** cancelExpiredPendingOrders *)

Lemma NoDup_map_eq (A B : Type) (f : A -> B) (l : list A) (x y : A) :
  NoDup (map f l) -> In x l -> In y l -> f x = f y -> x = y.
Proof.
  induction l as [|z l IH]; intros Hnd Hx Hy E; [destruct Hx|].
  simpl in Hnd. apply NoDup_cons_iff in Hnd. destruct Hnd as (Hnot & Hnd).
  destruct Hx as [->|Hx], Hy as [->|Hy]; try reflexivity.
  - elim Hnot. rewrite E. now apply in_map.
  - elim Hnot. rewrite <- E. now apply in_map.
  - now apply IH.
Qed.

Lemma fold_cancelOrder (expiredOrders : list OrderService.OrderRow.t) :
  forall st,
    fold_left OrderService.cancelOrder expiredOrders st
    = OrderService.Store.mk (OrderService.Store.db st)
        (map (fun o =>
                if existsb
                     (fun e => String.eqb (OrderService.OrderRow.id o)
                                 (OrderService.OrderRow.id e))
                     expiredOrders
                then OrderService.cancelled o else o)
             (OrderService.Store.order st))
        (OrderService.Store.orderItem st).
Proof.
  induction expiredOrders as [|e rest IH]; intros [db orders items].
  - simpl. now rewrite map_id.
  - cbn [fold_left]. rewrite IH. unfold OrderService.cancelOrder.
    cbn [OrderService.Store.db OrderService.Store.order
         OrderService.Store.orderItem].
    f_equal. rewrite map_map. apply map_ext. intro o.
    cbn [existsb].
    destruct (String.eqb (OrderService.OrderRow.id o)
                (OrderService.OrderRow.id e)); cbn [orb].
    + now destruct (existsb _ rest).
    + reflexivity.
Qed.

(** X30.  [cancelExpiredPendingOrders] cancels exactly the orders that are
    pending, unpaid and older than 24 hours, and leaves the other orders,
    the order lines and the stock as they are.  Afterwards no order is
    left to cancel, so that a second run at the same time changes
    nothing. *)
Theorem cancelExpiredPendingOrders_spec
    (st st' : OrderService.Store.t) (now : Z)
    (result : OrderService.Cancellation.t) :
  NoDup (map OrderService.OrderRow.id (OrderService.Store.order st)) ->
  OrderService.cancelExpiredPendingOrders st now = (st', result) ->
  OrderService.Store.order st'
  = map (fun o => if OrderService.isExpiredPending now o
                  then OrderService.cancelled o else o)
        (OrderService.Store.order st)
  /\ OrderService.Store.db st' = OrderService.Store.db st
  /\ OrderService.Store.orderItem st' = OrderService.Store.orderItem st
  /\ Forall (fun o => forall now',
               OrderService.isExpiredPending now o = true ->
               OrderService.isExpiredPending now'
                 (OrderService.cancelled o) = false)
       (OrderService.Store.order st)
  /\ OrderService.cancelExpiredPendingOrders st' now
     = (st', OrderService.Cancellation.mk 0 []).
Proof.
  intros Hnd H. unfold OrderService.cancelExpiredPendingOrders in H.
  injection H as <- <-. rewrite fold_cancelOrder.
  cbn [OrderService.Store.db OrderService.Store.order
       OrderService.Store.orderItem].
  assert (Hmap :
            map (fun o =>
                   if existsb
                        (fun e => String.eqb (OrderService.OrderRow.id o)
                                    (OrderService.OrderRow.id e))
                        (filter (OrderService.isExpiredPending now)
                           (OrderService.Store.order st))
                   then OrderService.cancelled o else o)
                (OrderService.Store.order st)
            = map (fun o => if OrderService.isExpiredPending now o
                            then OrderService.cancelled o else o)
                  (OrderService.Store.order st)).
  { apply map_ext_in. intros o Ho.
    destruct (OrderService.isExpiredPending now o) eqn:Ex.
    - assert (E : existsb
                    (fun e => String.eqb (OrderService.OrderRow.id o)
                                (OrderService.OrderRow.id e))
                    (filter (OrderService.isExpiredPending now)
                       (OrderService.Store.order st)) = true).
      { apply existsb_exists. exists o. split.
        - apply filter_In. now split.
        - apply String.eqb_refl. }
      now rewrite E.
    - destruct (existsb _ _) eqn:E; [|reflexivity].
      apply existsb_exists in E. destruct E as (e & He & Hid).
      apply filter_In in He. destruct He as (He & Hexp).
      apply String.eqb_eq in Hid.
      rewrite (NoDup_map_eq _ _ OrderService.OrderRow.id _ o e Hnd Ho He Hid)
        in Ex.
      congruence. }
  rewrite Hmap.
  split; [reflexivity|]. split; [reflexivity|]. split; [reflexivity|].
  split.
  - rewrite Forall_forall. intros o _ now' _. reflexivity.
  - unfold OrderService.cancelExpiredPendingOrders.
    cbn [OrderService.Store.db OrderService.Store.order
         OrderService.Store.orderItem].
    rewrite (filter_none OrderService.OrderRow.t
               (OrderService.isExpiredPending now)).
    + reflexivity.
    + intros o Ho. apply in_map_iff in Ho. destruct Ho as (x & <- & _).
      destruct (OrderService.isExpiredPending now x) eqn:Ex;
        [reflexivity | exact Ex].
Qed.

Lemma cancelExpiredPendingOrders_spec_witness :
  exists st' result,
    OrderService.cancelExpiredPendingOrders storeBook 100000000
    = (st', result)
    /\ map OrderService.OrderRow.status (OrderService.Store.order st')
       = ["CANCELLED"; "PENDING"].
Proof.
  destruct (OrderService.cancelExpiredPendingOrders storeBook 100000000)
    as [st' result] eqn:E.
  exists st', result. split; [reflexivity|].
  rewrite (proj1 (cancelExpiredPendingOrders_spec storeBook st' 100000000
                    result
                    ltac:(simpl; repeat constructor; simpl; intuition
                            discriminate)
                    E)).
  reflexivity.
Defined.
